(** * OrdersHelper: order lifecycle, payment recording, rating and file names

    A shallow embedding of the [OrdersHelper] class of the order back end.
    JavaScript values are modelled as follows.

    - A string is the list of its code units ([str]), taken in the range of
      Latin-1; [length], [split], [join], [slice] and [concat] act on that
      list as the [String.prototype] and [Array.prototype] methods of the
      same name do.
    - Integers that the code compares or subtracts are in [Z].  A rating is
      a binary64 number ([number]), and the running average is computed with
      the rounding of IEEE 754, as [*], [+] and [/] do.  Prices and
      discounts are stored and read back, never computed with; they are
      carried as rationals ([Q]).
    - [undefined] and [null] are [None]; reading a property of [None] throws
      [TypeError].
    - The relational store is a record of tables, every table the list of its
      rows in insertion order.  [findOne] returns the first row that matches,
      [create] appends a row with a fresh primary key, [update] rewrites the
      matching rows in place.
    - The calls of a function run one after the other.  A statement is part
      of a transaction when [{ transaction: t }] is in its options argument;
      every other statement, one that passes [t] an argument too late
      included, runs outside: it reads and writes what is committed and does
      not see the rows of the transaction.  When the callback rejects, the
      writes of the transaction are undone and those made outside stay.
    - Whether a deadline is a date that the store accepts is not decided by
      the sources: it is a parameter of [revisionRequest]. *)

From Stdlib Require Import Ascii String DecimalString ZArith QArith SpecFloat Bool
  Lia List.
Import ListNotations.

Local Open Scope Z_scope.

(* ===================================================================== *)
(** * JavaScript strings, arrays and completions                          *)
(* ===================================================================== *)

Module Js.

(** A string, as the list of its code units. *)
Definition str := list ascii.

(** A string literal of the source. *)
Definition lit (s : string) : str := list_ascii_of_string s.

Definition dot : ascii := "."%char.

(** [s.length] and [a.length]. *)
Definition len {A : Type} (l : list A) : Z := Z.of_nat (length l).

Definition str_eqb (a b : str) : bool :=
  if list_eq_dec ascii_dec a b then true else false.

(** What a call throws.  [Error cause] is [new Error(cause)]; [StoreError] is
    the rejection of a statement that the store refuses. *)
Inductive exn : Type :=
| TypeError : exn
| StoreError : exn
| Error (cause : exn) : exn.

(** The completion of a call: a value, or an exception. *)
Inductive result (A : Type) : Type :=
| Ok (a : A) : result A
| Throw (e : exn) : result A.
Arguments Ok {A} a.
Arguments Throw {A} e.

(** [s.split(sep)] for a one-character separator: never empty. *)
Fixpoint split (sep : ascii) (s : str) : list str :=
  match s with
  | [] => [[]]
  | c :: rest =>
      if Ascii.eqb c sep then [] :: split sep rest
      else match split sep rest with
           | [] => [[c]]
           | seg :: segs => (c :: seg) :: segs
           end
  end.

(** [a.join(sep)]. *)
Fixpoint join (sep : str) (a : list str) : str :=
  match a with
  | [] => []
  | [s] => s
  | s :: rest => s ++ sep ++ join sep rest
  end.

(** [a[i]]: [undefined] out of range. *)
Definition index {A : Type} (a : list A) (i : Z) : option A :=
  if i <? 0 then None else nth_error a (Z.to_nat i).

(** The array after [a.pop()]. *)
Definition pop {A : Type} (a : list A) : list A := removelast a.

(** A relative index of [slice], clamped into [0 .. n]. *)
Definition clamp (n i : Z) : Z :=
  if i <? 0 then Z.max (n + i) 0 else Z.min i n.

(** [s.slice(start, end)]. *)
Definition slice {A : Type} (s : list A) (start stop : Z) : list A :=
  let n := len s in
  let from := clamp n start in
  let to := clamp n stop in
  firstn (Z.to_nat (to - from)) (skipn (Z.to_nat from) s).

(** [s.concat(a, b)]. *)
Definition concat (s a b : str) : str := s ++ a ++ b.

(** [c.toLowerCase()] on a code unit: the letters A to Z, and the capital
    letters of Latin-1 (192 to 222, the multiplication sign 215 apart). *)
Definition lower_char (c : ascii) : ascii :=
  let n := nat_of_ascii c in
  if ((Nat.leb 65 n && Nat.leb n 90)
      || (Nat.leb 192 n && Nat.leb n 222 && negb (Nat.eqb n 215)))%bool
  then ascii_of_nat (n + 32) else c.

Definition toLowerCase (s : str) : str := map lower_char s.

(** A number is a binary64 float: 53 bits of precision, exponents below
    1024.  [*], [+] and [/] round to nearest, ties to even. *)
Definition number : Type := spec_float.

Definition num_mul : number -> number -> number := SFmul 53 1024.
Definition num_add : number -> number -> number := SFadd 53 1024.
Definition num_div : number -> number -> number := SFdiv 53 1024.

(** The number that an integer is, [a.length] among them. *)
Definition Number_of_Z (n : Z) : number := binary_normalize 53 1024 n 0 false.

(** The rational that a finite number is, in lowest terms. *)
Definition exact (x : number) : option Q :=
  match x with
  | S754_zero _ => Some 0%Q
  | S754_finite s m e =>
      Some (Qred (inject_Z (cond_Zopp s (Zpos m)) * (2 # 1) ^ e))%Q
  | S754_infinity _ | S754_nan => None
  end.

End Js.

Import Js.

(* ===================================================================== *)
(** * The file name formatter                                             *)
(* ===================================================================== *)

Definition MAX_ORIGINAL_NAME_LENGTH : Z := 50.

(** [OrdersHelper.originalNameFormatter].  [fileName] and [fileExtension]
    are [undefined] when the array read that defines them is out of range;
    [fileExtension.length] and [fileName.slice] then throw. *)
Definition originalNameFormatter (originalName : str) : result str :=
  let ORIGINAL_NAME_LENGTH := len originalName in
  if ORIGINAL_NAME_LENGTH >? MAX_ORIGINAL_NAME_LENGTH then
    let SPLIT_FILE_NAME := split dot originalName in
    let '(fileName, fileExtension) :=
      if len SPLIT_FILE_NAME >? 2 then
        (Some (join [dot] (pop SPLIT_FILE_NAME)),
         index (split dot originalName) (len SPLIT_FILE_NAME - 1))
      else
        (index (split dot originalName) 0,
         index (split dot originalName) 1) in
    match fileExtension with
    | None => Throw TypeError
    | Some fileExtension =>
        let remainingNameLength := MAX_ORIGINAL_NAME_LENGTH - len fileExtension in
        match fileName with
        | None => Throw TypeError
        | Some fileName =>
            Ok (concat (slice fileName 0 (remainingNameLength - 1)) [dot] fileExtension)
        end
    end
  else Ok originalName.

(** Whether a name contains a dot. *)
Definition has_dot (s : str) : bool := existsb (Ascii.eqb dot) s.

(* ===================================================================== *)
(** * The relational store                                                *)
(* ===================================================================== *)

(** One module per model, named as the model is, with the columns that the
    functions below read or write.  A column that the code fills with a
    value that may be [null] has an option type. *)

Module User.
Record t := mk { id : Z; email : str }.
End User.

Module Client.
Record t := mk { id : Z; userId : Z; loginVia : option str }.
End Client.

Module Currency.
Record t := mk { id : Z; currency : str; currencyCode : str }.
End Currency.

Module OrderStatus.
Record t := mk { id : Z; status : str }.
End OrderStatus.

Module PaymentStatus.
Record t := mk { id : Z; status : str }.
End PaymentStatus.

Module Order.
Record t := mk { id : Z; clientId : Z; statusId : Z; pageCount : Z }.
End Order.

Module OrderPaymentDetail.
Record t := mk {
  id : Z; orderId : option Z; currencyId : Z; extras : str;
  extrasTotalPrice : Q; totalPrice : Q; cpp : Q }.
End OrderPaymentDetail.

Module ClientOrderPostingStep.
Record t := mk { id : Z; clientId : Z; orderId : option Z; lastStep : Z }.
End ClientOrderPostingStep.

Module ClientPayment.
Record t := mk { id : Z; orderId : Z; statusId : Z }.
End ClientPayment.

Module Writer.
Record t := mk { id : Z; userId : Z; surname : str; otherNames : str }.
End Writer.

Module WriterOrder.
Record t := mk { id : Z; orderId : Z; writerId : Z }.
End WriterOrder.

Module OrderBid.
Record t := mk { id : Z; orderId : Z; writerId : Z; successful : bool }.
End OrderBid.

Module WriterRating.
Record t := mk { id : Z; orderId : Z; writerId : Z; rating : number }.
End WriterRating.

Module WriterAverageRating.
Record t := mk { id : Z; writerId : Z; rating : number }.
End WriterAverageRating.

Module PaperDiscount.
Record t := mk { id : Z; lowerLimit : Z; discount : Q }.
End PaperDiscount.

Module OrderFileType.
Record t := mk { id : Z; type : str }.
End OrderFileType.

Module OrderFile.
Record t := mk {
  id : Z; orderId : Z; fileUrl : str; originalName : str; type : Z;
  isDeleted : bool; submittedPaper : bool }.
End OrderFile.

(** The deadline of a revision: the date of the request with the hours and
    minutes read from its time.  Calendar arithmetic is not interpreted:
    which strings [new Date] reads as a date is left to the implementation,
    and the functions that store a deadline take as a parameter
    [Date_valid], which tells whether the [Date] that the code builds from
    the three parts is a valid date.  A row with an invalid date is
    refused. *)
Record Deadline := mkDeadline {
  deadlineDate : str; deadlineHours : option str; deadlineMinutes : option str }.

Module OrderRevision.
Record t := mk {
  id : Z; orderId : Z; revisionInstructions : list (str * str);
  deadline : Deadline; creator : Z; submitted : bool; isDeleted : bool }.
End OrderRevision.

Record Db := mkDb {
  users : list User.t;
  clients : list Client.t;
  currencies : list Currency.t;
  orderStatuses : list OrderStatus.t;
  paymentStatuses : list PaymentStatus.t;
  orders : list Order.t;
  orderPaymentDetails : list OrderPaymentDetail.t;
  clientOrderPostingSteps : list ClientOrderPostingStep.t;
  clientPayments : list ClientPayment.t;
  writers : list Writer.t;
  writerOrders : list WriterOrder.t;
  orderBids : list OrderBid.t;
  writerRatings : list WriterRating.t;
  writerAverageRatings : list WriterAverageRating.t;
  paperDiscounts : list PaperDiscount.t;
  orderFileTypes : list OrderFileType.t;
  orderFiles : list OrderFile.t;
  orderRevisions : list OrderRevision.t }.

(** The tables that the functions below write, each with its setter. *)
Definition set_orders (db : Db) (rows : list Order.t) : Db :=
  mkDb (users db) (clients db) (currencies db) (orderStatuses db)
    (paymentStatuses db) rows (orderPaymentDetails db)
    (clientOrderPostingSteps db) (clientPayments db) (writers db)
    (writerOrders db) (orderBids db) (writerRatings db)
    (writerAverageRatings db) (paperDiscounts db) (orderFileTypes db)
    (orderFiles db) (orderRevisions db).

Definition set_orderPaymentDetails (db : Db) (rows : list OrderPaymentDetail.t) : Db :=
  mkDb (users db) (clients db) (currencies db) (orderStatuses db)
    (paymentStatuses db) (orders db) rows
    (clientOrderPostingSteps db) (clientPayments db) (writers db)
    (writerOrders db) (orderBids db) (writerRatings db)
    (writerAverageRatings db) (paperDiscounts db) (orderFileTypes db)
    (orderFiles db) (orderRevisions db).

Definition set_clientOrderPostingSteps (db : Db) (rows : list ClientOrderPostingStep.t) : Db :=
  mkDb (users db) (clients db) (currencies db) (orderStatuses db)
    (paymentStatuses db) (orders db) (orderPaymentDetails db)
    rows (clientPayments db) (writers db)
    (writerOrders db) (orderBids db) (writerRatings db)
    (writerAverageRatings db) (paperDiscounts db) (orderFileTypes db)
    (orderFiles db) (orderRevisions db).

Definition set_writerOrders (db : Db) (rows : list WriterOrder.t) : Db :=
  mkDb (users db) (clients db) (currencies db) (orderStatuses db)
    (paymentStatuses db) (orders db) (orderPaymentDetails db)
    (clientOrderPostingSteps db) (clientPayments db) (writers db)
    rows (orderBids db) (writerRatings db)
    (writerAverageRatings db) (paperDiscounts db) (orderFileTypes db)
    (orderFiles db) (orderRevisions db).

Definition set_orderBids (db : Db) (rows : list OrderBid.t) : Db :=
  mkDb (users db) (clients db) (currencies db) (orderStatuses db)
    (paymentStatuses db) (orders db) (orderPaymentDetails db)
    (clientOrderPostingSteps db) (clientPayments db) (writers db)
    (writerOrders db) rows (writerRatings db)
    (writerAverageRatings db) (paperDiscounts db) (orderFileTypes db)
    (orderFiles db) (orderRevisions db).

Definition set_writerRatings (db : Db) (rows : list WriterRating.t) : Db :=
  mkDb (users db) (clients db) (currencies db) (orderStatuses db)
    (paymentStatuses db) (orders db) (orderPaymentDetails db)
    (clientOrderPostingSteps db) (clientPayments db) (writers db)
    (writerOrders db) (orderBids db) rows
    (writerAverageRatings db) (paperDiscounts db) (orderFileTypes db)
    (orderFiles db) (orderRevisions db).

Definition set_writerAverageRatings (db : Db) (rows : list WriterAverageRating.t) : Db :=
  mkDb (users db) (clients db) (currencies db) (orderStatuses db)
    (paymentStatuses db) (orders db) (orderPaymentDetails db)
    (clientOrderPostingSteps db) (clientPayments db) (writers db)
    (writerOrders db) (orderBids db) (writerRatings db)
    rows (paperDiscounts db) (orderFileTypes db)
    (orderFiles db) (orderRevisions db).

Definition set_orderFiles (db : Db) (rows : list OrderFile.t) : Db :=
  mkDb (users db) (clients db) (currencies db) (orderStatuses db)
    (paymentStatuses db) (orders db) (orderPaymentDetails db)
    (clientOrderPostingSteps db) (clientPayments db) (writers db)
    (writerOrders db) (orderBids db) (writerRatings db)
    (writerAverageRatings db) (paperDiscounts db) (orderFileTypes db)
    rows (orderRevisions db).

Definition set_orderRevisions (db : Db) (rows : list OrderRevision.t) : Db :=
  mkDb (users db) (clients db) (currencies db) (orderStatuses db)
    (paymentStatuses db) (orders db) (orderPaymentDetails db)
    (clientOrderPostingSteps db) (clientPayments db) (writers db)
    (writerOrders db) (orderBids db) (writerRatings db)
    (writerAverageRatings db) (paperDiscounts db) (orderFileTypes db)
    (orderFiles db) rows.

(* ===================================================================== *)
(** * Asynchronous code as a state and exception monad                    *)
(* ===================================================================== *)

(** An [async] function reads and writes a store of type [S] and either
    returns or rejects.  The store is threaded through a rejection as well:
    outside a transaction the rows written before the failure stay. *)
Definition ST (S A : Type) : Type := S -> result A * S.

(** The functions of [OrdersHelper] act on the store [Db]. *)
Definition M (A : Type) : Type := ST Db A.

Definition ret {S A : Type} (a : A) : ST S A := fun db => (Ok a, db).

Definition throw {S A : Type} (e : exn) : ST S A := fun db => (Throw e, db).

Definition bind {S A B : Type} (m : ST S A) (k : A -> ST S B) : ST S B :=
  fun db =>
    match m db with
    | (Ok a, db') => k a db'
    | (Throw e, db') => (Throw e, db')
    end.

Notation "x <- m ;; k" := (bind m (fun x => k))
  (at level 61, m at next level, right associativity).
Notation "m ;;; k" := (bind m (fun _ => k))
  (at level 61, right associativity).

(** [o.field] for an [o] that may be [null]: the object, or a [TypeError]. *)
Definition deref {S A : Type} (o : option A) : ST S A :=
  match o with
  | Some a => ret a
  | None => throw TypeError
  end.

(** A synchronous call that may throw, inside an [async] function. *)
Definition lift {S A : Type} (r : result A) : ST S A :=
  match r with
  | Ok a => ret a
  | Throw e => throw e
  end.

(** [.catch(error => { throw new Error(error) })]. *)
Definition rethrow {S A : Type} (m : ST S A) : ST S A :=
  fun db =>
    match m db with
    | (Ok a, db') => (Ok a, db')
    | (Throw e, db') => (Throw (Error e), db')
    end.

(** ** Transactions *)

(** [MODEL.sequelize.transaction(async t => ...)] hands the transaction [t]
    to its callback.  A statement belongs to the transaction when [t] is in
    its options, as in [Model.create(values, { transaction: t })].  The
    options are the first argument of [findOne] and [findAll] and the second
    of [create] and [update]: a [{ transaction: t }] that comes one argument
    later is not read, and the statement runs on its own, outside the
    transaction, as does a statement that is given no [t] at all and a call
    of another function of [OrdersHelper].

    While the callback runs the store is a session of two stores.  [kept] is
    what is committed: a statement outside the transaction reads it and
    writes to it, and it is what stays when the callback rejects.  [live] is
    [kept] with the writes of the transaction: a statement of the
    transaction reads it and writes to it, and it is the store when the
    callback returns. *)
Record Session (S : Type) : Type := mkSession { live : S; kept : S }.
Arguments mkSession {S} live kept.
Arguments live {S} s.
Arguments kept {S} s.

(** A statement of the transaction. *)
Definition within {S A : Type} (m : ST S A) : ST (Session S) A :=
  fun s => let (r, d) := m (live s) in (r, mkSession d (kept s)).

(** A statement outside the transaction: its outcome is the one on the
    committed store, and its writes are seen by the transaction too. *)
Definition outside {S A : Type} (m : ST S A) : ST (Session S) A :=
  fun s => let (r, k) := m (kept s) in (r, mkSession (snd (m (live s))) k).

(** The transaction commits when the callback returns and is rolled back
    when it rejects. *)
Definition transaction {S A : Type} (m : ST (Session S) A) : ST S A :=
  fun db =>
    match m (mkSession db db) with
    | (Ok a, s) => (Ok a, live s)
    | (Throw e, s) => (Throw e, kept s)
    end.

(** ** Queries *)

(** [Model.findOne({ where })]: the first matching row, or [null]. *)
Definition findOne {R : Type} (table : Db -> list R) (where_ : R -> bool)
  : M (option R) :=
  fun db => (Ok (find where_ (table db)), db).

(** [Model.findOne({ where, order: [['createdAt', 'DESC']] })]: rows are kept
    in insertion order, which is the order of [createdAt]; the latest
    matching row is the last one. *)
Definition findLatest {R : Type} (table : Db -> list R) (where_ : R -> bool)
  : M (option R) :=
  fun db => (Ok (find where_ (rev (table db))), db).

(** [Model.findAll({ where })]. *)
Definition findAll {R : Type} (table : Db -> list R) (where_ : R -> bool)
  : M (list R) :=
  fun db => (Ok (filter where_ (table db)), db).

(** The next value of an auto-increment key. *)
Definition next_id {R : Type} (pk : R -> Z) (rows : list R) : Z :=
  1 + fold_right (fun r m => Z.max (pk r) m) 0 rows.

(** [Model.create(values)]: the new row, appended under a fresh key. *)
Definition create {R : Type} (table : Db -> list R)
  (set : Db -> list R -> Db) (pk : R -> Z) (values : Z -> R) : M R :=
  fun db =>
    let row := values (next_id pk (table db)) in
    (Ok row, set db (table db ++ [row])).

(** [Model.update(values, { where })]: resolves to the one-element array
    [[affectedCount]]. *)
Definition update {R : Type} (table : Db -> list R)
  (set : Db -> list R -> Db) (values : R -> R) (where_ : R -> bool)
  : M (list Z) :=
  fun db =>
    (Ok [len (filter where_ (table db))],
     set db (map (fun r => if where_ r then values r else r) (table db))).

(** [where: { column: v }] for a column and a value that may be [null]:
    [IS NULL] when [v] is [null]. *)
Definition where_eq (column v : option Z) : bool :=
  match column, v with
  | Some a, Some b => a =? b
  | None, None => true
  | _, _ => false
  end.

(** Truthiness of a number that may be [null], of an array and of an
    object. *)
Definition truthy (v : option Z) : bool :=
  match v with
  | Some n => negb (n =? 0)
  | None => false
  end.

Definition truthy_array {A : Type} (a : list A) : bool := true.

Definition truthy_object {A : Type} (o : A) : bool := true.

(** [a || b] for a number [a] and a [b] that may be [null]. *)
Definition js_or (a : Z) (b : option Z) : option Z :=
  if a =? 0 then b else Some a.

(* ===================================================================== *)
(** * Requests and results                                                *)
(* ===================================================================== *)

Module Extra.
Record t := mk { id : Z }.
End Extra.

Module PaymentSummary.
Record t := mk {
  currencyCode : str; extrasList : list Extra.t;
  extrasTotalPrice : Q; totalPrice : Q; cpp : Q }.
End PaymentSummary.

(** The request of [updateOrderPayment]; an absent [orderId] is [0]. *)
Module PaymentReq.
Record t := mk { email : str; orderId : Z; paymentSummary : PaymentSummary.t }.
End PaymentReq.

Inductive PaymentResult : Type :=
| PaymentUpdated                      (* { response: 'success', newOrder: false } *)
| PaymentCreated (orderId : option Z) (* { response: 'success', orderId } *)
| NoOrderID.                          (* { response: 'no order ID' } *)

Module StatusReq.
Record t := mk { orderId : Z; writerId : Z; type : str }.
End StatusReq.

Module StatusResult.
Record t := mk {
  statusUpdated : bool; message : option str; writerAlreadyChosen : bool }.
End StatusResult.

Module RateReq.
Record t := mk { orderId : Z; rating : number }.
End RateReq.

Inductive RateResult : Type :=
| AlreadyRated          (* { rated: true } *)
| Plain (b : bool).     (* true, false *)

Module SupportingFile.
Record t := mk { fileUrl : str; originalName : str }.
End SupportingFile.

(** An entry of the revision checklist: [{ key, val }]. *)
Module ChecklistEntry.
Record t := mk { key : bool; val : str }.
End ChecklistEntry.

Module RevisionReq.
Record t := mk {
  email : str; orderId : Z;
  checklist : list (str * ChecklistEntry.t);
  deadlineDate : str; deadlineTime : str;
  supportingFiles : list SupportingFile.t }.
End RevisionReq.

Module RevisionResult.
Record t := mk { success : bool; message : option str }.
End RevisionResult.

(** [paperDiscount] of the resume projection: the number [0], the row that
    [PaperDiscount.findOne] returned (its [discount] attribute), or [null]. *)
Inductive DiscountValue : Type :=
| DiscountZero
| DiscountRow (discount : Q)
| DiscountNull.

(** The [client] object handed to [orderDetails]: a client row with the
    attributes its caller loaded. *)
Module ClientArg.
Record t := mk { id : Z; loginVia : option str }.
End ClientArg.

Module DetailsReq.
Record t := mk { email : str; orderId : Z }.
End DetailsReq.

(** What [orderDetails] returns. *)
Inductive Resume : Type :=
| ResumeNoOrder (user : ClientArg.t) (loginVia : option str)
| ResumeFinished (user : ClientArg.t) (loginVia : option str)
| ResumeOrder
    (orderDetails : Order.t)
    (paperDiscount : DiscountValue)
    (loginVia : option str)
    (orderPostingStep : option ClientOrderPostingStep.t)
    (orderPaymentDetails : option (OrderPaymentDetail.t * option Currency.t))
    (orderAlreadyPaidFor : bool)
    (orderAssignment : option (WriterOrder.t * option (Writer.t * option User.t)))
    (orderFiles : list OrderFile.t)
    (user : ClientArg.t).

(* ===================================================================== *)
(** * The workflows of [OrdersHelper]                                     *)
(* ===================================================================== *)

(** [String(n)] for an integer. *)
Definition String_of_Z (n : Z) : str :=
  list_ascii_of_string (NilEmpty.string_of_int (Z.to_int n)).

(** [String(a)] for an array of integers: the elements joined by commas. *)
Definition String_of_array (a : list Z) : str :=
  join (lit ",") (map String_of_Z a).

(** [OrdersHelper.updateOrderPayment]. *)
Definition updateOrderPayment (req : PaymentReq.t) (phase : str)
  (requestOrderId : option Z) : M PaymentResult :=
  transaction (
    USER <- outside (findOne users
      (fun u => str_eqb (User.email u) (toLowerCase (PaymentReq.email req)))) ;;
    USER <- deref USER ;;
    CLIENT_ID <- outside (findOne clients
      (fun c => Client.userId c =? User.id USER)) ;;
    CURRENCY_ID <- outside (findOne currencies
      (fun c => str_eqb (Currency.currencyCode c)
                  (PaymentSummary.currencyCode (PaymentReq.paymentSummary req)))) ;;
    if (PaymentReq.orderId req >? 0) || truthy requestOrderId then
      let orderId := js_or (PaymentReq.orderId req) requestOrderId in
      orderPaymentId <- outside (findOne orderPaymentDetails
        (fun d => where_eq (OrderPaymentDetail.orderId d) orderId)) ;;
      let EXTRAS_IDS :=
        map Extra.id (PaymentSummary.extrasList (PaymentReq.paymentSummary req)) in
      match orderPaymentId with
      | Some _ =>
          CURRENCY <- deref CURRENCY_ID ;;
          rethrow (
            outside (update orderPaymentDetails set_orderPaymentDetails
              (fun d => OrderPaymentDetail.mk
                 (OrderPaymentDetail.id d)
                 (OrderPaymentDetail.orderId d)
                 (Currency.id CURRENCY)
                 (String_of_array EXTRAS_IDS)
                 (PaymentSummary.extrasTotalPrice (PaymentReq.paymentSummary req))
                 (PaymentSummary.totalPrice (PaymentReq.paymentSummary req))
                 (PaymentSummary.cpp (PaymentReq.paymentSummary req)))
              (fun d => where_eq (OrderPaymentDetail.orderId d) orderId)) ;;;
            (if str_eqb phase (lit "check-order") then
               CLIENT <- deref CLIENT_ID ;;
               within (create clientOrderPostingSteps set_clientOrderPostingSteps
                 ClientOrderPostingStep.id
                 (fun i => ClientOrderPostingStep.mk i (Client.id CLIENT) orderId 3)) ;;;
               ret tt
             else ret tt) ;;;
            ret PaymentUpdated)
      | None =>
          CURRENCY <- deref CURRENCY_ID ;;
          rethrow (
            within (create orderPaymentDetails set_orderPaymentDetails
              OrderPaymentDetail.id
              (fun i => OrderPaymentDetail.mk i
                 requestOrderId
                 (Currency.id CURRENCY)
                 (String_of_array EXTRAS_IDS)
                 (PaymentSummary.extrasTotalPrice (PaymentReq.paymentSummary req))
                 (PaymentSummary.totalPrice (PaymentReq.paymentSummary req))
                 (PaymentSummary.cpp (PaymentReq.paymentSummary req)))) ;;;
            rethrow (
              clientIdInner <- outside (findOne orders
                (fun o => where_eq (Some (Order.id o)) orderId)) ;;
              if str_eqb phase (lit "check-order") then
                ORDER <- deref clientIdInner ;;
                within (create clientOrderPostingSteps set_clientOrderPostingSteps
                  ClientOrderPostingStep.id
                  (fun i => ClientOrderPostingStep.mk i (Order.clientId ORDER) orderId 3)) ;;;
                ret tt
              else ret tt) ;;;
            ret (PaymentCreated orderId))
      end
    else ret NoOrderID).

(** [OrdersHelper.saveOrderPaymentDetails]. *)
Definition saveOrderPaymentDetails (req : PaymentReq.t) : M PaymentResult :=
  updateOrderPayment req (lit "check-order") None.

(** [OrdersHelper.updateOrderStatus]. *)
Definition updateOrderStatus (req : StatusReq.t) : M StatusResult.t :=
  transaction (
    SUCCESS_PAYMENT_STATUS <- outside (findOne paymentStatuses
      (fun s => str_eqb (PaymentStatus.status s) (lit "Success"))) ;;
    SUCCESS <- deref SUCCESS_PAYMENT_STATUS ;;
    ORDER_ALREADY_PAID_FOR <- outside (findOne clientPayments
      (fun p => (ClientPayment.orderId p =? StatusReq.orderId req)
                && (ClientPayment.statusId p =? PaymentStatus.id SUCCESS))) ;;
    let orderStatus :=
      match ORDER_ALREADY_PAID_FOR with
      | Some _ => lit "Ongoing"
      | None => lit "Pending payment"
      end in
    let orderStatus :=
      if str_eqb (StatusReq.type req) (lit "private") then lit "Ongoing"
      else orderStatus in
    PENDING_PAYMENT_STATUS <- outside (findOne orderStatuses
      (fun s => str_eqb (OrderStatus.status s) orderStatus)) ;;
    PENDING <- deref PENDING_PAYMENT_STATUS ;;
    rethrow (
      orderStatusUpdated <- outside (update orders set_orders
        (fun o => Order.mk (Order.id o) (Order.clientId o)
                    (OrderStatus.id PENDING) (Order.pageCount o))
        (fun o => Order.id o =? StatusReq.orderId req)) ;;
      if truthy_array orderStatusUpdated then
        WRITER <- outside (findOne writers
          (fun w => Writer.userId w =? StatusReq.writerId req)) ;;
        WRITER <- deref WRITER ;;
        WRITER_ALREADY_CHOSEN <- outside (findOne writerOrders
          (fun a => (WriterOrder.orderId a =? StatusReq.orderId req)
                    && (WriterOrder.writerId a =? Writer.id WRITER))) ;;
        (if str_eqb (StatusReq.type req) (lit "public") then
           outside (update orderBids set_orderBids
             (fun b => OrderBid.mk (OrderBid.id b) (OrderBid.orderId b)
                         (OrderBid.writerId b) true)
             (fun b => (OrderBid.orderId b =? StatusReq.orderId req)
                       && (OrderBid.writerId b =? Writer.id WRITER))) ;;;
           ret tt
         else ret tt) ;;;
        match WRITER_ALREADY_CHOSEN with
        | Some _ => ret (StatusResult.mk true None true)
        | None =>
            writerAssigned <- within (create writerOrders set_writerOrders
              WriterOrder.id
              (fun i => WriterOrder.mk i (StatusReq.orderId req) (Writer.id WRITER))) ;;
            if truthy_object writerAssigned
            then ret (StatusResult.mk true None false)
            else ret (StatusResult.mk false None false)
        end
      else
        ret (StatusResult.mk false
               (Some (lit "Failed to update order status")) false))).

(** [OrdersHelper.getClientId]. *)
Definition getClientId (email : str) : M Z :=
  USER <- findOne users
    (fun u => str_eqb (User.email u) (toLowerCase email)) ;;
  USER <- deref USER ;;
  user <- findOne clients (fun c => Client.userId c =? User.id USER) ;;
  user <- deref user ;;
  ret (Client.id user).

(** [OrdersHelper.rateWriter].  It opens no transaction. *)
Definition rateWriter (req : RateReq.t) : M RateResult :=
  ORDER_ALREADY_RATED <- findOne writerRatings
    (fun r => WriterRating.orderId r =? RateReq.orderId req) ;;
  match ORDER_ALREADY_RATED with
  | Some _ => ret AlreadyRated
  | None =>
      WRITER <- findOne writerOrders
        (fun a => WriterOrder.orderId a =? RateReq.orderId req) ;;
      WRITER <- deref WRITER ;;
      WRITER_RATED_ON_ORDER_ALREADY <- findOne writerRatings
        (fun r => (WriterRating.orderId r =? RateReq.orderId req)
                  && (WriterRating.writerId r =? WriterOrder.writerId WRITER)) ;;
      match WRITER_RATED_ON_ORDER_ALREADY with
      | Some _ => ret (Plain true)
      | None =>
          rated <- create writerRatings set_writerRatings WriterRating.id
            (fun i => WriterRating.mk i (RateReq.orderId req)
                        (WriterOrder.writerId WRITER) (RateReq.rating req)) ;;
          if truthy_object rated then
            AVERAGE_RATING <- findOne writerAverageRatings
              (fun a => WriterAverageRating.writerId a =? WriterOrder.writerId WRITER) ;;
            match AVERAGE_RATING with
            | Some AVERAGE =>
                PREVIOUS_RATINGS <- findAll writerRatings
                  (fun r => WriterRating.writerId r =? WriterOrder.writerId WRITER) ;;
                let totalRating :=
                  num_add
                    (num_mul (WriterAverageRating.rating AVERAGE)
                       (Number_of_Z (len PREVIOUS_RATINGS - 1)))
                    (RateReq.rating req) in
                let NEW_AVERAGE_RATING :=
                  num_div totalRating (Number_of_Z (len PREVIOUS_RATINGS)) in
                rethrow (
                  writerRatingAdded <- update writerAverageRatings
                    set_writerAverageRatings
                    (fun a => WriterAverageRating.mk (WriterAverageRating.id a)
                                (WriterAverageRating.writerId a) NEW_AVERAGE_RATING)
                    (fun a => WriterAverageRating.writerId a
                              =? WriterOrder.writerId WRITER) ;;
                  ret (Plain (truthy_array writerRatingAdded)))
            | None =>
                rethrow (
                  writerRatingAdded <- create writerAverageRatings
                    set_writerAverageRatings WriterAverageRating.id
                    (fun i => WriterAverageRating.mk i
                                (WriterOrder.writerId WRITER) (RateReq.rating req)) ;;
                  ret (Plain (truthy_object writerRatingAdded)))
            end
          else ret (Plain false)
      end
  end.

Definition UNPAID_ORDERS_STATUSES : list str :=
  [lit "Pending payment"; lit "Pending writer acknowledgement";
   lit "Available"; lit "Bidding ongoing"].

(** [a.includes(s)]. *)
Definition includes (a : list str) (s : str) : bool := existsb (str_eqb s) a.

(** [s ? s : null] for a string that may be absent. *)
Definition string_or_null (s : option str) : option str :=
  match s with
  | Some (c :: r) => Some (c :: r)
  | _ => None
  end.

(** [OrdersHelper.orderDetails]. *)
Definition orderDetails (client : ClientArg.t) (orderId : Z) (gotStarted : bool)
  : M Resume :=
  transaction (
    let myQuery :=
      if negb (orderId =? 0) then
        (fun o => (Order.clientId o =? ClientArg.id client) && (Order.id o =? orderId))
      else
        (fun o => Order.clientId o =? ClientArg.id client) in
    LATEST_ORDER <- outside (findLatest orders myQuery) ;;
    match LATEST_ORDER with
    | Some LATEST_ORDER =>
        DISCOUNT <- outside (findOne paperDiscounts
          (fun d => PaperDiscount.lowerLimit d >=? Order.pageCount LATEST_ORDER)) ;;
        let finalDiscount :=
          if Order.pageCount LATEST_ORDER =? 1 then DiscountZero
          else match DISCOUNT with
               | Some d => DiscountRow (PaperDiscount.discount d)
               | None => DiscountNull
               end in
        ORDER_PAID <- outside (findOne orders (fun o => Order.id o =? Order.id LATEST_ORDER)) ;;
        ORDER_PAID <- deref ORDER_PAID ;;
        ORDER_PAID_STATUS <- outside (findOne orderStatuses
          (fun s => OrderStatus.id s =? Order.statusId ORDER_PAID)) ;;
        ORDER_PAID_STATUS <- deref ORDER_PAID_STATUS ;;
        let orderAlreadyPaid := false in
        let orderAlreadyPaid := if gotStarted then true else orderAlreadyPaid in
        let orderAlreadyPaid :=
          if negb (includes UNPAID_ORDERS_STATUSES (OrderStatus.status ORDER_PAID_STATUS))
          then true else orderAlreadyPaid in
        if orderAlreadyPaid then
          ret (ResumeFinished client (string_or_null (ClientArg.loginVia client)))
        else
          ORDER_PAYMENT_DETAILS <- outside (findOne orderPaymentDetails
            (fun d => where_eq (OrderPaymentDetail.orderId d) (Some (Order.id LATEST_ORDER)))) ;;
          ORDER_PAYMENT_CURRENCY <-
            match ORDER_PAYMENT_DETAILS with
            | Some d =>
                c <- outside (findOne currencies
                  (fun c => Currency.id c =? OrderPaymentDetail.currencyId d)) ;;
                ret (Some (d, c))
            | None => ret None
            end ;;
          ORDER_PAYMENT_STATUS <- outside (findOne paymentStatuses
            (fun s => str_eqb (PaymentStatus.status s) (lit "Success"))) ;;
          ORDER_PAYMENT_STATUS <- deref ORDER_PAYMENT_STATUS ;;
          ORDER_ALREADY_PAID_FOR <- outside (findOne clientPayments
            (fun p => (ClientPayment.statusId p =? PaymentStatus.id ORDER_PAYMENT_STATUS)
                      && (ClientPayment.orderId p =? Order.id LATEST_ORDER))) ;;
          ORDER_ASSIGNMENT <- outside (findOne writerOrders
            (fun a => WriterOrder.orderId a =? Order.id LATEST_ORDER)) ;;
          ORDER_ASSIGNMENT <-
            match ORDER_ASSIGNMENT with
            | Some a =>
                w <- outside (findOne writers (fun w => Writer.id w =? WriterOrder.writerId a)) ;;
                match w with
                | Some w =>
                    u <- outside (findOne users (fun u => User.id u =? Writer.userId w)) ;;
                    ret (Some (a, Some (w, u)))
                | None => ret (Some (a, None))
                end
            | None => ret None
            end ;;
          ORDER_FILE_TYPE <- outside (findOne orderFileTypes
            (fun t => str_eqb (OrderFileType.type t) (lit "Client Supporting"))) ;;
          ORDER_FILE_TYPE <- deref ORDER_FILE_TYPE ;;
          ORDER_FILES <- outside (findAll orderFiles
            (fun f => (OrderFile.orderId f =? Order.id LATEST_ORDER)
                      && negb (OrderFile.isDeleted f)
                      && (OrderFile.type f =? OrderFileType.id ORDER_FILE_TYPE))) ;;
          rethrow (
            orderStep <- outside (findLatest clientOrderPostingSteps
              (fun p => ClientOrderPostingStep.clientId p =? ClientArg.id client)) ;;
            ret (ResumeOrder LATEST_ORDER finalDiscount
                   (string_or_null (ClientArg.loginVia client))
                   orderStep ORDER_PAYMENT_CURRENCY
                   (match ORDER_ALREADY_PAID_FOR with Some _ => true | None => false end)
                   ORDER_ASSIGNMENT ORDER_FILES client))
    | None =>
        ret (ResumeNoOrder client (string_or_null (ClientArg.loginVia client)))
    end).

(** [OrdersHelper.getOrderDetails]: the client is loaded with its [id]
    only. *)
Definition getOrderDetails (req : DetailsReq.t) : M (option Resume) :=
  transaction (
    USER <- outside (findOne users
      (fun u => str_eqb (User.email u) (toLowerCase (DetailsReq.email req)))) ;;
    USER <- deref USER ;;
    rethrow (
      client <- outside (findOne clients (fun c => Client.userId c =? User.id USER)) ;;
      match client with
      | Some client =>
          r <- outside (orderDetails (ClientArg.mk (Client.id client) None)
                          (DetailsReq.orderId req) false) ;;
          ret (Some r)
      | None => ret None
      end)).

(** [OrdersHelper.confirmOrderOwnership]. *)
Definition confirmOrderOwnership (req : DetailsReq.t) : M (option Order.t) :=
  CLIENT_ID <- getClientId (DetailsReq.email req) ;;
  findOne orders
    (fun o => (Order.id o =? DetailsReq.orderId req)
              && (Order.clientId o =? CLIENT_ID)).

(** The loop of [revisionRequest] over the supporting files. *)
Fixpoint saveRevisionFiles (orderId : Z) (ORDER_FILE_TYPE : option OrderFileType.t)
  (SUPPORTING_FILES : list SupportingFile.t) : M unit :=
  match SUPPORTING_FILES with
  | [] => ret tt
  | file :: rest =>
      FINAL_ORIGINAL_NAME <-
        lift (originalNameFormatter (SupportingFile.originalName file)) ;;
      FILE_TYPE <- deref ORDER_FILE_TYPE ;;
      create orderFiles set_orderFiles OrderFile.id
        (fun i => OrderFile.mk i orderId (SupportingFile.fileUrl file)
                    FINAL_ORIGINAL_NAME (OrderFileType.id FILE_TYPE) false false) ;;;
      saveRevisionFiles orderId ORDER_FILE_TYPE rest
  end.

(** [OrdersHelper.revisionRequest]. *)
Definition revisionRequest (Date_valid : Deadline -> bool) (req : RevisionReq.t)
  : M RevisionResult.t :=
  transaction (
    USER <- outside (findOne users
      (fun u => str_eqb (User.email u) (toLowerCase (RevisionReq.email req)))) ;;
    CLIENT_ID <- outside (getClientId (RevisionReq.email req)) ;;
    rethrow (
      orderExists <- outside (findOne orders
        (fun o => (Order.id o =? RevisionReq.orderId req)
                  && (Order.clientId o =? CLIENT_ID))) ;;
      match orderExists with
      | Some _ =>
          let REQ_CHECKLIST := RevisionReq.checklist req in
          let SUPPORTING_FILES := RevisionReq.supportingFiles req in
          let CHECKLIST :=
            map (fun e => (fst e, ChecklistEntry.val (snd e)))
              (filter (fun e => ChecklistEntry.key (snd e)) REQ_CHECKLIST) in
          (if len SUPPORTING_FILES >? 0 then
             ORDER_FILE_TYPE <- outside (findOne orderFileTypes
               (fun t => str_eqb (OrderFileType.type t) (lit "Revision Supporting"))) ;;
             within (saveRevisionFiles (RevisionReq.orderId req) ORDER_FILE_TYPE
                       SUPPORTING_FILES)
           else ret tt) ;;;
          ORDER_STATUS <- outside (findOne orders
            (fun o => Order.id o =? RevisionReq.orderId req)) ;;
          ORDER_STATUS <- deref ORDER_STATUS ;;
          ORDER_STATUS <- outside (findOne orderStatuses
            (fun s => OrderStatus.id s =? Order.statusId ORDER_STATUS)) ;;
          ORDER_STATUS <- deref ORDER_STATUS ;;
          (if negb (str_eqb (OrderStatus.status ORDER_STATUS) (lit "Undergoing revision")) then
             REVISION_ORDER_STATUS <- outside (findOne orderStatuses
               (fun s => str_eqb (OrderStatus.status s) (lit "Undergoing revision"))) ;;
             REVISION_ORDER_STATUS <- deref REVISION_ORDER_STATUS ;;
             outside (update orders set_orders
               (fun o => Order.mk (Order.id o) (Order.clientId o)
                           (OrderStatus.id REVISION_ORDER_STATUS) (Order.pageCount o))
               (fun o => Order.id o =? RevisionReq.orderId req)) ;;;
             ret tt
           else ret tt) ;;;
          let DEADLINE_TIME_ARRAY := split ":"%char (RevisionReq.deadlineTime req) in
          let DEADLINE :=
            mkDeadline (RevisionReq.deadlineDate req)
              (index DEADLINE_TIME_ARRAY 0) (index DEADLINE_TIME_ARRAY 1) in
          USER <- deref USER ;;
          revisionRequested <- within (
            if Date_valid DEADLINE then
              create orderRevisions set_orderRevisions OrderRevision.id
                (fun i => OrderRevision.mk i (RevisionReq.orderId req) CHECKLIST
                            DEADLINE (User.id USER) false false)
            else throw StoreError) ;;
          if truthy_object revisionRequested
          then ret (RevisionResult.mk true None)
          else ret (RevisionResult.mk false (Some (lit "Failed to add entry")))
      | None =>
          ret (RevisionResult.mk false (Some (lit "Order does not exist")))
      end)).

(* ===================================================================== *)
(** * Vocabulary of the properties                                        *)
(* ===================================================================== *)

(** A [ClientPayment] row of the order whose status is the row [success] of
    [PaymentStatus]. *)
Definition has_successful_payment (db : Db) (success : PaymentStatus.t)
  (orderId : Z) : bool :=
  existsb (fun p => (ClientPayment.orderId p =? orderId)
                    && (ClientPayment.statusId p =? PaymentStatus.id success))
    (clientPayments db).

(** The status an order is to get: [Ongoing] when it is paid for or the
    request is private, [Pending payment] otherwise. *)
Definition target_status (db : Db) (success : PaymentStatus.t)
  (req : StatusReq.t) : str :=
  if has_successful_payment db success (StatusReq.orderId req)
     || str_eqb (StatusReq.type req) (lit "private")
  then lit "Ongoing" else lit "Pending payment".

(** An order row with another status. *)
Definition with_status (statusId : Z) (o : Order.t) : Order.t :=
  Order.mk (Order.id o) (Order.clientId o) statusId (Order.pageCount o).

(** The assignment rows of an order and a writer. *)
Definition assignments (db : Db) (orderId writerId : Z) : list WriterOrder.t :=
  filter (fun a => (WriterOrder.orderId a =? orderId)
                   && (WriterOrder.writerId a =? writerId))
    (writerOrders db).

(** The store after the writes of [updateOrderStatus]. *)
Definition status_written (db : Db) (req : StatusReq.t) (target : OrderStatus.t)
  (writer : Writer.t) : Db :=
  let db1 :=
    set_orders db
      (map (fun o => if Order.id o =? StatusReq.orderId req
                     then with_status (OrderStatus.id target) o else o)
         (orders db)) in
  if str_eqb (StatusReq.type req) (lit "public") then
    set_orderBids db1
      (map (fun b => if (OrderBid.orderId b =? StatusReq.orderId req)
                        && (OrderBid.writerId b =? Writer.id writer)
                     then OrderBid.mk (OrderBid.id b) (OrderBid.orderId b)
                            (OrderBid.writerId b) true
                     else b)
         (orderBids db))
  else db1.

(** The rating row that [rateWriter] inserts for the assignment [w]. *)
Definition new_rating (db : Db) (req : RateReq.t) (w : WriterOrder.t)
  : WriterRating.t :=
  WriterRating.mk (next_id WriterRating.id (writerRatings db))
    (RateReq.orderId req) (WriterOrder.writerId w) (RateReq.rating req).

(** The average that [rateWriter] stores when the writer has the average
    [oldAverage] and [ratingCount] rating rows, the new one among them: the
    formula of the code, every operation in binary64. *)
Definition new_average (oldAverage : number) (ratingCount : Z)
  (newRating : number) : number :=
  num_div
    (num_add (num_mul oldAverage (Number_of_Z (ratingCount - 1))) newRating)
    (Number_of_Z ratingCount).

(** The same formula over the rationals, without rounding. *)
Definition exact_average (oldAverage : Q) (ratingCount : Z) (newRating : Q) : Q :=
  ((oldAverage * inject_Z (ratingCount - 1) + newRating) / inject_Z ratingCount)%Q.

(** The ratings stored for a writer, in insertion order. *)
Definition ratings_of (db : Db) (writerId : Z) : list number :=
  map WriterRating.rating
    (filter (fun r => WriterRating.writerId r =? writerId) (writerRatings db)).

Definition Qsum (l : list Q) : Q := fold_right Qplus 0%Q l.

(** The arithmetic mean of rationals. *)
Definition mean (l : list Q) : Q := (Qsum l / inject_Z (len l))%Q.

(** The rationals that the numbers of a list are; a number that is not
    finite counts as [0]. *)
Definition exact_values (l : list number) : list Q :=
  map (fun x => match exact x with Some q => q | None => 0%Q end) l.

(* ===================================================================== *)
(** * A small store                                                       *)
(* ===================================================================== *)

(** Two clients with one order each, one writer who has bid on order 5, the
    reference rows, and two discount tiers: 5 percent from 2 pages and 10
    percent from 10 pages. *)
Definition sample_db : Db := {|
  users := [User.mk 1 (lit "amina@example.com");
            User.mk 2 (lit "brian@example.com");
            User.mk 3 (lit "chege@example.com")];
  clients := [Client.mk 10 1 None; Client.mk 11 3 None];
  currencies := [Currency.mk 1 (lit "US Dollar") (lit "USD")];
  orderStatuses := [OrderStatus.mk 1 (lit "Available");
                    OrderStatus.mk 2 (lit "Pending payment");
                    OrderStatus.mk 3 (lit "Ongoing");
                    OrderStatus.mk 4 (lit "Undergoing revision")];
  paymentStatuses := [PaymentStatus.mk 1 (lit "Pending");
                      PaymentStatus.mk 2 (lit "Success")];
  orders := [Order.mk 5 10 1 5; Order.mk 6 11 1 1];
  orderPaymentDetails := [];
  clientOrderPostingSteps := [ClientOrderPostingStep.mk 1 10 (Some 5) 1];
  clientPayments := [];
  writers := [Writer.mk 20 2 (lit "Otieno") (lit "Brian")];
  writerOrders := [];
  orderBids := [OrderBid.mk 1 5 20 false];
  writerRatings := [];
  writerAverageRatings := [];
  paperDiscounts := [PaperDiscount.mk 1 2 (5 # 1); PaperDiscount.mk 2 10 (10 # 1)];
  orderFileTypes := [OrderFileType.mk 1 (lit "Client Supporting");
                     OrderFileType.mk 2 (lit "Revision Supporting")];
  orderFiles := [];
  orderRevisions := []
|}.

(** The sample store once the writer is assigned to order 5. *)
Definition assigned_db : Db :=
  set_writerOrders sample_db [WriterOrder.mk 1 5 20].

(** The assigned store with two earlier ratings of the writer, 4 and 5, on
    other orders, and their average. *)
Definition rated_db : Db :=
  set_writerAverageRatings
    (set_writerRatings assigned_db
       [WriterRating.mk 1 2 20 (Number_of_Z 4);
        WriterRating.mk 2 3 20 (Number_of_Z 5)])
    [WriterAverageRating.mk 1 20 (num_div (Number_of_Z 9) (Number_of_Z 2))].

(** The assigned store with six earlier ratings of the writer, whose mean
    is 4, and the average 4. *)
Definition six_ratings_db : Db :=
  set_writerAverageRatings
    (set_writerRatings assigned_db
       [WriterRating.mk 1 11 20 (Number_of_Z 3);
        WriterRating.mk 2 12 20 (Number_of_Z 5);
        WriterRating.mk 3 13 20 (Number_of_Z 3);
        WriterRating.mk 4 14 20 (Number_of_Z 5);
        WriterRating.mk 5 15 20 (Number_of_Z 4);
        WriterRating.mk 6 16 20 (Number_of_Z 4)])
    [WriterAverageRating.mk 1 20 (Number_of_Z 4)].

(** A reading of dates for the sample requests: a date of ten characters
    with hours and minutes is a date. *)
Definition sample_Date_valid (d : Deadline) : bool :=
  match deadlineHours d, deadlineMinutes d with
  | Some _, Some _ => len (deadlineDate d) =? 10
  | _, _ => false
  end.

(** The payment summary of the sample requests. *)
Definition sample_summary : PaymentSummary.t :=
  PaymentSummary.mk (lit "USD") [Extra.mk 3; Extra.mk 7] (4 # 1) (54 # 1) (10 # 1).

(* ===================================================================== *)
(** * File removal and order completion                                   *)
(* ===================================================================== *)

Module RemoveFileReq.
Record t := mk { orderId : Z; filename : str }.
End RemoveFileReq.

Module RemoveFileResult.
Record t := mk { itemDeleted : bool; message : option str }.
End RemoveFileResult.

(** The [where] of [removeFile]: the file of the order with the URL of the
    request and the given type. *)
Definition file_to_remove (req : RemoveFileReq.t) (typeId : Z) (f : OrderFile.t)
  : bool :=
  (OrderFile.orderId f =? RemoveFileReq.orderId req)
  && str_eqb (OrderFile.fileUrl f) (RemoveFileReq.filename req)
  && (OrderFile.type f =? typeId).

(** A file row with [isDeleted: true]. *)
Definition deleted (f : OrderFile.t) : OrderFile.t :=
  OrderFile.mk (OrderFile.id f) (OrderFile.orderId f) (OrderFile.fileUrl f)
    (OrderFile.originalName f) (OrderFile.type f) true
    (OrderFile.submittedPaper f).

(** The file table after [removeFile] has marked the files of [req]. *)
Definition files_marked (req : RemoveFileReq.t) (typeId : Z)
  (rows : list OrderFile.t) : list OrderFile.t :=
  map (fun f => if file_to_remove req typeId f then deleted f else f) rows.

(** [OrdersHelper.removeFile]. *)
Definition removeFile (req : RemoveFileReq.t) : M RemoveFileResult.t :=
  transaction (
    ORDER_FILE_TYPE <- outside (findOne orderFileTypes
      (fun t => str_eqb (OrderFileType.type t) (lit "Client Supporting"))) ;;
    ORDER_FILE_TYPE <- deref ORDER_FILE_TYPE ;;
    file <- outside (findOne orderFiles
      (file_to_remove req (OrderFileType.id ORDER_FILE_TYPE))) ;;
    match file with
    | Some _ =>
        rethrow (
          updatedRecord <- outside (update orderFiles set_orderFiles deleted
            (file_to_remove req (OrderFileType.id ORDER_FILE_TYPE))) ;;
          if truthy_array updatedRecord
          then ret (RemoveFileResult.mk true None)
          else ret (RemoveFileResult.mk false (Some (lit "Failed to delete item"))))
    | None =>
        ret (RemoveFileResult.mk false (Some (lit "Item not found")))
    end).

Module CompletionResult.
Record t := mk { updated : bool }.
End CompletionResult.

(** [OrdersHelper.confirmOrderCompletion]. *)
Definition confirmOrderCompletion (req : DetailsReq.t) : M CompletionResult.t :=
  rethrow (transaction (
    belongs <- outside (confirmOrderOwnership
      (DetailsReq.mk (DetailsReq.email req) (DetailsReq.orderId req))) ;;
    match belongs with
    | Some _ =>
        USER <- outside (findOne users
          (fun u => str_eqb (User.email u) (toLowerCase (DetailsReq.email req)))) ;;
        USER <- deref USER ;;
        CLIENT_ID <- outside (findOne clients (fun c => Client.userId c =? User.id USER)) ;;
        COMPLETED_ORDER_STATUS <- outside (findOne orderStatuses
          (fun s => str_eqb (OrderStatus.status s) (lit "Completed"))) ;;
        COMPLETED_ORDER_STATUS <- deref COMPLETED_ORDER_STATUS ;;
        CLIENT_ID <- deref CLIENT_ID ;;
        statusUpdated <- outside (update orders set_orders
          (fun o => Order.mk (Order.id o) (Order.clientId o)
                      (OrderStatus.id COMPLETED_ORDER_STATUS) (Order.pageCount o))
          (fun o => (Order.id o =? DetailsReq.orderId req)
                    && (Order.clientId o =? Client.id CLIENT_ID))) ;;
        ret (CompletionResult.mk (len statusUpdated >? 0))
    | None => ret (CompletionResult.mk false)
    end)).

(* ===================================================================== *)
(** * Order placement and writer invitations                              *)
(* ===================================================================== *)

(** The tables that only [saveOrderDetails] and [sendWriterInvite] use are
    kept beside the store of the other functions.  An order row is written
    in two parts with the same key: the columns of [Order.t] in the table
    [orders], and the columns that only the placement writes in
    [orderContents]. *)

Module OrderServiceType.
Record t := mk { id : Z; type : str }.
End OrderServiceType.

Module OrderFormat.
Record t := mk { id : Z; currentlyInUse : bool }.
End OrderFormat.

Module EntityType.
Record t := mk { id : Z; type : str }.
End EntityType.

Module WriterInvitation.
Record t := mk { id : Z; email : str; clientId : Z }.
End WriterInvitation.

Module OrderContent.
Record t := mk {
  orderId : Z; serviceTypeId : Z; type : Z; subjectId : Z; assignmentType : Z;
  citationStyleId : Z; orderFormatId : Z; studyLevelId : Z;
  deadlineDate : str; deadlineTime : Z; sources : Z; topic : str;
  instructions : str }.
End OrderContent.

Record Store := mkStore {
  base : Db;
  orderContents : list OrderContent.t;
  orderServiceTypes : list OrderServiceType.t;
  orderFormats : list OrderFormat.t;
  entityTypes : list EntityType.t;
  writerInvitations : list WriterInvitation.t }.

Definition set_base (s : Store) (d : Db) : Store :=
  mkStore d (orderContents s) (orderServiceTypes s) (orderFormats s)
    (entityTypes s) (writerInvitations s).

Definition set_orderContents (s : Store) (rows : list OrderContent.t) : Store :=
  mkStore (base s) rows (orderServiceTypes s) (orderFormats s)
    (entityTypes s) (writerInvitations s).

Definition set_writerInvitations (s : Store) (rows : list WriterInvitation.t)
  : Store :=
  mkStore (base s) (orderContents s) (orderServiceTypes s) (orderFormats s)
    (entityTypes s) rows.

(** Asynchronous code over the larger store. *)
Definition P (A : Type) : Type := ST Store A.

(** A function of the smaller store, run on the larger one. *)
Definition in_db {A : Type} (m : M A) : P A :=
  fun s => let (r, d) := m (base s) in (r, set_base s d).

Definition findOneP {R : Type} (table : Store -> list R) (where_ : R -> bool)
  : P (option R) :=
  fun s => (Ok (find where_ (table s)), s).

(** [Order.create]: the two parts of the new row, under one fresh key. *)
Definition Order_create (row : Z -> Order.t) (content : Z -> OrderContent.t)
  : P Order.t :=
  fun s =>
    let i := next_id Order.id (orders (base s)) in
    (Ok (row i),
     set_orderContents (set_base s (set_orders (base s) (orders (base s) ++ [row i])))
       (orderContents s ++ [content i])).

(** [Order.update(values, { where: { id } })], on the two parts. *)
Definition Order_update (values : Order.t -> Order.t)
  (content : OrderContent.t -> OrderContent.t) (id : Z) : P (list Z) :=
  fun s =>
    (Ok [len (filter (fun o => Order.id o =? id) (orders (base s)))],
     set_orderContents
       (set_base s (set_orders (base s)
                    (map (fun o => if Order.id o =? id then values o else o)
                       (orders (base s)))))
       (map (fun c => if OrderContent.orderId c =? id then content c else c)
          (orderContents s))).

(** The defaults of the columns [isDeleted] and [submittedPaper] of
    [OrderFile], which the placement leaves to the table.  The declaration
    of the table is not part of the sources: the defaults are a parameter of
    the functions that rely on them. *)
Record OrderFileDefaults := mkDefaults {
  defaultIsDeleted : bool; defaultSubmittedPaper : bool }.

Module PlaceReq.
Record t := mk {
  email : str; orderId : Z; serviceType : str; type : str;
  paperSubject : Z; assignmentType : Z; citationStyleId : Z; studyLevel : Z;
  deadlineDate : str; deadlineTime : Z; pageCount : Z; sources : Z;
  topic : str; instructions : str;
  supportingFiles : list SupportingFile.t;
  paymentSummary : PaymentSummary.t }.
End PlaceReq.

(** What [saveOrderDetails] returns: [{response: 'success', orderId,
    newOrder: true}] for a new order, the result of [updateOrderPayment] for
    an order that exists. *)
Inductive PlaceResult : Type :=
| Placed (orderId : Z)
| Recorded (r : PaymentResult).

(** The [where] of the file lookup of the update: the order, the URL and the
    type. *)
Definition same_file (orderId : Z) (fileUrl : str) (typeId : Z) (f : OrderFile.t)
  : bool :=
  (OrderFile.orderId f =? orderId)
  && str_eqb (OrderFile.fileUrl f) fileUrl
  && (OrderFile.type f =? typeId).

(** The loop of the update over the supporting files: a file is attached
    when the order has no row with its URL and the type.  The lookup is
    given the transaction as an argument it does not read; the insertion is
    part of the transaction. *)
Fixpoint attachMissingFiles (defaults : OrderFileDefaults) (orderId : Z)
  (ORDER_FILE_TYPE : option OrderFileType.t) (files : list SupportingFile.t)
  : ST (Session Store) unit :=
  match files with
  | [] => ret tt
  | file :: rest =>
      FILE_TYPE <- deref ORDER_FILE_TYPE ;;
      fileExists <- outside (in_db (findOne orderFiles
        (same_file orderId (SupportingFile.fileUrl file) (OrderFileType.id FILE_TYPE)))) ;;
      match fileExists with
      | Some _ => ret tt
      | None =>
          FINAL_ORIGINAL_NAME <-
            lift (originalNameFormatter (SupportingFile.originalName file)) ;;
          rethrow (
            within (in_db (create orderFiles set_orderFiles OrderFile.id
              (fun i => OrderFile.mk i orderId (SupportingFile.fileUrl file)
                          FINAL_ORIGINAL_NAME (OrderFileType.id FILE_TYPE)
                          (defaultIsDeleted defaults)
                          (defaultSubmittedPaper defaults)))) ;;;
            ret tt)
      end ;;;
      attachMissingFiles defaults orderId ORDER_FILE_TYPE rest
  end.

(** The loop of the creation over the supporting files: every file is
    attached.  Its statements are part of the transaction. *)
Fixpoint attachFiles (defaults : OrderFileDefaults) (orderId : Z)
  (ORDER_FILE_TYPE : option OrderFileType.t) (files : list SupportingFile.t)
  : M unit :=
  match files with
  | [] => ret tt
  | file :: rest =>
      FINAL_ORIGINAL_NAME <-
        lift (originalNameFormatter (SupportingFile.originalName file)) ;;
      FILE_TYPE <- deref ORDER_FILE_TYPE ;;
      rethrow (
        create orderFiles set_orderFiles OrderFile.id
          (fun i => OrderFile.mk i orderId (SupportingFile.fileUrl file)
                      FINAL_ORIGINAL_NAME (OrderFileType.id FILE_TYPE)
                      (defaultIsDeleted defaults)
                      (defaultSubmittedPaper defaults)) ;;;
        ret tt) ;;;
      attachFiles defaults orderId ORDER_FILE_TYPE rest
  end.

(** The columns of an order that the placement takes from the request and
    its lookups. *)
Definition order_content (req : PlaceReq.t) (serviceTypeId typeId formatId : Z)
  (orderId : Z) : OrderContent.t :=
  OrderContent.mk orderId serviceTypeId typeId (PlaceReq.paperSubject req)
    (PlaceReq.assignmentType req) (PlaceReq.citationStyleId req) formatId
    (PlaceReq.studyLevel req) (PlaceReq.deadlineDate req)
    (PlaceReq.deadlineTime req) (PlaceReq.sources req) (PlaceReq.topic req)
    (PlaceReq.instructions req).

(** [OrdersHelper.saveOrderDetails]. *)
Definition saveOrderDetails (defaults : OrderFileDefaults) (req : PlaceReq.t)
  : P PlaceResult :=
  transaction (
    USER <- outside (in_db (findOne users
      (fun u => str_eqb (User.email u) (toLowerCase (PlaceReq.email req))))) ;;
    USER <- deref USER ;;
    CLIENT_ID <- outside (in_db (findOne clients
      (fun c => Client.userId c =? User.id USER))) ;;
    SERVICE_TYPE_ID <- outside (findOneP orderServiceTypes
      (fun t => str_eqb (OrderServiceType.type t) (PlaceReq.serviceType req))) ;;
    ORDER_STATUS_ID <- outside (in_db (findOne orderStatuses
      (fun t => str_eqb (OrderStatus.status t) (lit "Available")))) ;;
    ORDER_FORMAT_ID <- outside (findOneP orderFormats
      (fun f => Bool.eqb (OrderFormat.currentlyInUse f) true)) ;;
    let orderTypeGen :=
      if str_eqb (PlaceReq.type req) (lit "public") then lit "Public"
      else lit "Private" in
    ORDER_TYPE <- outside (findOneP entityTypes
      (fun t => str_eqb (EntityType.type t) orderTypeGen)) ;;
    if PlaceReq.orderId req >? 0 then
      CLIENT <- deref CLIENT_ID ;;
      SERVICE_TYPE <- deref SERVICE_TYPE_ID ;;
      TYPE <- deref ORDER_TYPE ;;
      STATUS <- deref ORDER_STATUS_ID ;;
      FORMAT <- deref ORDER_FORMAT_ID ;;
      rethrow (
        outside (Order_update
          (fun o => Order.mk (Order.id o) (Client.id CLIENT) (OrderStatus.id STATUS)
                      (PlaceReq.pageCount req))
          (fun c => order_content req (OrderServiceType.id SERVICE_TYPE)
                      (EntityType.id TYPE) (OrderFormat.id FORMAT)
                      (OrderContent.orderId c))
          (PlaceReq.orderId req)) ;;;
        outside (in_db (update clientOrderPostingSteps set_clientOrderPostingSteps
                 (fun p => ClientOrderPostingStep.mk (ClientOrderPostingStep.id p)
                             (ClientOrderPostingStep.clientId p)
                             (ClientOrderPostingStep.orderId p) 1)
                 (fun p => where_eq (ClientOrderPostingStep.orderId p)
                             (Some (PlaceReq.orderId req))))) ;;;
        ORDER_FILE_TYPE <- outside (in_db (findOne orderFileTypes
          (fun t => str_eqb (OrderFileType.type t) (lit "Client Supporting")))) ;;
        attachMissingFiles defaults (PlaceReq.orderId req) ORDER_FILE_TYPE
          (PlaceReq.supportingFiles req) ;;;
        r <- outside (in_db (updateOrderPayment
                      (PaymentReq.mk (PlaceReq.email req) (PlaceReq.orderId req)
                         (PlaceReq.paymentSummary req))
                      (lit "place-order") None)) ;;
        ret (Recorded r))
    else
      CLIENT <- deref CLIENT_ID ;;
      SERVICE_TYPE <- deref SERVICE_TYPE_ID ;;
      TYPE <- deref ORDER_TYPE ;;
      STATUS <- deref ORDER_STATUS_ID ;;
      FORMAT <- deref ORDER_FORMAT_ID ;;
      rethrow (
        res <- within (Order_create
          (fun i => Order.mk i (Client.id CLIENT) (OrderStatus.id STATUS)
                      (PlaceReq.pageCount req))
          (order_content req (OrderServiceType.id SERVICE_TYPE)
             (EntityType.id TYPE) (OrderFormat.id FORMAT))) ;;
        within (in_db (create clientOrderPostingSteps set_clientOrderPostingSteps
                 ClientOrderPostingStep.id
                 (fun i => ClientOrderPostingStep.mk i (Client.id CLIENT)
                             (Some (Order.id res)) 1))) ;;;
        (if len (PlaceReq.supportingFiles req) >? 0 then
           ORDER_FILE_TYPE <- outside (in_db (findOne orderFileTypes
             (fun t => str_eqb (OrderFileType.type t) (lit "Client Supporting")))) ;;
           within (in_db (attachFiles defaults (Order.id res) ORDER_FILE_TYPE
                    (PlaceReq.supportingFiles req)))
         else ret tt) ;;;
        CURRENCY_ID <- outside (in_db (findOne currencies
          (fun c => str_eqb (Currency.currencyCode c)
                      (PaymentSummary.currencyCode (PlaceReq.paymentSummary req))))) ;;
        let EXTRAS_IDS :=
          map Extra.id (PaymentSummary.extrasList (PlaceReq.paymentSummary req)) in
        CURRENCY <- deref CURRENCY_ID ;;
        rethrow (
          within (in_db (create orderPaymentDetails set_orderPaymentDetails
                   OrderPaymentDetail.id
                   (fun i => OrderPaymentDetail.mk i (Some (Order.id res))
                               (Currency.id CURRENCY)
                               (String_of_array EXTRAS_IDS)
                               (PaymentSummary.extrasTotalPrice (PlaceReq.paymentSummary req))
                               (PaymentSummary.totalPrice (PlaceReq.paymentSummary req))
                               (PaymentSummary.cpp (PlaceReq.paymentSummary req))))) ;;;
          ret (Placed (Order.id res))))).

Module InviteReq.
Record t := mk { email : str; writerEmail : str }.
End InviteReq.

Module InviteResult.
Record t := mk { success : bool; message : str }.
End InviteResult.

(** [WriterInvitation.create(values)]. *)
Definition WriterInvitation_create (values : Z -> WriterInvitation.t)
  : P WriterInvitation.t :=
  fun s =>
    let row := values (next_id WriterInvitation.id (writerInvitations s)) in
    (Ok row, set_writerInvitations s (writerInvitations s ++ [row])).

(** [OrdersHelper.sendWriterInvite].  None of its statements is given the
    transaction. *)
Definition sendWriterInvite (req : InviteReq.t) : P InviteResult.t :=
  transaction (
    CLIENT_ID <- outside (in_db (getClientId (InviteReq.email req))) ;;
    INVITATION_ALREADY_EXISTS <- outside (findOneP writerInvitations
      (fun i => str_eqb (WriterInvitation.email i) (InviteReq.writerEmail req))) ;;
    match INVITATION_ALREADY_EXISTS with
    | Some _ =>
        ret (InviteResult.mk false (lit "Invitation already exists!"))
    | None =>
        writers <- outside (WriterInvitation_create
          (fun i => WriterInvitation.mk i (InviteReq.writerEmail req) CLIENT_ID)) ;;
        ret (InviteResult.mk (truthy_object writers)
               (lit "Invitation sent successfully"))
    end).

(* ===================================================================== *)
(** * The authentication service                                          *)
(* ===================================================================== *)

(** The variables of [process.env] that [auth] reads. *)
Module Env.
Record t := mk {
  NODE_ENV : option str; API_KEY : option str; DEV_API_KEY : option str }.
End Env.

(** The request headers that [auth] reads. *)
Module Headers.
Record t := mk { x_allowed_origin : option str; api_key : option str }.
End Headers.

(** What [auth] does with the request: [next()], or
    [res.status(code).send(body)]. *)
Inductive AuthOutcome : Type :=
| Next
| Respond (code : Z) (body : str).

(** Truthiness of a string that may be [undefined]. *)
Definition truthy_string (s : option str) : bool :=
  match s with
  | Some (_ :: _) => true
  | _ => false
  end.

(** [a === b] for strings that may be [undefined]. *)
Definition strict_eq (a b : option str) : bool :=
  match a, b with
  | Some x, Some y => str_eqb x y
  | None, None => true
  | _, _ => false
  end.

Definition PRODUCTION_ORIGINS : list str :=
  [lit "https://api.essayspring.com:gkjslif";
   lit "https://api.writeray.com:rthjerht45thjer"].

Definition DEVELOPMENT_ORIGINS : list str :=
  [lit "http://localhost:3100:lspauidg";
   lit "http://localhost:6200:hj34we4y3hjw4e3j"].

(** [AuthService.auth]. *)
Definition auth (env : Env.t) (headers : Headers.t) : AuthOutcome :=
  let ORIGIN := Headers.x_allowed_origin headers in
  let ENVIRON :=
    if truthy_string (Env.NODE_ENV env) then Env.NODE_ENV env
    else Some (lit "development") in
  let '(targetOrigin, apiKey) :=
    if truthy_string ENVIRON && strict_eq ENVIRON (Some (lit "production"))
    then (PRODUCTION_ORIGINS, Env.API_KEY env)
    else (DEVELOPMENT_ORIGINS, Env.DEV_API_KEY env) in
  match ORIGIN with
  | Some (c :: origin) =>
      if includes targetOrigin (c :: origin) then
        let INNER_API_KEY := Headers.api_key headers in
        if truthy_string INNER_API_KEY && strict_eq INNER_API_KEY apiKey
        then Next
        else Respond 500 (lit "I'm lost.")
      else Respond 500 (lit "I'm lost.")
  | _ => Respond 500 (lit "I'm lost.")
  end.

(** The sample store with the statuses [Completed] and [Submitted] as
    well. *)
Definition full_db : Db :=
  mkDb (users sample_db) (clients sample_db) (currencies sample_db)
    (orderStatuses sample_db
     ++ [OrderStatus.mk 5 (lit "Completed"); OrderStatus.mk 6 (lit "Submitted")])
    (paymentStatuses sample_db) (orders sample_db)
    (orderPaymentDetails sample_db) (clientOrderPostingSteps sample_db)
    (clientPayments sample_db) (writers sample_db) (writerOrders sample_db)
    (orderBids sample_db) (writerRatings sample_db)
    (writerAverageRatings sample_db) (paperDiscounts sample_db)
    (orderFileTypes sample_db) (orderFiles sample_db) (orderRevisions sample_db).

(** The query of [orderDetails] for the latest order. *)
Definition latest_query (client : ClientArg.t) (orderId : Z) : Order.t -> bool :=
  if negb (orderId =? 0)
  then fun o => (Order.clientId o =? ClientArg.id client) && (Order.id o =? orderId)
  else fun o => Order.clientId o =? ClientArg.id client.

(** The payment detail row [d] with the currency and the summary of a
    request. *)
Definition with_summary (currencyId : Z) (summary : PaymentSummary.t)
  (d : OrderPaymentDetail.t) : OrderPaymentDetail.t :=
  OrderPaymentDetail.mk (OrderPaymentDetail.id d) (OrderPaymentDetail.orderId d)
    currencyId
    (String_of_array (map Extra.id (PaymentSummary.extrasList summary)))
    (PaymentSummary.extrasTotalPrice summary)
    (PaymentSummary.totalPrice summary)
    (PaymentSummary.cpp summary).

(** The sample store with a payment detail for each of the two orders. *)
Definition detailed_db : Db :=
  set_orderPaymentDetails sample_db
    [OrderPaymentDetail.mk 1 (Some 5) 1 (lit "3") (2 # 1) (52 # 1) (10 # 1);
     OrderPaymentDetail.mk 2 (Some 6) 1 (lit "") (0 # 1) (12 # 1) (12 # 1)].

(** The name that the formatter returns for [name], when it returns. *)
Definition formatted (name : str) : str :=
  match originalNameFormatter name with
  | Ok out => out
  | Throw _ => name
  end.

(** Whether the formatter returns for every file of a list. *)
Definition all_formattable (files : list SupportingFile.t) : bool :=
  forallb (fun file =>
             match originalNameFormatter (SupportingFile.originalName file) with
             | Ok _ => true
             | Throw _ => false
             end) files.

(** The file rows that a revision request adds to the rows [rows]: one per
    supporting file, in the order of the request. *)
Fixpoint revision_rows (orderId typeId : Z) (rows : list OrderFile.t)
  (files : list SupportingFile.t) : list OrderFile.t :=
  match files with
  | [] => []
  | file :: rest =>
      let row :=
        OrderFile.mk (next_id OrderFile.id rows) orderId
          (SupportingFile.fileUrl file)
          (formatted (SupportingFile.originalName file)) typeId false false in
      row :: revision_rows orderId typeId (rows ++ [row]) rest
  end.

(** The instructions of a revision: the values of the checklist entries
    that are selected, under their keys. *)
Definition selected_instructions (checklist : list (str * ChecklistEntry.t))
  : list (str * str) :=
  map (fun e => (fst e, ChecklistEntry.val (snd e)))
    (filter (fun e => ChecklistEntry.key (snd e)) checklist).

(** Whether the server runs in production. *)
Definition in_production (env : Env.t) : bool :=
  strict_eq (Env.NODE_ENV env) (Some (lit "production")).

(** The origins and the key that [auth] checks against. *)
Definition allowed_origins (env : Env.t) : list str :=
  if in_production env then PRODUCTION_ORIGINS else DEVELOPMENT_ORIGINS.

Definition configured_key (env : Env.t) : option str :=
  if in_production env then Env.API_KEY env else Env.DEV_API_KEY env.

(** ** Vocabulary of the placement *)

(** The number of rows that attach the URL [fileUrl] to an order under a
    type. *)
Definition attached (orderId typeId : Z) (fileUrl : str) (rows : list OrderFile.t)
  : nat :=
  length (filter (same_file orderId fileUrl typeId) rows).

(** The number of supporting files of a request with the URL [fileUrl]. *)
Definition listed (fileUrl : str) (files : list SupportingFile.t) : nat :=
  length (filter (fun file => str_eqb (SupportingFile.fileUrl file) fileUrl) files).

(** The lookups of the placement: the client of the email, the status
    [Available], the entity type and the service type of the request, the
    order format in use and the file type [Client Supporting]. *)
Definition caller (email : str) (db : Db) : option Client.t :=
  match find (fun u => str_eqb (User.email u) (toLowerCase email)) (users db) with
  | Some USER => find (fun c => Client.userId c =? User.id USER) (clients db)
  | None => None
  end.

Definition available (db : Db) : option OrderStatus.t :=
  find (fun t => str_eqb (OrderStatus.status t) (lit "Available")) (orderStatuses db).

Definition placement_type (req : PlaceReq.t) (s : Store) : option EntityType.t :=
  find (fun t => str_eqb (EntityType.type t)
                   (if str_eqb (PlaceReq.type req) (lit "public") then lit "Public"
                    else lit "Private")) (entityTypes s).

Definition placement_service (req : PlaceReq.t) (s : Store)
  : option OrderServiceType.t :=
  find (fun t => str_eqb (OrderServiceType.type t) (PlaceReq.serviceType req))
    (orderServiceTypes s).

Definition format_in_use (s : Store) : option OrderFormat.t :=
  find (fun f => Bool.eqb (OrderFormat.currentlyInUse f) true) (orderFormats s).

Definition client_supporting (db : Db) : option OrderFileType.t :=
  find (fun t => str_eqb (OrderFileType.type t) (lit "Client Supporting"))
    (orderFileTypes db).

(** The order row that the placement writes under the key [orderId]. *)
Definition placed (req : PlaceReq.t) (client : Client.t) (status : OrderStatus.t)
  (orderId : Z) : Order.t :=
  Order.mk orderId (Client.id client) (OrderStatus.id status) (PlaceReq.pageCount req).

(** The part of the request that [updateOrderPayment] reads. *)
Definition payment_of (req : PlaceReq.t) : PaymentReq.t :=
  PaymentReq.mk (PlaceReq.email req) (PlaceReq.orderId req)
    (PlaceReq.paymentSummary req).

(** The store after the two updates that open the update of an order: the
    order row and its posting steps. *)
Definition order_taken (req : PlaceReq.t) (client : Client.t)
  (status : OrderStatus.t) (db : Db) : Db :=
  set_clientOrderPostingSteps
    (set_orders db
       (map (fun o => if Order.id o =? PlaceReq.orderId req
                      then placed req client status (Order.id o) else o)
          (orders db)))
    (map (fun p => if where_eq (ClientOrderPostingStep.orderId p)
                        (Some (PlaceReq.orderId req))
                   then ClientOrderPostingStep.mk (ClientOrderPostingStep.id p)
                          (ClientOrderPostingStep.clientId p)
                          (ClientOrderPostingStep.orderId p) 1
                   else p)
       (clientOrderPostingSteps db)).

Definition content_taken (req : PlaceReq.t) (service : OrderServiceType.t)
  (type : EntityType.t) (format : OrderFormat.t) (rows : list OrderContent.t)
  : list OrderContent.t :=
  map (fun c => if OrderContent.orderId c =? PlaceReq.orderId req
                then order_content req (OrderServiceType.id service)
                       (EntityType.id type) (OrderFormat.id format)
                       (OrderContent.orderId c)
                else c) rows.

(** The store after the two creations that open the creation of an order:
    the order row and its posting step. *)
Definition order_placed (req : PlaceReq.t) (client : Client.t)
  (status : OrderStatus.t) (db : Db) : Db :=
  let newId := next_id Order.id (orders db) in
  set_clientOrderPostingSteps
    (set_orders db (orders db ++ [placed req client status newId]))
    (clientOrderPostingSteps db
     ++ [ClientOrderPostingStep.mk
           (next_id ClientOrderPostingStep.id (clientOrderPostingSteps db))
           (Client.id client) (Some newId) 1]).

(** The payment detail of a new order. *)
Definition placement_detail (req : PlaceReq.t) (currency : Currency.t)
  (orderId id : Z) : OrderPaymentDetail.t :=
  OrderPaymentDetail.mk id (Some orderId) (Currency.id currency)
    (String_of_array
       (map Extra.id (PaymentSummary.extrasList (PlaceReq.paymentSummary req))))
    (PaymentSummary.extrasTotalPrice (PlaceReq.paymentSummary req))
    (PaymentSummary.totalPrice (PlaceReq.paymentSummary req))
    (PaymentSummary.cpp (PlaceReq.paymentSummary req)).

(** The sample store with the contents of its two orders, the reference
    rows of the placement and no invitation. *)
Definition sample_store : Store :=
  mkStore sample_db
    [OrderContent.mk 5 1 1 4 2 1 2 3 (lit "2021-02-01") 12 2 (lit "Trade routes")
       (lit "Use the reader");
     OrderContent.mk 6 2 2 7 1 2 2 2 (lit "2021-02-03") 9 0 (lit "Soil survey")
       (lit "See the brief")]
    [OrderServiceType.mk 1 (lit "Writing"); OrderServiceType.mk 2 (lit "Editing")]
    [OrderFormat.mk 1 false; OrderFormat.mk 2 true]
    [EntityType.mk 1 (lit "Public"); EntityType.mk 2 (lit "Private")]
    [].

(** The sample store once the first client has invited the writer. *)
Definition invited_store : Store :=
  set_writerInvitations sample_store
    [WriterInvitation.mk 1 (lit "brian@example.com") 10].

(** The sample store with one supporting file of order 5. *)
Definition attached_store : Store :=
  set_base sample_store
    (set_orderFiles sample_db
       [OrderFile.mk 1 5 (lit "uploads/notes.pdf") (lit "notes.pdf") 1 false false]).

Definition sample_defaults : OrderFileDefaults := mkDefaults false false.

(** A placement by the first client, for the order [orderId] and with the
    files [files]. *)
Definition sample_placement (orderId : Z) (files : list SupportingFile.t)
  : PlaceReq.t :=
  PlaceReq.mk (lit "Amina@Example.com") orderId (lit "Writing") (lit "public")
    4 2 1 3 (lit "2021-03-01") 14 3 2 (lit "Trade routes") (lit "Use the reader")
    files sample_summary.

(** Two supporting files, the second one listed twice. *)
Definition sample_files : list SupportingFile.t :=
  [SupportingFile.mk (lit "uploads/notes.pdf") (lit "notes.pdf");
   SupportingFile.mk (lit "uploads/data.csv") (lit "data.csv");
   SupportingFile.mk (lit "uploads/data.csv") (lit "data.csv")].

(** A store whose only user was registered with a capital letter. *)
Definition capital_db : Db :=
  mkDb [User.mk 1 (lit "Amina@example.com")] [Client.mk 10 1 None]
    [] [] [] [] [] [] [] [] [] [] [] [] [] [] [] [].

(** The sample store with two supporting files of order 5, the second one
    attached twice, and a file of order 6 with the URL of the first. *)
Definition files_db : Db :=
  set_orderFiles sample_db
    [OrderFile.mk 1 5 (lit "uploads/notes.pdf") (lit "notes.pdf") 1 false false;
     OrderFile.mk 2 5 (lit "uploads/data.csv") (lit "data.csv") 1 false false;
     OrderFile.mk 3 6 (lit "uploads/notes.pdf") (lit "notes.pdf") 1 false false;
     OrderFile.mk 4 5 (lit "uploads/data.csv") (lit "data.csv") 1 false false].

(** The tables of the larger store after a statement. *)
Ltac store_cbn :=
  cbn [base set_base live kept snd set_orderContents orderContents orderServiceTypes
       orderFormats entityTypes writerInvitations set_writerInvitations].

Ltac store_cbn_in H :=
  cbn [base set_base live kept snd set_orderContents orderContents orderServiceTypes
       orderFormats entityTypes writerInvitations set_writerInvitations] in H.

(** A run that rejects and ends in the store that the transaction keeps,
    which is the store of the goal up to the equation [same]. *)
Ltac kept_in H same :=
  store_cbn_in H; rewrite ?same in H; injection H as _ <-; reflexivity.

(** The statements of a run, spelled out in a hypothesis or in the goal. *)
Ltac run_in H :=
  unfold transaction, within, outside, rethrow, bind, findOne, findLatest,
    findAll, create, update, deref, lift, ret, throw in H;
  cbn [live kept snd] in H.

Ltac run :=
  unfold transaction, within, outside, rethrow, bind, findOne, findLatest,
    findAll, create, update, deref, lift, ret, throw;
  cbn [live kept snd].

(** Case analysis on the scrutinee of the first [match] of a hypothesis. *)
Ltac case_run H :=
  match type of H with
  | context [match find ?p ?l with _ => _ end] =>
      let E := fresh "Hfind" in destruct (find p l) eqn:E
  | context [if ?b then _ else _] =>
      let E := fresh "Hcond" in destruct b eqn:E
  end;
  cbn [live kept snd] in H;
  try discriminate H.

(* ===================================================================== *)
(** * Facts about [split], [join] and [slice]                             *)
(* ===================================================================== *)

Section SplitFacts.

Lemma split_nonempty (s : str) : split dot s <> [].
Proof.
  induction s as [|c rest IH]; simpl; [discriminate|].
  destruct (Ascii.eqb c dot); [discriminate|].
  destruct (split dot rest); discriminate.
Qed.

(** A string without a dot is one segment. *)
Lemma split_no_dot (s : str) : ~ In dot s -> split dot s = [s].
Proof.
  induction s as [|c rest IH]; simpl; intros Hn; [reflexivity|].
  destruct (Ascii.eqb_spec c dot) as [->|Hc].
  - exfalso. apply Hn. now left.
  - rewrite IH by (intros H; apply Hn; now right). reflexivity.
Qed.

(** Splitting [stem.ext]: the segments of the stem, then the extension. *)
Lemma split_app_dot (stem ext : str) :
  ~ In dot ext ->
  split dot (stem ++ dot :: ext) = split dot stem ++ [ext].
Proof.
  intros Hext. induction stem as [|c rest IH]; simpl.
  - rewrite split_no_dot by assumption. reflexivity.
  - destruct (Ascii.eqb c dot).
    + now rewrite IH.
    + rewrite IH. destruct (split dot rest) as [|x xs] eqn:E.
      * now apply split_nonempty in E.
      * reflexivity.
Qed.

(** Joining the segments with the dot gives the string back. *)
Lemma join_split (s : str) : join [dot] (split dot s) = s.
Proof.
  induction s as [|c rest IH]; simpl; [reflexivity|].
  destruct (Ascii.eqb_spec c dot) as [->|Hc].
  - destruct (split dot rest) as [|x xs] eqn:E.
    + now apply split_nonempty in E.
    + simpl in *. now rewrite IH.
  - destruct (split dot rest) as [|x xs] eqn:E.
    + now apply split_nonempty in E.
    + simpl in *. destruct xs; simpl in *; now rewrite <- IH.
Qed.

Lemma index_last {A : Type} (l : list A) (x : A) :
  index (l ++ [x]) (len (l ++ [x]) - 1) = Some x.
Proof.
  unfold index, len. rewrite length_app. simpl.
  destruct (Z.ltb_spec (Z.of_nat (length l + 1) - 1) 0); [lia|].
  replace (Z.to_nat (Z.of_nat (length l + 1) - 1)) with (length l) by lia.
  rewrite nth_error_app2 by lia. now rewrite Nat.sub_diag.
Qed.

Lemma pop_snoc {A : Type} (l : list A) (x : A) : pop (l ++ [x]) = l.
Proof. apply removelast_last. Qed.

(** [slice(0, k)] with [k] not negative keeps the first [k] elements. *)
Lemma slice_prefix {A : Type} (s : list A) (k : Z) :
  0 <= k -> slice s 0 k = firstn (Z.to_nat k) s.
Proof.
  intros Hk. unfold slice, clamp, len. simpl.
  destruct (Z.ltb_spec k 0); [lia|].
  rewrite (Z.min_l 0) by lia. simpl. rewrite Z.sub_0_r.
  destruct (Z.min_spec k (Z.of_nat (length s))) as [[? ->]|[? ->]].
  - reflexivity.
  - rewrite Nat2Z.id. rewrite firstn_all.
    symmetry. apply firstn_all2. lia.
Qed.

(** [slice(0, -k)] drops the last [k] elements. *)
Lemma slice_negative {A : Type} (s : list A) (k : Z) :
  k < 0 -> slice s 0 k = firstn (Z.to_nat (len s + k)) s.
Proof.
  intros Hk. unfold slice, clamp, len. simpl.
  destruct (Z.ltb_spec k 0); [|lia].
  rewrite (Z.min_l 0) by lia. simpl. rewrite Z.sub_0_r.
  destruct (Z.max_spec (Z.of_nat (length s) + k) 0) as [[? ->]|[? ->]].
  - simpl. now replace (Z.to_nat (Z.of_nat (length s) + k)) with 0%nat by lia.
  - reflexivity.
Qed.

End SplitFacts.

(** How the formatter takes a long name [stem.extension] apart, whatever
    the number of dots in the stem. *)
Lemma originalNameFormatter_long (stem ext : str) :
  ~ In dot ext ->
  (50 < length (stem ++ dot :: ext))%nat ->
  originalNameFormatter (stem ++ dot :: ext)
  = Ok (concat (slice stem 0 (MAX_ORIGINAL_NAME_LENGTH - len ext - 1)) [dot] ext).
Proof.
  intros Hext Hlen. unfold originalNameFormatter.
  destruct (Z.gtb_spec (len (stem ++ dot :: ext)) MAX_ORIGINAL_NAME_LENGTH) as [_|Hle];
    [|unfold len, MAX_ORIGINAL_NAME_LENGTH in Hle; lia].
  rewrite split_app_dot by assumption.
  destruct (Z.gtb_spec (len (split dot stem ++ [ext])) 2) as [Hmany|Hfew].
  - rewrite index_last, pop_snoc, join_split. reflexivity.
  - destruct (split dot stem) as [|a [|b r]] eqn:E.
    + now apply split_nonempty in E.
    + pose proof (join_split stem) as J. rewrite E in J. simpl in J. subst a.
      reflexivity.
    + unfold len in Hfew. rewrite length_app in Hfew. simpl in Hfew. lia.
Qed.

Lemma has_dot_In (s : str) : has_dot s = true <-> In dot s.
Proof.
  unfold has_dot. rewrite existsb_exists. split.
  - intros (c & Hin & Hc). apply Ascii.eqb_eq in Hc. now subst c.
  - intros Hin. exists dot. split; [assumption|apply Ascii.eqb_refl].
Qed.

Lemma has_dot_false (s : str) : has_dot s = false <-> ~ In dot s.
Proof.
  rewrite <- has_dot_In. destruct (has_dot s); split; intros H; congruence.
Qed.

(** A name with a dot is a stem, its last dot, and an extension without
    dots. *)
Lemma last_dot (s : str) :
  In dot s -> exists stem ext, s = stem ++ dot :: ext /\ ~ In dot ext.
Proof.
  induction s as [|c rest IH]; intros Hin; [contradiction|].
  destruct (in_dec ascii_dec dot rest) as [Hr|Hr].
  - destruct (IH Hr) as (stem & ext & -> & Hext).
    now exists (c :: stem), ext.
  - destruct Hin as [->|Hin]; [|contradiction].
    now exists [], rest.
Qed.

(** A name of at most 50 characters comes back as it is. *)
Lemma originalNameFormatter_short (name : str) :
  (length name <= 50)%nat -> originalNameFormatter name = Ok name.
Proof.
  intros Hlen. unfold originalNameFormatter.
  destruct (Z.gtb_spec (len name) MAX_ORIGINAL_NAME_LENGTH) as [Hgt|_];
    [unfold len, MAX_ORIGINAL_NAME_LENGTH in Hgt; lia|reflexivity].
Qed.

(** A long name without a dot: [fileExtension] is [undefined]. *)
Lemma originalNameFormatter_no_dot (name : str) :
  (50 < length name)%nat -> ~ In dot name ->
  originalNameFormatter name = Throw TypeError.
Proof.
  intros Hlen Hdot. unfold originalNameFormatter.
  destruct (Z.gtb_spec (len name) MAX_ORIGINAL_NAME_LENGTH) as [_|Hle];
    [|unfold len, MAX_ORIGINAL_NAME_LENGTH in Hle; lia].
  rewrite split_no_dot by assumption. reflexivity.
Qed.

(** With an extension of at most 49 characters the long name is cut to
    exactly 50 characters. *)
Lemma originalNameFormatter_cut (stem ext : str) :
  ~ In dot ext ->
  (50 < length (stem ++ dot :: ext))%nat ->
  (length ext <= 49)%nat ->
  originalNameFormatter (stem ++ dot :: ext)
  = Ok (firstn (49 - length ext) stem ++ dot :: ext)
  /\ length (firstn (49 - length ext) stem ++ dot :: ext) = 50%nat.
Proof.
  intros Hext Hlen Hshort.
  rewrite originalNameFormatter_long by assumption.
  rewrite slice_prefix by (unfold MAX_ORIGINAL_NAME_LENGTH, len; lia).
  replace (Z.to_nat (MAX_ORIGINAL_NAME_LENGTH - len ext - 1))
    with (49 - length ext)%nat
    by (unfold MAX_ORIGINAL_NAME_LENGTH, len; lia).
  split; [reflexivity|].
  rewrite length_app in Hlen. rewrite length_app, length_firstn.
  cbn [length] in *. lia.
Qed.

(** With an extension of 50 characters or more the end index of [slice] is
    negative: the stem loses its last [extensionLength - 49] characters, and
    the name returned has more than 50 characters. *)
Lemma originalNameFormatter_long_extension (stem ext : str) :
  ~ In dot ext ->
  (50 <= length ext)%nat ->
  originalNameFormatter (stem ++ dot :: ext)
  = Ok (firstn (length stem - (length ext - 49)) stem ++ dot :: ext)
  /\ (50 < length (firstn (length stem - (length ext - 49)) stem ++ dot :: ext))%nat.
Proof.
  intros Hext Hlong.
  rewrite originalNameFormatter_long
    by (try assumption; rewrite length_app; cbn [length]; lia).
  rewrite slice_negative by (unfold MAX_ORIGINAL_NAME_LENGTH, len; lia).
  replace (Z.to_nat (len stem + (MAX_ORIGINAL_NAME_LENGTH - len ext - 1)))
    with (length stem - (length ext - 49))%nat
    by (unfold MAX_ORIGINAL_NAME_LENGTH, len; lia).
  split; [reflexivity|].
  rewrite length_app. cbn [length]. lia.
Qed.

(* ===================================================================== *)
(** * The file name formatter: results                                    *)
(* ===================================================================== *)

(** C3.  The formatter is meant to return a name of at most 50 characters
    with its extension kept.  It does not for a long name without an
    extension: [Screenshot 2021-03-01 at 14-30-59 annotated by the examiner]
    has 59 characters and no dot, and the call throws.  Nor does it for
    [draft.version_with_all_comments_from_the_second_examiner_included]: the
    extension has 59 characters, the end index of [slice] is negative, and
    the name returned is the dot and the extension, 60 characters. *)
Theorem originalNameFormatter_exceeds_limit :
  len (lit "Screenshot 2021-03-01 at 14-30-59 annotated by the examiner") = 59
  /\ originalNameFormatter
       (lit "Screenshot 2021-03-01 at 14-30-59 annotated by the examiner")
     = Throw TypeError
  /\ originalNameFormatter
       (lit "draft.version_with_all_comments_from_the_second_examiner_included")
     = Ok (lit ".version_with_all_comments_from_the_second_examiner_included")
  /\ len (lit ".version_with_all_comments_from_the_second_examiner_included") = 60.
Proof. repeat split; vm_compute; reflexivity. Qed.

(** The bound that C3 asks for does hold when the name is short, or has a
    dot and an extension of at most 49 characters; the extension is
    kept. *)
Lemma originalNameFormatter_bounded (name : str) :
  (length name <= 50)%nat
  \/ (exists stem ext, name = stem ++ dot :: ext /\ has_dot ext = false
                       /\ (length ext <= 49)%nat) ->
  exists out, originalNameFormatter name = Ok out /\ (length out <= 50)%nat.
Proof.
  intros [Hshort|(stem & ext & -> & Hext & Hlen)].
  - exists name. split; [now apply originalNameFormatter_short|assumption].
  - apply has_dot_false in Hext.
    destruct (Nat.le_gt_cases (length (stem ++ dot :: ext)) 50) as [Hle|Hgt].
    + eexists. split; [now apply originalNameFormatter_short|assumption].
    + destruct (originalNameFormatter_cut stem ext Hext Hgt Hlen) as [E L].
      eexists. split; [exact E|lia].
Qed.

(** C4.  A long name with a dot is taken apart at its last dot, and the
    stem is sliced from 0 to [50 - extensionLength - 1].  For sixty [a] and
    the extension [pdf] that is the first 46 characters of the stem, and the
    name returned has 50 characters and ends in [.pdf].  For the stem
    [final_report_with_notes] and an extension of 59 characters the end
    index is -10: the slice does not truncate the stem to a length, it drops
    its last ten characters, and the name returned has 73 characters,
    against the 50 that the function is to ensure. *)
Theorem originalNameFormatter_stem_not_truncated :
  originalNameFormatter (repeat "a"%char 60 ++ lit ".pdf")
  = Ok (repeat "a"%char 46 ++ lit ".pdf")
  /\ len (repeat "a"%char 46 ++ lit ".pdf") = 50
  /\ MAX_ORIGINAL_NAME_LENGTH
     - len (lit "version_with_all_comments_from_the_second_examiner_included") - 1
     = -10
  /\ originalNameFormatter
       (lit "final_report_with_notes.version_with_all_comments_from_the_second_examiner_included")
     = Ok (lit "final_report_.version_with_all_comments_from_the_second_examiner_included")
  /\ len (lit "final_report_.version_with_all_comments_from_the_second_examiner_included")
     = 73.
Proof. repeat split; vm_compute; reflexivity. Qed.

(** C10.  A name of more than 50 characters without a dot makes the
    formatter throw: the split has one segment, the extension is
    [undefined], and reading its length is a [TypeError].  The formatter
    returns a name exactly when the name has at most 50 characters or
    contains a dot. *)
Theorem originalNameFormatter_returns_iff (name : str) :
  ((50 < length name)%nat -> has_dot name = false ->
   originalNameFormatter name = Throw TypeError)
  /\ ((exists out, originalNameFormatter name = Ok out)
      <-> ((length name <= 50)%nat \/ has_dot name = true)).
Proof.
  split.
  - intros Hlen Hdot. apply originalNameFormatter_no_dot; [assumption|].
    now apply has_dot_false.
  - split.
    + intros [out Hout].
      destruct (Nat.le_gt_cases (length name) 50) as [Hle|Hgt]; [now left|].
      destruct (has_dot name) eqn:Hd; [now right|].
      rewrite originalNameFormatter_no_dot in Hout;
        [discriminate|assumption|now apply has_dot_false].
    + intros [Hle|Hd].
      * exists name. now apply originalNameFormatter_short.
      * destruct (Nat.le_gt_cases (length name) 50) as [Hle|Hgt].
        -- exists name. now apply originalNameFormatter_short.
        -- apply has_dot_In in Hd.
           destruct (last_dot name Hd) as (stem & ext & -> & Hext).
           eexists. now apply originalNameFormatter_long.
Qed.

(** A name of 51 [a]: no dot, and the call throws. *)
Lemma originalNameFormatter_returns_iff_witness :
  originalNameFormatter (repeat "a"%char 51) = Throw TypeError.
Proof.
  apply (proj1 (originalNameFormatter_returns_iff (repeat "a"%char 51))).
  - vm_compute. lia.
  - reflexivity.
Defined.

(* ===================================================================== *)
(** * Facts about queries                                                 *)
(* ===================================================================== *)

Section QueryFacts.

Context {R : Type}.
Implicit Types (p : R -> bool) (rows : list R).

Lemma find_existsb p rows :
  existsb p rows = match find p rows with Some _ => true | None => false end.
Proof.
  induction rows as [|r rows IH]; simpl; [reflexivity|].
  destruct (p r); [reflexivity|exact IH].
Qed.

Lemma find_none_iff p rows : find p rows = None <-> existsb p rows = false.
Proof. rewrite find_existsb. destruct (find p rows); split; congruence. Qed.

Lemma find_app_none p rows extra :
  find p rows = None -> find p (rows ++ extra) = find p extra.
Proof.
  induction rows as [|r rows IH]; simpl; [reflexivity|].
  destruct (p r); [discriminate|exact IH].
Qed.

(** [findOne] is the head of [findAll]. *)
Lemma find_filter p rows :
  find p rows = match filter p rows with r :: _ => Some r | [] => None end.
Proof.
  induction rows as [|r rows IH]; simpl; [reflexivity|].
  destruct (p r); [reflexivity|exact IH].
Qed.

(** A stronger condition finds nothing where the weaker one does not. *)
Lemma find_none_weaken p q rows :
  (forall r, q r = true -> p r = true) ->
  find p rows = None -> find q rows = None.
Proof.
  intros Hpq. induction rows as [|r rows IH]; simpl; [reflexivity|].
  destruct (p r) eqn:Hp; [discriminate|].
  destruct (q r) eqn:Hq; [|exact IH].
  apply Hpq in Hq. congruence.
Qed.

End QueryFacts.

(** [getClientId] only reads. *)
Lemma getClientId_reads (email : str) (db : Db) :
  snd (getClientId email db) = db.
Proof.
  unfold getClientId, bind, findOne, deref, ret, throw.
  destruct (find _ (users db)); [|reflexivity].
  destruct (find _ (clients db)); reflexivity.
Qed.

(* ===================================================================== *)
(** * Revision requests                                                   *)
(* ===================================================================== *)

(** C9.  When the request's order is not an order of the client that the
    request's email resolves to, [revisionRequest] answers
    [{success: false, message: 'Order does not exist'}] and the store is the
    one it started from: no file row, no status change, no revision row. *)
Theorem revisionRequest_not_owned (Date_valid : Deadline -> bool) (db : Db)
  (req : RevisionReq.t) (CLIENT_ID : Z) :
  fst (getClientId (RevisionReq.email req) db) = Ok CLIENT_ID ->
  existsb (fun o => (Order.id o =? RevisionReq.orderId req)
                    && (Order.clientId o =? CLIENT_ID)) (orders db) = false ->
  revisionRequest Date_valid req db
  = (Ok (RevisionResult.mk false (Some (lit "Order does not exist"))), db).
Proof.
  intros Hclient Hnone. apply find_none_iff in Hnone.
  pose proof (getClientId_reads (RevisionReq.email req) db) as Hreads.
  destruct (getClientId (RevisionReq.email req) db) as [res db'] eqn:Hget.
  cbn [fst snd] in Hclient, Hreads. subst res db'.
  unfold revisionRequest, transaction, rethrow, bind, outside, findOne.
  cbn [live kept snd]. rewrite Hget. cbn [live kept snd].
  rewrite Hnone. reflexivity.
Qed.

(** The first client asks for a revision of the second client's order. *)
Lemma revisionRequest_not_owned_witness :
  revisionRequest sample_Date_valid
    (RevisionReq.mk (lit "Amina@Example.com") 6
       [(lit "grammar", ChecklistEntry.mk true (lit "fix the tenses"))]
       (lit "2021-03-01") (lit "14:30")
       [SupportingFile.mk (lit "uploads/notes.pdf") (lit "notes.pdf")])
    sample_db
  = (Ok (RevisionResult.mk false (Some (lit "Order does not exist"))), sample_db).
Proof.
  apply (revisionRequest_not_owned sample_Date_valid sample_db _ 10); reflexivity.
Defined.

(* ===================================================================== *)
(** * Order status and assignment                                         *)
(* ===================================================================== *)

Lemma str_eqb_eq (a b : str) : str_eqb a b = true -> a = b.
Proof. unfold str_eqb. destruct (list_eq_dec ascii_dec a b); congruence. Qed.

(** The status name that [updateOrderStatus] computes. *)
Lemma orderStatus_name (db : Db) (success : PaymentStatus.t) (req : StatusReq.t) :
  (if str_eqb (StatusReq.type req) (lit "private") then lit "Ongoing"
   else match find (fun p => (ClientPayment.orderId p =? StatusReq.orderId req)
                             && (ClientPayment.statusId p =? PaymentStatus.id success))
                (clientPayments db) with
        | Some _ => lit "Ongoing"
        | None => lit "Pending payment"
        end) = target_status db success req.
Proof.
  unfold target_status, has_successful_payment. rewrite find_existsb.
  destruct (find _ (clientPayments db));
    destruct (str_eqb (StatusReq.type req) (lit "private")); reflexivity.
Qed.

(** Every run of [updateOrderStatus]: a reference row is missing and the
    call rejects with the store as it was; or the status is written, and the
    call rejects when the writer is missing, with the status still written,
    or assigns the writer unless an assignment is there already. *)
Lemma updateOrderStatus_cases (db : Db) (req : StatusReq.t) :
  match find (fun s => str_eqb (PaymentStatus.status s) (lit "Success"))
          (paymentStatuses db) with
  | None => updateOrderStatus req db = (Throw TypeError, db)
  | Some success =>
      match find (fun s => str_eqb (OrderStatus.status s)
                             (target_status db success req))
              (orderStatuses db) with
      | None => updateOrderStatus req db = (Throw TypeError, db)
      | Some target =>
          match find (fun w => Writer.userId w =? StatusReq.writerId req)
                  (writers db) with
          | None =>
              updateOrderStatus req db =
              (Throw (Error TypeError),
               set_orders db
                 (map (fun o => if Order.id o =? StatusReq.orderId req
                                then with_status (OrderStatus.id target) o else o)
                    (orders db)))
          | Some writer =>
              updateOrderStatus req db =
              match assignments db (StatusReq.orderId req) (Writer.id writer) with
              | _ :: _ =>
                  (Ok (StatusResult.mk true None true),
                   status_written db req target writer)
              | [] =>
                  (Ok (StatusResult.mk true None false),
                   set_writerOrders (status_written db req target writer)
                     (writerOrders db
                      ++ [WriterOrder.mk (next_id WriterOrder.id (writerOrders db))
                            (StatusReq.orderId req) (Writer.id writer)]))
              end
          end
      end
  end.
Proof.
  unfold updateOrderStatus, transaction, rethrow, bind, outside, within, findOne,
    update, create, deref, ret, throw.
  cbn [live kept snd]. cbv zeta.
  destruct (find _ (paymentStatuses db)) as [success|] eqn:Hsuccess;
    [|reflexivity].
  cbn [live kept snd]. rewrite orderStatus_name.
  destruct (find _ (orderStatuses db)) as [target|] eqn:Htarget; [|reflexivity].
  cbn [live kept snd writers writerOrders set_orders truthy_array truthy_object].
  destruct (find _ (writers db)) as [writer|]; [|reflexivity].
  cbn [live kept snd writers writerOrders set_orders].
  unfold assignments, status_written. rewrite find_filter.
  destruct (str_eqb (StatusReq.type req) (lit "public"));
    cbn [live kept snd writerOrders set_orders set_orderBids orderBids];
    destruct (filter _ (writerOrders db)); reflexivity.
Qed.

(** C7.  With the reference rows in place, every request has its order's
    status set: to the status named [Ongoing] when a [ClientPayment] row
    with the status [Success] exists for the order or the request is
    private, and to the status named [Pending payment] otherwise; no other
    order changes.  The status is written outside the transaction: it is the
    order's status after the call whether the call returns, which it does
    with [statusUpdated: true] when the writer of the request exists, or
    rejects, which it does when there is no such writer. *)
Theorem updateOrderStatus_sets_status (db : Db) (req : StatusReq.t)
  (success : PaymentStatus.t) (target : OrderStatus.t) :
  find (fun s => str_eqb (PaymentStatus.status s) (lit "Success"))
    (paymentStatuses db) = Some success ->
  find (fun s => str_eqb (OrderStatus.status s) (target_status db success req))
    (orderStatuses db) = Some target ->
  OrderStatus.status target
  = (if has_successful_payment db success (StatusReq.orderId req)
        || str_eqb (StatusReq.type req) (lit "private")
     then lit "Ongoing" else lit "Pending payment")
  /\ orders (snd (updateOrderStatus req db))
     = map (fun o => if Order.id o =? StatusReq.orderId req
                     then with_status (OrderStatus.id target) o else o)
         (orders db)
  /\ (forall o, In o (orders (snd (updateOrderStatus req db))) ->
                Order.id o = StatusReq.orderId req ->
                Order.statusId o = OrderStatus.id target)
  /\ match find (fun w => Writer.userId w =? StatusReq.writerId req)
             (writers db) with
     | Some _ =>
         exists r, fst (updateOrderStatus req db) = Ok r
                   /\ StatusResult.statusUpdated r = true
     | None => fst (updateOrderStatus req db) = Throw (Error TypeError)
     end.
Proof.
  intros Hsuccess Htarget.
  pose proof (updateOrderStatus_cases db req) as Hrun.
  rewrite Hsuccess, Htarget in Hrun.
  assert (Hname : OrderStatus.status target = target_status db success req).
  { apply find_some in Htarget as [_ Heq]. now apply str_eqb_eq in Heq. }
  assert (Hset : forall o,
    In o (map (fun o => if Order.id o =? StatusReq.orderId req
                        then with_status (OrderStatus.id target) o else o)
            (orders db)) ->
    Order.id o = StatusReq.orderId req -> Order.statusId o = OrderStatus.id target).
  { intros o Hin Hid. apply in_map_iff in Hin as (o0 & <- & _).
    destruct (Z.eqb_spec (Order.id o0) (StatusReq.orderId req)) as [_|Hne];
      [reflexivity|contradiction]. }
  assert (Horders : orders (snd (updateOrderStatus req db))
                    = map (fun o => if Order.id o =? StatusReq.orderId req
                                    then with_status (OrderStatus.id target) o else o)
                        (orders db)).
  { destruct (find _ (writers db)) as [writer|]; [|now rewrite Hrun].
    rewrite Hrun. unfold status_written.
    destruct (assignments db (StatusReq.orderId req) (Writer.id writer));
      destruct (str_eqb (StatusReq.type req) (lit "public")); reflexivity. }
  split; [exact Hname|]. split; [exact Horders|].
  split; [rewrite Horders; exact Hset|].
  destruct (find _ (writers db)) as [writer|]; [|now rewrite Hrun].
  rewrite Hrun.
  destruct (assignments db (StatusReq.orderId req) (Writer.id writer));
    eexists; split; reflexivity.
Qed.

(** A private request for order 5 names a writer that does not exist: the
    call rejects, and order 5 is [Ongoing]. *)
Lemma updateOrderStatus_sets_status_witness :
  fst (updateOrderStatus (StatusReq.mk 5 99 (lit "private")) sample_db)
  = Throw (Error TypeError)
  /\ orders (snd (updateOrderStatus (StatusReq.mk 5 99 (lit "private")) sample_db))
     = [Order.mk 5 10 3 5; Order.mk 6 11 1 1].
Proof.
  destruct (updateOrderStatus_sets_status sample_db
              (StatusReq.mk 5 99 (lit "private"))
              (PaymentStatus.mk 2 (lit "Success"))
              (OrderStatus.mk 3 (lit "Ongoing"))
              eq_refl eq_refl)
    as (_ & Horders & _ & Hrejects).
  split; [exact Hrejects|exact Horders].
Defined.

(** The writes of [updateOrderStatus] leave the tables it reads alone. *)
Lemma status_written_reads (db : Db) (req : StatusReq.t)
  (target : OrderStatus.t) (writer : Writer.t) :
  let db' := status_written db req target writer in
  paymentStatuses db' = paymentStatuses db
  /\ clientPayments db' = clientPayments db
  /\ orderStatuses db' = orderStatuses db
  /\ writers db' = writers db
  /\ writerOrders db' = writerOrders db.
Proof.
  unfold status_written.
  destruct (str_eqb (StatusReq.type req) (lit "public")); cbn; repeat split.
Qed.

(** A call for a pair that is assigned already: whatever it does, it
    leaves the [WriterOrder] table alone, and when it returns it reports the
    writer as chosen. *)
Lemma updateOrderStatus_chosen (db : Db) (req : StatusReq.t)
  (success : PaymentStatus.t) (writer : Writer.t) :
  find (fun s => str_eqb (PaymentStatus.status s) (lit "Success"))
    (paymentStatuses db) = Some success ->
  find (fun w => Writer.userId w =? StatusReq.writerId req) (writers db)
    = Some writer ->
  assignments db (StatusReq.orderId req) (Writer.id writer) <> [] ->
  writerOrders (snd (updateOrderStatus req db)) = writerOrders db
  /\ (forall r db', updateOrderStatus req db = (Ok r, db') ->
                    r = StatusResult.mk true None true)
  /\ (forall target,
        find (fun s => str_eqb (OrderStatus.status s) (target_status db success req))
          (orderStatuses db) = Some target ->
        updateOrderStatus req db
        = (Ok (StatusResult.mk true None true), status_written db req target writer)).
Proof.
  intros Hsuccess Hwriter Hpair.
  pose proof (updateOrderStatus_cases db req) as Hrun.
  rewrite Hsuccess, Hwriter in Hrun.
  destruct (find _ (orderStatuses db)) as [target|].
  - destruct (assignments db _ _) as [|a rest]; [contradiction|].
    rewrite Hrun. cbn [snd].
    destruct (status_written_reads db req target writer) as (_ & _ & _ & _ & Hwo).
    repeat split.
    + exact Hwo.
    + intros r db' [= <- _]. reflexivity.
    + intros target' [= <-]. reflexivity.
  - rewrite Hrun. cbn [snd]. repeat split; intros; discriminate.
Qed.

(** C8.  When a call of [updateOrderStatus] has returned, the pair of its
    order and writer has an assignment row: the one it had, or a new one if
    it had none.  Any later call for the same order and writer leaves the
    [WriterOrder] table as it is, and reports
    [{statusUpdated: true, writerAlreadyChosen: true}] when it returns, as
    the repeated request does: the lookup of the pair comes before the
    insert. *)
Theorem updateOrderStatus_assigns_once (db db1 : Db) (req req' : StatusReq.t)
  (r : StatusResult.t) :
  updateOrderStatus req db = (Ok r, db1) ->
  StatusReq.orderId req' = StatusReq.orderId req ->
  StatusReq.writerId req' = StatusReq.writerId req ->
  exists writer,
    find (fun w => Writer.userId w =? StatusReq.writerId req) (writers db)
      = Some writer
    /\ length (assignments db1 (StatusReq.orderId req) (Writer.id writer))
       = Nat.max 1 (length (assignments db (StatusReq.orderId req) (Writer.id writer)))
    /\ (length (writerOrders db1) <= S (length (writerOrders db)))%nat
    /\ writerOrders (snd (updateOrderStatus req' db1)) = writerOrders db1
    /\ (forall r' db2, updateOrderStatus req' db1 = (Ok r', db2) ->
                       r' = StatusResult.mk true None true)
    /\ (exists db2, updateOrderStatus req db1
                    = (Ok (StatusResult.mk true None true), db2)).
Proof.
  intros Hfirst Horder Hwid.
  pose proof (updateOrderStatus_cases db req) as Hrun.
  destruct (find _ (paymentStatuses db)) as [success|] eqn:Hsuccess;
    [|congruence].
  destruct (find _ (orderStatuses db)) as [target|] eqn:Htarget;
    [|congruence].
  destruct (find _ (writers db)) as [writer|] eqn:Hwriter; [|congruence].
  exists writer.
  destruct (status_written_reads db req target writer)
    as (Hps & Hcp & Hos & Hw & Hwo).
  rewrite Hrun in Hfirst.
  assert (Hstate :
    paymentStatuses db1 = paymentStatuses db
    /\ clientPayments db1 = clientPayments db
    /\ orderStatuses db1 = orderStatuses db
    /\ writers db1 = writers db
    /\ length (assignments db1 (StatusReq.orderId req) (Writer.id writer))
       = Nat.max 1 (length (assignments db (StatusReq.orderId req) (Writer.id writer)))
    /\ (length (writerOrders db1) <= S (length (writerOrders db)))%nat).
  { unfold assignments in *.
    destruct (filter _ (writerOrders db)) as [|a rest] eqn:Hpair;
      injection Hfirst as _ <-;
      cbn [paymentStatuses clientPayments orderStatuses writers writerOrders
           set_writerOrders];
      repeat split; try assumption.
    - rewrite filter_app, Hpair. cbn. now rewrite !Z.eqb_refl.
    - rewrite length_app. cbn. lia.
    - rewrite Hwo, Hpair. cbn [length]. lia.
    - rewrite Hwo. lia. }
  destruct Hstate as (Hps1 & Hcp1 & Hos1 & Hw1 & Hcount & Hlen).
  assert (Hpair1 : assignments db1 (StatusReq.orderId req) (Writer.id writer) <> []).
  { intros E. rewrite E in Hcount. cbn [length] in Hcount. lia. }
  assert (Hsuccess1 : find (fun s => str_eqb (PaymentStatus.status s) (lit "Success"))
                        (paymentStatuses db1) = Some success)
    by now rewrite Hps1.
  split; [reflexivity|]. split; [exact Hcount|]. split; [exact Hlen|].
  destruct (updateOrderStatus_chosen db1 req' success writer) as (Hkeep & Hres & _).
  { exact Hsuccess1. }
  { now rewrite Hw1, Hwid. }
  { now rewrite Horder. }
  split; [exact Hkeep|]. split; [exact Hres|].
  destruct (updateOrderStatus_chosen db1 req success writer) as (_ & _ & Hagain).
  { exact Hsuccess1. }
  { now rewrite Hw1. }
  { exact Hpair1. }
  eexists. apply (Hagain target).
  rewrite Hos1. unfold target_status, has_successful_payment. rewrite Hcp1.
  exact Htarget.
Qed.

(** The writer is chosen for order 5 by a public request, then again by a
    private one. *)
Lemma updateOrderStatus_assigns_once_witness :
  let db1 := snd (updateOrderStatus (StatusReq.mk 5 2 (lit "public")) sample_db) in
  map WriterOrder.orderId (writerOrders db1) = [5]
  /\ fst (updateOrderStatus (StatusReq.mk 5 2 (lit "private")) db1)
     = Ok (StatusResult.mk true None true)
  /\ writerOrders (snd (updateOrderStatus (StatusReq.mk 5 2 (lit "private")) db1))
     = writerOrders db1.
Proof.
  destruct (updateOrderStatus_assigns_once sample_db
              (snd (updateOrderStatus (StatusReq.mk 5 2 (lit "public")) sample_db))
              (StatusReq.mk 5 2 (lit "public"))
              (StatusReq.mk 5 2 (lit "private"))
              (StatusResult.mk true None false)
              eq_refl eq_refl eq_refl)
    as (writer & _ & _ & _ & Hkeep & _ & _).
  cbv zeta. split; [reflexivity|]. split; [reflexivity|exact Hkeep].
Defined.

(* ===================================================================== *)
(** * Ratings                                                             *)
(* ===================================================================== *)

(** Every run of [rateWriter]. *)
Lemma rateWriter_cases (db : Db) (req : RateReq.t) :
  match find (fun r => WriterRating.orderId r =? RateReq.orderId req)
          (writerRatings db) with
  | Some _ => rateWriter req db = (Ok AlreadyRated, db)
  | None =>
      match find (fun a => WriterOrder.orderId a =? RateReq.orderId req)
              (writerOrders db) with
      | None => rateWriter req db = (Throw TypeError, db)
      | Some w =>
          let writer := WriterOrder.writerId w in
          let db1 :=
            set_writerRatings db (writerRatings db ++ [new_rating db req w]) in
          match find (fun a => WriterAverageRating.writerId a =? writer)
                  (writerAverageRatings db) with
          | Some avg =>
              rateWriter req db =
              (Ok (Plain true),
               set_writerAverageRatings db1
                 (map (fun a =>
                         if WriterAverageRating.writerId a =? writer
                         then WriterAverageRating.mk (WriterAverageRating.id a)
                                (WriterAverageRating.writerId a)
                                (new_average (WriterAverageRating.rating avg)
                                   (len (ratings_of db1 writer))
                                   (RateReq.rating req))
                         else a)
                    (writerAverageRatings db)))
          | None =>
              rateWriter req db =
              (Ok (Plain true),
               set_writerAverageRatings db1
                 (writerAverageRatings db
                  ++ [WriterAverageRating.mk
                        (next_id WriterAverageRating.id (writerAverageRatings db))
                        writer (RateReq.rating req)]))
          end
      end
  end.
Proof.
  destruct (find _ (writerRatings db)) as [rated|] eqn:Hrated.
  { unfold rateWriter, bind, findOne. now rewrite Hrated. }
  destruct (find _ (writerOrders db)) as [w|] eqn:Hw.
  2: { unfold rateWriter, bind, findOne. now rewrite Hrated, Hw. }
  assert (Hpair :
    find (fun r => (WriterRating.orderId r =? RateReq.orderId req)
                   && (WriterRating.writerId r =? WriterOrder.writerId w))
      (writerRatings db) = None).
  { apply (find_none_weaken _ _ _ (fun r H => proj1 (andb_prop _ _ H)) Hrated). }
  cbv zeta.
  destruct (find _ (writerAverageRatings db)) as [avg|] eqn:Havg;
    unfold rateWriter, rethrow, bind, findOne, findAll, create, update, deref, ret,
      truthy_object, truthy_array;
    rewrite Hrated, Hw, Hpair;
    cbn [writerAverageRatings set_writerRatings writerRatings];
    rewrite Havg; unfold new_average, ratings_of, len, new_rating;
    cbn [writerRatings set_writerRatings]; rewrite ?length_map; reflexivity.
Qed.

(** C5.  When a rating row exists for the order, [rateWriter] answers
    [{rated: true}] and leaves the store as it is: no rating row is created
    and the average row is not touched.  Hence, once a call for an order has
    returned, every later call for that order answers [{rated: true}] and
    changes nothing: of two calls only the first can change the average. *)
Theorem rateWriter_at_most_once (db : Db) (req req' : RateReq.t) :
  RateReq.orderId req' = RateReq.orderId req ->
  (existsb (fun r => WriterRating.orderId r =? RateReq.orderId req)
     (writerRatings db) = true ->
   rateWriter req db = (Ok AlreadyRated, db))
  /\ (forall r db1,
        rateWriter req db = (Ok r, db1) ->
        rateWriter req' db1 = (Ok AlreadyRated, db1)).
Proof.
  intros Horder.
  pose proof (rateWriter_cases db req) as Hrun.
  split.
  - intros Hrated. rewrite find_existsb in Hrated.
    destruct (find _ (writerRatings db)); [exact Hrun|discriminate].
  - intros r db1 Hfirst.
    pose proof (rateWriter_cases db1 req') as Hsecond.
    rewrite Horder in Hsecond.
    assert (Hrated1 :
      find (fun r => WriterRating.orderId r =? RateReq.orderId req)
        (writerRatings db1) <> None).
    { destruct (find _ (writerRatings db)) as [rated|] eqn:Hrated.
      - rewrite Hrun in Hfirst. injection Hfirst as _ <-. congruence.
      - destruct (find _ (writerOrders db)) as [w|]; [|congruence].
        cbv zeta in Hrun.
        assert (Hrows : writerRatings db1
                        = writerRatings db ++ [new_rating db req w]).
        { destruct (find _ (writerAverageRatings db));
            rewrite Hrun in Hfirst; injection Hfirst as _ <-; reflexivity. }
        rewrite Hrows, (find_app_none _ _ _ Hrated).
        cbn. rewrite Z.eqb_refl. discriminate. }
    destruct (find _ (writerRatings db1)); [exact Hsecond|contradiction].
Qed.

(** Order 5 is rated with 3, then with 1: the second call is turned away
    and the average stays the one the first call stored. *)
Lemma rateWriter_at_most_once_witness :
  let db1 := snd (rateWriter (RateReq.mk 5 (Number_of_Z 3)) rated_db) in
  fst (rateWriter (RateReq.mk 5 (Number_of_Z 3)) rated_db) = Ok (Plain true)
  /\ writerAverageRatings db1
     = [WriterAverageRating.mk 1 20
          (new_average (num_div (Number_of_Z 9) (Number_of_Z 2)) 3 (Number_of_Z 3))]
  /\ rateWriter (RateReq.mk 5 (Number_of_Z 1)) db1 = (Ok AlreadyRated, db1).
Proof.
  cbv zeta. split; [reflexivity|]. split; [reflexivity|].
  apply (proj2 (rateWriter_at_most_once rated_db (RateReq.mk 5 (Number_of_Z 3))
                  (RateReq.mk 5 (Number_of_Z 1)) eq_refl) (Plain true)).
  reflexivity.
Defined.

Lemma Qsum_snoc (l : list Q) (x : Q) : (Qsum (l ++ [x]) == Qsum l + x)%Q.
Proof.
  unfold Qsum. induction l as [|y l IH]; cbn [app fold_right].
  - ring.
  - rewrite IH. ring.
Qed.

(** Over the rationals the running average is the mean: from the mean of
    the earlier ratings and their number, the formula gives the mean with
    the new rating. *)
Lemma exact_average_mean (previous : list Q) (oldAverage newRating : Q) :
  (oldAverage == mean previous)%Q ->
  (exact_average oldAverage (len (previous ++ [newRating])) newRating
   == mean (previous ++ [newRating]))%Q.
Proof.
  intros Hold. unfold exact_average, mean, len.
  rewrite length_app. cbn [length].
  replace (Z.of_nat (length previous + 1) - 1) with (Z.of_nat (length previous))
    by lia.
  rewrite Qsum_snoc.
  assert (Hsum : (oldAverage * inject_Z (Z.of_nat (length previous))
                  == Qsum previous)%Q).
  { rewrite Hold. unfold mean, len. destruct previous as [|q previous].
    - cbn. ring.
    - field. intros H.
      assert (Hz : (inject_Z (Z.of_nat (length (q :: previous))) == inject_Z 0)%Q)
        by exact H.
      rewrite inject_Z_injective in Hz. cbn [length] in Hz. lia. }
  rewrite Hsum. reflexivity.
Qed.

(** In binary64 the running average need not be the mean.  The writer has
    six ratings, 3, 5, 3, 5, 4 and 4, and the average 4, which is their
    mean.  Order 5 is rated with 5: the stored average is the number
    4664442471205157 / 2^50, printed 4.142857142857143, and the mean of the
    seven ratings is 29/7, which no binary64 number is. *)
Lemma rateWriter_mean_counterexample :
  exists db1 newAverage,
    exact_values (ratings_of six_ratings_db 20)
    = [3 # 1; 5 # 1; 3 # 1; 5 # 1; 4 # 1; 4 # 1]%Q
    /\ find (fun a => WriterAverageRating.writerId a =? 20)
         (writerAverageRatings six_ratings_db)
       = Some (WriterAverageRating.mk 1 20 (Number_of_Z 4))
    /\ exact (Number_of_Z 4) = Some (4 # 1)%Q
    /\ (4 # 1 == mean (exact_values (ratings_of six_ratings_db 20)))%Q
    /\ rateWriter (RateReq.mk 5 (Number_of_Z 5)) six_ratings_db
       = (Ok (Plain true), db1)
    /\ writerAverageRatings db1 = [WriterAverageRating.mk 1 20 newAverage]
    /\ exact newAverage = Some (4664442471205157 # 1125899906842624)%Q
    /\ (mean (exact_values (ratings_of db1 20)) == 29 # 7)%Q
    /\ ~ (4664442471205157 # 1125899906842624 == 29 # 7)%Q.
Proof.
  eexists. eexists.
  split; [vm_compute; reflexivity|]. split; [reflexivity|].
  split; [vm_compute; reflexivity|]. split; [vm_compute; reflexivity|].
  split; [vm_compute; reflexivity|]. split; [reflexivity|].
  split; [vm_compute; reflexivity|]. split; [vm_compute; reflexivity|].
  intros H. vm_compute in H. discriminate H.
Qed.

(** The rationals of the ratings, with a new rating that is finite. *)
Lemma exact_values_snoc (l : list number) (x : number) (q : Q) :
  exact x = Some q -> exact_values (l ++ [x]) = exact_values l ++ [q].
Proof.
  intros Hx. unfold exact_values. rewrite map_app. cbn [map]. now rewrite Hx.
Qed.

(** C6.  A first rating of an order with an assigned writer is stored, and
    the call returns [true].  When the writer has an average row, its rating
    becomes the binary64 value of
    [(oldAverage * (ratingCount - 1) + newRating) / ratingCount], every
    operation rounded to nearest, where [ratingCount] counts the writer's
    rating rows with the new one.  Over the rationals that formula gives the
    mean of all the ratings when the old average is the mean of the earlier
    ones; the number that is stored is the rounded one.  When the writer has
    no average row, one is created with the new rating. *)
Theorem rateWriter_running_average (db : Db) (req : RateReq.t)
  (w : WriterOrder.t) :
  existsb (fun r => WriterRating.orderId r =? RateReq.orderId req)
    (writerRatings db) = false ->
  find (fun a => WriterOrder.orderId a =? RateReq.orderId req) (writerOrders db)
    = Some w ->
  let writer := WriterOrder.writerId w in
  exists db1,
    rateWriter req db = (Ok (Plain true), db1)
    /\ ratings_of db1 writer = ratings_of db writer ++ [RateReq.rating req]
    /\ match find (fun a => WriterAverageRating.writerId a =? writer)
               (writerAverageRatings db) with
       | Some avg =>
           let oldAverage := WriterAverageRating.rating avg in
           let ratingCount := len (ratings_of db1 writer) in
           let newAverage :=
             num_div
               (num_add (num_mul oldAverage (Number_of_Z (ratingCount - 1)))
                  (RateReq.rating req))
               (Number_of_Z ratingCount) in
           writerAverageRatings db1
           = map (fun a =>
                    if WriterAverageRating.writerId a =? writer
                    then WriterAverageRating.mk (WriterAverageRating.id a)
                           (WriterAverageRating.writerId a) newAverage
                    else a)
               (writerAverageRatings db)
           /\ (forall old new : Q,
                 exact (RateReq.rating req) = Some new ->
                 (old == mean (exact_values (ratings_of db writer)))%Q ->
                 ((old * inject_Z (ratingCount - 1) + new) / inject_Z ratingCount
                  == mean (exact_values (ratings_of db1 writer)))%Q)
       | None =>
           writerAverageRatings db1
           = writerAverageRatings db
             ++ [WriterAverageRating.mk
                   (next_id WriterAverageRating.id (writerAverageRatings db))
                   writer (RateReq.rating req)]
       end.
Proof.
  intros Hfresh Hw writer. apply find_none_iff in Hfresh.
  pose proof (rateWriter_cases db req) as Hrun.
  rewrite Hfresh, Hw in Hrun. cbv zeta in Hrun. fold writer in Hrun.
  assert (Hratings : forall rows,
    ratings_of (set_writerAverageRatings
                  (set_writerRatings db (writerRatings db ++ [new_rating db req w]))
                  rows) writer
    = ratings_of db writer ++ [RateReq.rating req]).
  { intros rows. unfold ratings_of. cbn [writerRatings set_writerAverageRatings
      set_writerRatings]. rewrite filter_app, map_app. cbn.
    unfold writer. now rewrite Z.eqb_refl. }
  destruct (find _ (writerAverageRatings db)) as [avg|] eqn:Havg.
  - eexists. split; [exact Hrun|]. split; [apply Hratings|].
    cbv zeta. rewrite Hratings. split.
    + cbn [writerAverageRatings set_writerAverageRatings].
      unfold new_average, ratings_of.
      cbn [writerRatings set_writerRatings].
      rewrite filter_app, map_app. cbn. unfold writer.
      now rewrite Z.eqb_refl.
    + intros old new Hnew Hold.
      rewrite (exact_values_snoc _ _ _ Hnew).
      replace (len (ratings_of db writer ++ [RateReq.rating req]))
        with (len (exact_values (ratings_of db writer) ++ [new])).
      * apply (exact_average_mean _ old new Hold).
      * unfold len, exact_values. now rewrite !length_app, length_map.
  - eexists. split; [exact Hrun|]. split; [apply Hratings|]. reflexivity.
Qed.

(** The writer has the ratings 4 and 5 and the average 4.5; order 5 is rated
    with 4: the average becomes the number 4878899596318037 / 2^50, printed
    4.333333333333333. *)
Lemma rateWriter_running_average_witness :
  exists db1,
    rateWriter (RateReq.mk 5 (Number_of_Z 4)) rated_db = (Ok (Plain true), db1)
    /\ ratings_of db1 20 = [Number_of_Z 4; Number_of_Z 5; Number_of_Z 4]
    /\ map WriterAverageRating.rating (writerAverageRatings db1)
       = [S754_finite false 4878899596318037 (-50)].
Proof.
  destruct (rateWriter_running_average rated_db (RateReq.mk 5 (Number_of_Z 4))
              (WriterOrder.mk 1 5 20) eq_refl eq_refl)
    as (db1 & Hrun & Hratings & Hrows & _).
  exists db1. split; [exact Hrun|]. split; [exact Hratings|].
  cbv zeta in Hrows. rewrite Hrows, Hratings. vm_compute. reflexivity.
Defined.

(* ===================================================================== *)
(** * Payment recording                                                   *)
(* ===================================================================== *)

(** What [updateOrderPayment] has stored when it reports a new payment
    detail: the row carries the currency, the extras, the totals and the
    cost per page of the request, and its order is [requestOrderId], not the
    order that was looked up. *)
Lemma updateOrderPayment_created (db db1 : Db) (req : PaymentReq.t)
  (phase : str) (requestOrderId orderId : option Z) :
  updateOrderPayment req phase requestOrderId db = (Ok (PaymentCreated orderId), db1) ->
  orderId = js_or (PaymentReq.orderId req) requestOrderId
  /\ find (fun d => where_eq (OrderPaymentDetail.orderId d) orderId)
       (orderPaymentDetails db) = None
  /\ exists currency,
       find (fun c => str_eqb (Currency.currencyCode c)
                        (PaymentSummary.currencyCode (PaymentReq.paymentSummary req)))
         (currencies db) = Some currency
       /\ orderPaymentDetails db1
          = orderPaymentDetails db
            ++ [OrderPaymentDetail.mk
                  (next_id OrderPaymentDetail.id (orderPaymentDetails db))
                  requestOrderId
                  (Currency.id currency)
                  (String_of_array
                     (map Extra.id
                        (PaymentSummary.extrasList (PaymentReq.paymentSummary req))))
                  (PaymentSummary.extrasTotalPrice (PaymentReq.paymentSummary req))
                  (PaymentSummary.totalPrice (PaymentReq.paymentSummary req))
                  (PaymentSummary.cpp (PaymentReq.paymentSummary req))].
Proof.
  intros H.
  unfold updateOrderPayment in H. run_in H.
  cbn [orders set_orderPaymentDetails set_clientOrderPostingSteps
       clientOrderPostingSteps orderPaymentDetails] in H.
  repeat case_run H;
    injection H as <- <-;
    cbn [orderPaymentDetails set_orderPaymentDetails set_clientOrderPostingSteps];
    (split; [reflexivity|]); (split; [assumption|]);
    eexists; (split; reflexivity).
Qed.

(** C2.  The specification asks for a payment detail attached to the
    resolved order.
    [saveOrderPaymentDetails] passes [null] as [requestOrderId], and the row
    is created with [orderId: requestOrderId]: for the request of order 5,
    which has no payment detail yet, the call reports order 5, creates the
    step 3 row for order 5 and its client, and stores a payment detail with
    the currency, the extras, the totals and the cost per page of the
    request but attached to no order.  Order 5 still has no payment detail
    afterwards, so the same request stores a second such row. *)
Theorem saveOrderPaymentDetails_row_without_order :
  let req := PaymentReq.mk (lit "amina@example.com") 5 sample_summary in
  let db1 := snd (saveOrderPaymentDetails req sample_db) in
  let db2 := snd (saveOrderPaymentDetails req db1) in
  fst (saveOrderPaymentDetails req sample_db) = Ok (PaymentCreated (Some 5))
  /\ orderPaymentDetails db1
     = [OrderPaymentDetail.mk 1 None 1 (lit "3,7") (4 # 1) (54 # 1) (10 # 1)]
  /\ clientOrderPostingSteps db1
     = [ClientOrderPostingStep.mk 1 10 (Some 5) 1;
        ClientOrderPostingStep.mk 2 10 (Some 5) 3]
  /\ find (fun d => where_eq (OrderPaymentDetail.orderId d) (Some 5))
       (orderPaymentDetails db1) = None
  /\ map OrderPaymentDetail.orderId (orderPaymentDetails db2) = [None; None].
Proof. cbv zeta. repeat split; vm_compute; reflexivity. Qed.

(* ===================================================================== *)
(** * The resume projection                                               *)
(* ===================================================================== *)

(** The discount that [orderDetails] returns with an order: [0] for one
    page, else the first tier whose lower limit is at least the page count,
    or [null] when there is no such tier. *)
Lemma orderDetails_paperDiscount (db db1 : Db) (client user : ClientArg.t)
  (orderId : Z) (gotStarted : bool) (order : Order.t) (paperDiscount : DiscountValue)
  loginVia orderPostingStep orderPaymentDetails orderAlreadyPaidFor
  orderAssignment orderFiles :
  orderDetails client orderId gotStarted db
  = (Ok (ResumeOrder order paperDiscount loginVia orderPostingStep
           orderPaymentDetails orderAlreadyPaidFor orderAssignment orderFiles user),
     db1) ->
  paperDiscount
  = if Order.pageCount order =? 1 then DiscountZero
    else match find (fun d => PaperDiscount.lowerLimit d >=? Order.pageCount order)
                 (paperDiscounts db) with
         | Some tier => DiscountRow (PaperDiscount.discount tier)
         | None => DiscountNull
         end.
Proof.
  intros H.
  unfold orderDetails in H. run_in H.
  repeat case_run H; inversion H; subst;
    repeat match goal with
      | E : (Order.pageCount _ =? 1) = _ |- _ => rewrite E; clear E
      | E : find (fun d => PaperDiscount.lowerLimit d >=? _) _ = _ |- _ =>
          rewrite E; clear E
      end;
    reflexivity.
Qed.

(** C1.  The first client's latest order has 5 pages; the tiers are 5
    percent from 2 pages and 10 percent from 10 pages.  The specification
    designates
    the tier whose lower limit is at most 5, the first one.  [orderDetails]
    looks for a lower limit of at least 5 and returns the second tier.  For
    the second client's order of one page it returns [0]. *)
Theorem orderDetails_discount_of_higher_tier :
  orderDetails (ClientArg.mk 10 None) 0 false sample_db
  = (Ok (ResumeOrder (Order.mk 5 10 1 5) (DiscountRow (10 # 1)) None
           (Some (ClientOrderPostingStep.mk 1 10 (Some 5) 1)) None false None []
           (ClientArg.mk 10 None)),
     sample_db)
  /\ filter (fun d => PaperDiscount.lowerLimit d <=? 5) (paperDiscounts sample_db)
     = [PaperDiscount.mk 1 2 (5 # 1)]
  /\ orderDetails (ClientArg.mk 11 None) 0 false sample_db
     = (Ok (ResumeOrder (Order.mk 6 11 1 1) DiscountZero None None None false
              None [] (ClientArg.mk 11 None)),
        sample_db).
Proof. repeat split; vm_compute; reflexivity. Qed.

(* ===================================================================== *)
(** * The file name formatter: further properties                         *)
(* ===================================================================== *)

(** [slice(0, k)] is a prefix, whatever the sign of [k]. *)
Lemma slice_from_start {A : Type} (s : list A) (k : Z) :
  exists n, slice s 0 k = firstn n s.
Proof.
  destruct (Z.lt_ge_cases k 0) as [Hneg|Hpos].
  - eexists. now apply slice_negative.
  - eexists. apply slice_prefix. lia.
Qed.

(** Whatever its length, a name with a dot keeps its last extension: the
    formatter returns a prefix of the stem, the dot and the extension. *)
Theorem originalNameFormatter_keeps_extension (stem ext : str) :
  has_dot ext = false ->
  exists kept dropped,
    originalNameFormatter (stem ++ dot :: ext) = Ok (kept ++ dot :: ext)
    /\ stem = kept ++ dropped.
Proof.
  intros Hext. apply has_dot_false in Hext.
  destruct (Nat.le_gt_cases (length (stem ++ dot :: ext)) 50) as [Hle|Hgt].
  - exists stem, []. split; [now apply originalNameFormatter_short|].
    now rewrite app_nil_r.
  - rewrite originalNameFormatter_long by assumption.
    destruct (slice_from_start stem (MAX_ORIGINAL_NAME_LENGTH - len ext - 1))
      as [n ->].
    exists (firstn n stem), (skipn n stem). split; [reflexivity|].
    symmetry. apply firstn_skipn.
Qed.

(** The name [archive.tar.gz]: nothing is dropped. *)
Lemma originalNameFormatter_keeps_extension_witness :
  exists kept dropped,
    originalNameFormatter (lit "archive.tar" ++ dot :: lit "gz")
    = Ok (kept ++ dot :: lit "gz")
    /\ lit "archive.tar" = kept ++ dropped.
Proof.
  apply (originalNameFormatter_keeps_extension (lit "archive.tar") (lit "gz")).
  reflexivity.
Defined.

(** A name that the formatter has cut, with an extension of at most 49
    characters, is left alone when it is formatted again. *)
Theorem originalNameFormatter_stable (stem ext out : str) :
  has_dot ext = false ->
  (length ext <= 49)%nat ->
  originalNameFormatter (stem ++ dot :: ext) = Ok out ->
  originalNameFormatter out = Ok out.
Proof.
  intros Hext Hshort Hout.
  destruct (originalNameFormatter_bounded (stem ++ dot :: ext)) as (out' & E & L).
  { right. now exists stem, ext. }
  rewrite Hout in E. injection E as <-.
  now apply originalNameFormatter_short.
Qed.

Lemma originalNameFormatter_stable_witness :
  originalNameFormatter (repeat "a"%char 46 ++ lit ".pdf")
  = Ok (repeat "a"%char 46 ++ lit ".pdf").
Proof.
  apply (originalNameFormatter_stable (repeat "a"%char 60) (lit "pdf")).
  - reflexivity.
  - vm_compute. lia.
  - reflexivity.
Defined.

(** With an extension of 50 characters or more the formatter returns a name
    of more than 50 characters: the stem without its last
    [extensionLength - 49] characters, the dot and the whole extension. *)
Theorem originalNameFormatter_long_extension_overflows (stem ext : str) :
  has_dot ext = false ->
  (50 <= length ext)%nat ->
  exists out,
    originalNameFormatter (stem ++ dot :: ext) = Ok out
    /\ out = firstn (length stem - (length ext - 49)) stem ++ dot :: ext
    /\ (50 < length out)%nat.
Proof.
  intros Hext Hlong. apply has_dot_false in Hext.
  destruct (originalNameFormatter_long_extension stem ext Hext Hlong) as [E L].
  eexists. split; [exact E|]. split; [reflexivity|exact L].
Qed.

Lemma originalNameFormatter_long_extension_overflows_witness :
  exists out,
    originalNameFormatter (lit "x" ++ dot :: repeat "b"%char 50) = Ok out
    /\ out = firstn (length (lit "x") - (length (repeat "b"%char 50) - 49))
               (lit "x") ++ dot :: repeat "b"%char 50
    /\ (50 < length out)%nat.
Proof.
  apply (originalNameFormatter_long_extension_overflows (lit "x")
           (repeat "b"%char 50)).
  - reflexivity.
  - vm_compute. lia.
Defined.

(* ===================================================================== *)
(** * Client resolution                                                   *)
(* ===================================================================== *)

Lemma lower_char_idempotent (c : ascii) : lower_char (lower_char c) = lower_char c.
Proof. destruct c as [[] [] [] [] [] [] [] []]; reflexivity. Qed.

Lemma toLowerCase_idempotent (s : str) : toLowerCase (toLowerCase s) = toLowerCase s.
Proof.
  unfold toLowerCase. rewrite map_map. apply map_ext.
  intros c. apply lower_char_idempotent.
Qed.

(** Every run of [getClientId]: the first user with the lowered email, then
    the first client row of that user; a [TypeError] when either is
    missing. *)
Lemma getClientId_cases (email : str) (db : Db) :
  getClientId email db =
  match find (fun u => str_eqb (User.email u) (toLowerCase email)) (users db) with
  | None => (Throw TypeError, db)
  | Some u =>
      match find (fun c => Client.userId c =? User.id u) (clients db) with
      | None => (Throw TypeError, db)
      | Some c => (Ok (Client.id c), db)
      end
  end.
Proof.
  unfold getClientId, bind, findOne, deref, ret, throw.
  destruct (find _ (users db)); [|reflexivity].
  destruct (find _ (clients db)); reflexivity.
Qed.

(** The client of an email does not depend on the case of its letters: two
    spellings with the same lower-case form resolve alike, and so do an
    email and its lower-case form. *)
Theorem getClientId_ignores_case (db : Db) (email email' : str) :
  toLowerCase email = toLowerCase email' ->
  getClientId email db = getClientId email' db
  /\ getClientId (toLowerCase email) db = getClientId email db.
Proof.
  intros Hsame. rewrite !getClientId_cases, toLowerCase_idempotent, Hsame.
  split; reflexivity.
Qed.

Lemma getClientId_ignores_case_witness :
  getClientId (lit "AMINA@Example.COM") sample_db
  = getClientId (lit "amina@EXAMPLE.com") sample_db
  /\ getClientId (toLowerCase (lit "AMINA@Example.COM")) sample_db
     = getClientId (lit "AMINA@Example.COM") sample_db.
Proof.
  apply (getClientId_ignores_case sample_db). reflexivity.
Defined.

(** The stored email is compared as it is.  When every user whose email has
    the lower-case form of the request is stored with a capital letter, the
    request resolves to no client, whatever its spelling. *)
Theorem getClientId_stored_capitals (db : Db) (email : str) :
  (forall u, In u (users db) ->
             toLowerCase (User.email u) = toLowerCase email ->
             toLowerCase (User.email u) <> User.email u) ->
  getClientId email db = (Throw TypeError, db).
Proof.
  intros Hcap. rewrite getClientId_cases.
  destruct (find _ (users db)) as [u|] eqn:Hfind; [|reflexivity].
  apply find_some in Hfind as [Hin Heq]. apply str_eqb_eq in Heq.
  exfalso. apply (Hcap u Hin).
  - now rewrite Heq, toLowerCase_idempotent.
  - now rewrite Heq, toLowerCase_idempotent.
Qed.

Lemma getClientId_stored_capitals_witness :
  getClientId (lit "Amina@example.com") capital_db = (Throw TypeError, capital_db)
  /\ getClientId (lit "amina@example.com") capital_db = (Throw TypeError, capital_db).
Proof.
  split; apply getClientId_stored_capitals;
    intros u [<-|[]] _; vm_compute; discriminate.
Defined.

(* ===================================================================== *)
(** * File removal                                                        *)
(* ===================================================================== *)

(** Every run of [removeFile]. *)
Lemma removeFile_cases (db : Db) (req : RemoveFileReq.t) :
  removeFile req db =
  match find (fun t => str_eqb (OrderFileType.type t) (lit "Client Supporting"))
          (orderFileTypes db) with
  | None => (Throw TypeError, db)
  | Some t =>
      match find (file_to_remove req (OrderFileType.id t)) (orderFiles db) with
      | None => (Ok (RemoveFileResult.mk false (Some (lit "Item not found"))), db)
      | Some _ =>
          (Ok (RemoveFileResult.mk true None),
           set_orderFiles db (files_marked req (OrderFileType.id t) (orderFiles db)))
      end
  end.
Proof.
  unfold removeFile. run.
  destruct (find _ (orderFileTypes db)) as [t|]; [|reflexivity].
  cbn [live kept snd].
  destruct (find _ (orderFiles db)); reflexivity.
Qed.

Lemma file_to_remove_deleted (req : RemoveFileReq.t) (typeId : Z) (f : OrderFile.t) :
  file_to_remove req typeId (deleted f) = file_to_remove req typeId f.
Proof. reflexivity. Qed.

Lemma files_marked_twice (req : RemoveFileReq.t) (typeId : Z)
  (rows : list OrderFile.t) :
  files_marked req typeId (files_marked req typeId rows)
  = files_marked req typeId rows.
Proof.
  unfold files_marked. rewrite map_map. apply map_ext. intros f.
  destruct (file_to_remove req typeId f) eqn:Hf.
  - now rewrite file_to_remove_deleted, Hf.
  - now rewrite Hf.
Qed.

Lemma find_files_marked (req : RemoveFileReq.t) (typeId : Z)
  (rows : list OrderFile.t) :
  find (file_to_remove req typeId) (files_marked req typeId rows)
  = option_map deleted (find (file_to_remove req typeId) rows).
Proof.
  induction rows as [|f rows IH]; cbn; [reflexivity|].
  destruct (file_to_remove req typeId f) eqn:Hf.
  - now rewrite file_to_remove_deleted, Hf.
  - now rewrite Hf.
Qed.

(** [removeFile] deletes softly.  Whenever it returns, the file table has
    the rows it had, in the same order and with the same key, order, URL,
    name, type and [submittedPaper]; no row that was deleted is restored;
    the rows of the order with the URL of the request and the type
    [Client Supporting] are deleted, and [itemDeleted] tells whether there
    was one. *)
Theorem removeFile_soft_delete (db db1 : Db) (req : RemoveFileReq.t)
  (r : RemoveFileResult.t) :
  removeFile req db = (Ok r, db1) ->
  exists t,
    find (fun t => str_eqb (OrderFileType.type t) (lit "Client Supporting"))
      (orderFileTypes db) = Some t
    /\ RemoveFileResult.itemDeleted r
       = existsb (file_to_remove req (OrderFileType.id t)) (orderFiles db)
    /\ map (fun f => (OrderFile.id f, OrderFile.orderId f, OrderFile.fileUrl f,
                      OrderFile.originalName f, OrderFile.type f,
                      OrderFile.submittedPaper f)) (orderFiles db1)
       = map (fun f => (OrderFile.id f, OrderFile.orderId f, OrderFile.fileUrl f,
                        OrderFile.originalName f, OrderFile.type f,
                        OrderFile.submittedPaper f)) (orderFiles db)
    /\ map OrderFile.isDeleted (orderFiles db1)
       = map (fun f => OrderFile.isDeleted f
                       || file_to_remove req (OrderFileType.id t) f)
           (orderFiles db).
Proof.
  intros Hrun. rewrite removeFile_cases in Hrun.
  destruct (find _ (orderFileTypes db)) as [t|]; [|discriminate].
  exists t. split; [reflexivity|].
  rewrite find_existsb.
  destruct (find _ (orderFiles db)) as [f|] eqn:Hfind;
    injection Hrun as <- <-; cbn [RemoveFileResult.itemDeleted orderFiles set_orderFiles].
  - split; [reflexivity|]. unfold files_marked. rewrite !map_map. split.
    + apply map_ext. intros g. now destruct (file_to_remove _ _ g).
    + apply map_ext. intros g.
      destruct (file_to_remove _ _ g); cbn; [now rewrite orb_true_r|now rewrite orb_false_r].
  - split; [reflexivity|]. split; [reflexivity|].
    apply map_ext_in. intros g Hin.
    rewrite (find_none _ _ Hfind g Hin). now rewrite orb_false_r.
Qed.

(** The notes of order 5 are removed: the row stays, deleted; the file of
    order 6 with the same URL is not touched. *)
Lemma removeFile_soft_delete_witness :
  map OrderFile.isDeleted
    (orderFiles (snd (removeFile (RemoveFileReq.mk 5 (lit "uploads/notes.pdf")) files_db)))
  = [true; false; false; false].
Proof.
  destruct (removeFile_soft_delete files_db
              (snd (removeFile (RemoveFileReq.mk 5 (lit "uploads/notes.pdf")) files_db))
              (RemoveFileReq.mk 5 (lit "uploads/notes.pdf"))
              (RemoveFileResult.mk true None) eq_refl)
    as (t & Ht & _ & _ & Hdel).
  injection Ht as <-. rewrite Hdel. reflexivity.
Defined.

(** Removing a file twice is removing it once: the second call finds the
    deleted row again, answers as the first did, and leaves the store as the
    first left it. *)
Theorem removeFile_idempotent (db db1 : Db) (req : RemoveFileReq.t)
  (r : RemoveFileResult.t) :
  removeFile req db = (Ok r, db1) ->
  removeFile req db1 = (Ok r, db1).
Proof.
  intros Hrun. rewrite removeFile_cases in Hrun. rewrite removeFile_cases.
  destruct (find _ (orderFileTypes db)) as [t|] eqn:Ht; [|discriminate].
  destruct (find _ (orderFiles db)) as [f|] eqn:Hfind;
    injection Hrun as <- <-; cbn [orderFileTypes orderFiles set_orderFiles];
    rewrite Ht.
  - rewrite find_files_marked, Hfind. cbn [option_map].
    now rewrite files_marked_twice.
  - now rewrite Hfind.
Qed.

Lemma removeFile_idempotent_witness :
  let db1 := snd (removeFile (RemoveFileReq.mk 5 (lit "uploads/data.csv")) files_db) in
  removeFile (RemoveFileReq.mk 5 (lit "uploads/data.csv")) db1
  = (Ok (RemoveFileResult.mk true None), db1).
Proof.
  apply (removeFile_idempotent files_db). reflexivity.
Defined.

(* ===================================================================== *)
(** * The resume projection: further properties                           *)
(* ===================================================================== *)

(** [orderDetails] only reads: whatever it returns or throws, the store is
    the one it was called on. *)
Theorem orderDetails_reads (db : Db) (client : ClientArg.t) (orderId : Z)
  (gotStarted : bool) :
  snd (orderDetails client orderId gotStarted db) = db.
Proof.
  unfold orderDetails. run.
  repeat match goal with
    | |- context [match find ?p ?l with _ => _ end] => destruct (find p l)
    | |- context [if ?b then _ else _] => destruct b
    end;
    reflexivity.
Qed.

(** What stands behind an order that [orderDetails] returns. *)
Lemma orderDetails_resume_inv (db db1 : Db) (client user : ClientArg.t)
  (orderId : Z) (gotStarted : bool) (order : Order.t) discount login step
  payment paidFor assignment files :
  orderDetails client orderId gotStarted db
  = (Ok (ResumeOrder order discount login step payment paidFor assignment
           files user), db1) ->
  user = client
  /\ gotStarted = false
  /\ find (if negb (orderId =? 0)
           then fun o => (Order.clientId o =? ClientArg.id client)
                         && (Order.id o =? orderId)
           else fun o => Order.clientId o =? ClientArg.id client)
       (rev (orders db)) = Some order
  /\ (exists paid status,
        find (fun o => Order.id o =? Order.id order) (orders db) = Some paid
        /\ find (fun s => OrderStatus.id s =? Order.statusId paid) (orderStatuses db)
           = Some status
        /\ includes UNPAID_ORDERS_STATUSES (OrderStatus.status status) = true)
  /\ (exists t,
        find (fun t => str_eqb (OrderFileType.type t) (lit "Client Supporting"))
          (orderFileTypes db) = Some t
        /\ files
           = filter (fun f => (OrderFile.orderId f =? Order.id order)
                              && negb (OrderFile.isDeleted f)
                              && (OrderFile.type f =? OrderFileType.id t))
               (orderFiles db)).
Proof.
  intros H.
  unfold orderDetails in H. run_in H.
  repeat case_run H; inversion H; subst; clear H;
    match goal with
    | E : (if negb ?x then _ else _) = false |- _ =>
        destruct x eqn:Hunpaid; cbn [negb] in E; [|discriminate E];
        destruct gotStarted; [discriminate E|]
    end;
    (split; [reflexivity|]); (split; [reflexivity|]);
    (split; [first [assumption|reflexivity]|]);
    (split; [eexists; eexists; repeat split; eassumption|]);
    (eexists; split; [first [eassumption|reflexivity]|reflexivity]).
Qed.

(** [orderDetails] discloses an order only to its client: the order it
    returns is an order of the client it was called for, it is the order
    asked for when one is, the call was not made with [gotStarted], and the
    status of the order is one of the four unpaid statuses. *)
Theorem orderDetails_own_unpaid_order (db db1 : Db) (client user : ClientArg.t)
  (orderId : Z) (gotStarted : bool) (order : Order.t) discount login step
  payment paidFor assignment files :
  orderDetails client orderId gotStarted db
  = (Ok (ResumeOrder order discount login step payment paidFor assignment
           files user), db1) ->
  In order (orders db)
  /\ Order.clientId order = ClientArg.id client
  /\ (orderId <> 0 -> Order.id order = orderId)
  /\ gotStarted = false
  /\ exists paid status,
       find (fun o => Order.id o =? Order.id order) (orders db) = Some paid
       /\ find (fun s => OrderStatus.id s =? Order.statusId paid) (orderStatuses db)
          = Some status
       /\ In (OrderStatus.status status)
            [lit "Pending payment"; lit "Pending writer acknowledgement";
             lit "Available"; lit "Bidding ongoing"].
Proof.
  intros H.
  destruct (orderDetails_resume_inv _ _ _ _ _ _ _ _ _ _ _ _ _ _ H)
    as (_ & Hgot & Hlatest & (paid & status & Hpaid & Hstatus & Hunpaid) & _).
  apply find_some in Hlatest as [Hin Hquery]. apply in_rev in Hin.
  split; [exact Hin|].
  assert (Hown : Order.clientId order = ClientArg.id client
                 /\ (orderId <> 0 -> Order.id order = orderId)).
  { destruct (Z.eqb_spec orderId 0) as [->|Hne]; cbn [negb] in Hquery.
    - split; [now apply Z.eqb_eq|congruence].
    - apply andb_prop in Hquery as [Hc Hi]. split; [now apply Z.eqb_eq|].
      intros _. now apply Z.eqb_eq. }
  destruct Hown as [Hclient Hid].
  split; [exact Hclient|]. split; [exact Hid|]. split; [exact Hgot|].
  exists paid, status. split; [exact Hpaid|]. split; [exact Hstatus|].
  unfold includes in Hunpaid. apply existsb_exists in Hunpaid as (name & Hname & Heq).
  apply str_eqb_eq in Heq. now subst name.
Qed.

(** The first client asks for the order of the second client, then for its
    own: only the second call returns an order. *)
Lemma orderDetails_own_unpaid_order_witness :
  fst (orderDetails (ClientArg.mk 10 None) 6 false sample_db)
  = Ok (ResumeNoOrder (ClientArg.mk 10 None) None)
  /\ Order.clientId (Order.mk 5 10 1 5) = 10.
Proof.
  split; [reflexivity|].
  apply (orderDetails_own_unpaid_order sample_db sample_db (ClientArg.mk 10 None)
           (ClientArg.mk 10 None) 5 false (Order.mk 5 10 1 5) (DiscountRow (10 # 1))
           None (Some (ClientOrderPostingStep.mk 1 10 (Some 5) 1)) None false None []).
  reflexivity.
Defined.

(** A file that [removeFile] has removed is no longer among the files of the
    resume projection of its order. *)
Theorem removeFile_hides_file (db db1 db2 : Db) (req : RemoveFileReq.t)
  (r : RemoveFileResult.t) (client user : ClientArg.t) (orderId : Z)
  (gotStarted : bool) (order : Order.t) discount login step payment paidFor
  assignment files :
  removeFile req db = (Ok r, db1) ->
  orderDetails client orderId gotStarted db1
  = (Ok (ResumeOrder order discount login step payment paidFor assignment
           files user), db2) ->
  Order.id order = RemoveFileReq.orderId req ->
  forall f, In f files -> OrderFile.fileUrl f <> RemoveFileReq.filename req.
Proof.
  intros Hremove Hdetails Horder f Hin Hurl.
  destruct (orderDetails_resume_inv _ _ _ _ _ _ _ _ _ _ _ _ _ _ Hdetails)
    as (_ & _ & _ & _ & (t & Ht & ->)).
  apply filter_In in Hin as [Hin Hkeep].
  apply andb_prop in Hkeep as [Hkeep Htype].
  apply andb_prop in Hkeep as [Hid Hlive].
  rewrite removeFile_cases in Hremove.
  destruct (find _ (orderFileTypes db)) as [t0|] eqn:Ht0; [|discriminate].
  assert (Htm : file_to_remove req (OrderFileType.id t0) f = true).
  { assert (t = t0).
    { destruct (find _ (orderFiles db));
        injection Hremove as _ <-; cbn [orderFileTypes set_orderFiles] in Ht;
        congruence. }
    subst t0. unfold file_to_remove.
    rewrite <- Horder, Hid, Htype, Hurl. unfold str_eqb.
    destruct (list_eq_dec ascii_dec _ _); [reflexivity|contradiction]. }
  destruct (find _ (orderFiles db)) as [g|] eqn:Hfind;
    injection Hremove as _ <-; cbn [orderFiles set_orderFiles] in Hin.
  - unfold files_marked in Hin. apply in_map_iff in Hin as (f0 & Hf0 & _).
    destruct (file_to_remove req (OrderFileType.id t0) f0) eqn:Hm; subst f.
    + cbn in Hlive. discriminate.
    + congruence.
  - rewrite (find_none _ _ Hfind f Hin) in Htm. discriminate.
Qed.

(** After the notes of order 5 are removed, the first client resumes order 5
    with the other supporting file only. *)
Lemma removeFile_hides_file_witness :
  Forall (fun f => OrderFile.fileUrl f <> lit "uploads/notes.pdf")
    [OrderFile.mk 2 5 (lit "uploads/data.csv") (lit "data.csv") 1 false false;
     OrderFile.mk 4 5 (lit "uploads/data.csv") (lit "data.csv") 1 false false].
Proof.
  apply Forall_forall.
  pose (db1 := snd (removeFile (RemoveFileReq.mk 5 (lit "uploads/notes.pdf"))
                      files_db)).
  apply (removeFile_hides_file files_db db1 db1
           (RemoveFileReq.mk 5 (lit "uploads/notes.pdf"))
           (RemoveFileResult.mk true None)
           (ClientArg.mk 10 None) (ClientArg.mk 10 None) 5 false
           (Order.mk 5 10 1 5) (DiscountRow (10 # 1)) None
           (Some (ClientOrderPostingStep.mk 1 10 (Some 5) 1)) None false None);
    reflexivity.
Defined.

(* ===================================================================== *)
(** * Ownership and completion                                            *)
(* ===================================================================== *)

(** Every run of [confirmOrderOwnership]. *)
Lemma confirmOrderOwnership_cases (db : Db) (req : DetailsReq.t) :
  confirmOrderOwnership req db =
  match getClientId (DetailsReq.email req) db with
  | (Ok CLIENT_ID, _) =>
      (Ok (find (fun o => (Order.id o =? DetailsReq.orderId req)
                          && (Order.clientId o =? CLIENT_ID)) (orders db)), db)
  | (Throw e, _) => (Throw e, db)
  end.
Proof.
  unfold confirmOrderOwnership, bind at 1.
  pose proof (getClientId_reads (DetailsReq.email req) db) as Hreads.
  destruct (getClientId (DetailsReq.email req) db) as [[cid|e] db']; cbn in Hreads;
    subst db'; reflexivity.
Qed.

(** [confirmOrderOwnership] grants an order only to its client: the row it
    returns is a row of the store with the id of the request, and its client
    is the one the email resolves to; the store is not changed.  It returns
    [null] exactly when that client has no order with that id. *)
Theorem confirmOrderOwnership_grants_own_order (db db1 : Db) (req : DetailsReq.t)
  (granted : option Order.t) :
  confirmOrderOwnership req db = (Ok granted, db1) ->
  db1 = db
  /\ exists CLIENT_ID,
       getClientId (DetailsReq.email req) db = (Ok CLIENT_ID, db)
       /\ match granted with
          | Some order =>
              In order (orders db)
              /\ Order.id order = DetailsReq.orderId req
              /\ Order.clientId order = CLIENT_ID
          | None =>
              forall order, In order (orders db) ->
                            Order.id order = DetailsReq.orderId req ->
                            Order.clientId order <> CLIENT_ID
          end.
Proof.
  intros Hrun. rewrite confirmOrderOwnership_cases in Hrun.
  pose proof (getClientId_reads (DetailsReq.email req) db) as Hreads.
  destruct (getClientId (DetailsReq.email req) db) as [[cid|e] db'];
    [|discriminate]. cbn in Hreads. subst db'.
  injection Hrun as <- <-. split; [reflexivity|]. exists cid.
  split; [reflexivity|].
  destruct (find _ (orders db)) as [order|] eqn:Hfind.
  - apply find_some in Hfind as [Hin Hq]. apply andb_prop in Hq as [Hi Hc].
    repeat split; [assumption|now apply Z.eqb_eq|now apply Z.eqb_eq].
  - intros order Hin Hid Hc.
    pose proof (find_none _ _ Hfind order Hin) as Hq. cbn in Hq.
    rewrite Hid, Hc, !Z.eqb_refl in Hq. discriminate.
Qed.

(** The first client asks for the order of the second: nothing is granted. *)
Lemma confirmOrderOwnership_grants_own_order_witness :
  confirmOrderOwnership (DetailsReq.mk (lit "amina@example.com") 6) sample_db
  = (Ok None, sample_db)
  /\ Forall (fun order => Order.id order = 6 -> Order.clientId order <> 10)
       (orders sample_db).
Proof.
  split; [reflexivity|]. apply Forall_forall.
  destruct (confirmOrderOwnership_grants_own_order sample_db sample_db
              (DetailsReq.mk (lit "amina@example.com") 6) None eq_refl)
    as (_ & cid & Hcid & Hnone).
  injection Hcid as <-. exact Hnone.
Defined.

(** Every run of [confirmOrderCompletion]. *)
Lemma confirmOrderCompletion_cases (db : Db) (req : DetailsReq.t) :
  confirmOrderCompletion req db =
  match getClientId (DetailsReq.email req) db with
  | (Throw e, _) => (Throw (Error e), db)
  | (Ok CLIENT_ID, _) =>
      match find (fun o => (Order.id o =? DetailsReq.orderId req)
                           && (Order.clientId o =? CLIENT_ID)) (orders db) with
      | None => (Ok (CompletionResult.mk false), db)
      | Some _ =>
          match find (fun s => str_eqb (OrderStatus.status s) (lit "Completed"))
                  (orderStatuses db) with
          | None => (Throw (Error TypeError), db)
          | Some completed =>
              (Ok (CompletionResult.mk true),
               set_orders db
                 (map (fun o => if (Order.id o =? DetailsReq.orderId req)
                                   && (Order.clientId o =? CLIENT_ID)
                                then with_status (OrderStatus.id completed) o
                                else o)
                    (orders db)))
          end
      end
  end.
Proof.
  unfold confirmOrderCompletion, rethrow, transaction.
  unfold bind at 1. unfold outside at 1. cbn [live kept snd].
  rewrite confirmOrderOwnership_cases.
  cbn [DetailsReq.email DetailsReq.orderId].
  rewrite getClientId_cases.
  destruct (find _ (users db)) as [u|] eqn:Hu; [|reflexivity].
  destruct (find _ (clients db)) as [c|] eqn:Hc; [|reflexivity].
  cbn [live kept snd].
  destruct (find _ (orders db)) as [o|]; [|reflexivity].
  unfold bind, outside, findOne, deref, update, ret, throw.
  cbn [live kept snd]. rewrite Hu. cbn [live kept snd]. rewrite Hc.
  destruct (find _ (orderStatuses db)); reflexivity.
Qed.

Section KeyFacts.

Context {R : Type}.

(** A change of rows that the condition does not see commutes with
    [findOne]. *)
Lemma find_map_invariant (p : R -> bool) (f : R -> R) (rows : list R) :
  (forall r, p (f r) = p r) ->
  find p (map f rows) = option_map f (find p rows).
Proof.
  intros Hp. induction rows as [|r rows IH]; cbn; [reflexivity|].
  rewrite Hp. destruct (p r); [reflexivity|exact IH].
Qed.

(** Two rows of a table with the same primary key are the same row. *)
Lemma key_injective (pk : R -> Z) (rows : list R) (a b : R) :
  NoDup (map pk rows) -> In a rows -> In b rows -> pk a = pk b -> a = b.
Proof.
  induction rows as [|r rows IH]; cbn; intros Hnd Ha Hb Hk; [contradiction|].
  inversion Hnd as [|k ks Hnotin Hnd']; subst.
  destruct Ha as [->|Ha], Hb as [->|Hb].
  - reflexivity.
  - exfalso. apply Hnotin. rewrite Hk. now apply in_map.
  - exfalso. apply Hnotin. rewrite <- Hk. now apply in_map.
  - now apply IH.
Qed.

End KeyFacts.

(** When the client of the email has no order with the id of the request,
    [confirmOrderCompletion] answers [{updated: false}] and changes
    nothing. *)
Theorem confirmOrderCompletion_not_owned (db : Db) (req : DetailsReq.t)
  (CLIENT_ID : Z) :
  getClientId (DetailsReq.email req) db = (Ok CLIENT_ID, db) ->
  existsb (fun o => (Order.id o =? DetailsReq.orderId req)
                    && (Order.clientId o =? CLIENT_ID)) (orders db) = false ->
  confirmOrderCompletion req db = (Ok (CompletionResult.mk false), db).
Proof.
  intros Hget Hnone. apply find_none_iff in Hnone.
  now rewrite confirmOrderCompletion_cases, Hget, Hnone.
Qed.

Lemma confirmOrderCompletion_not_owned_witness :
  confirmOrderCompletion (DetailsReq.mk (lit "amina@example.com") 6) full_db
  = (Ok (CompletionResult.mk false), full_db).
Proof.
  apply (confirmOrderCompletion_not_owned full_db _ 10); reflexivity.
Defined.

(** When the client of the email has an order with the id of the request and
    the status [Completed] exists, [confirmOrderCompletion] answers
    [{updated: true}]; the orders of that client with that id get the status
    [Completed], and every other order, an order of another client with the
    same id among them, stays as it is. *)
Theorem confirmOrderCompletion_completes (db : Db) (req : DetailsReq.t)
  (CLIENT_ID : Z) (completed : OrderStatus.t) :
  getClientId (DetailsReq.email req) db = (Ok CLIENT_ID, db) ->
  existsb (fun o => (Order.id o =? DetailsReq.orderId req)
                    && (Order.clientId o =? CLIENT_ID)) (orders db) = true ->
  find (fun s => str_eqb (OrderStatus.status s) (lit "Completed")) (orderStatuses db)
    = Some completed ->
  exists db1,
    confirmOrderCompletion req db = (Ok (CompletionResult.mk true), db1)
    /\ length (orders db1) = length (orders db)
    /\ (forall i o, nth_error (orders db) i = Some o ->
          nth_error (orders db1) i
          = Some (if (Order.id o =? DetailsReq.orderId req)
                     && (Order.clientId o =? CLIENT_ID)
                  then with_status (OrderStatus.id completed) o else o))
    /\ (forall o, In o (orders db1) ->
                  Order.id o = DetailsReq.orderId req ->
                  Order.clientId o = CLIENT_ID ->
                  Order.statusId o = OrderStatus.id completed).
Proof.
  intros Hget Hsome Hcompleted.
  rewrite find_existsb in Hsome.
  rewrite confirmOrderCompletion_cases, Hget, Hcompleted.
  destruct (find _ (orders db)); [|discriminate].
  eexists. split; [reflexivity|]. cbn [orders set_orders].
  split; [apply length_map|]. split.
  - intros i o Hi. rewrite nth_error_map, Hi. reflexivity.
  - intros o Hin Hid Hc. apply in_map_iff in Hin as (o0 & <- & _).
    destruct ((Order.id o0 =? DetailsReq.orderId req)
              && (Order.clientId o0 =? CLIENT_ID)) eqn:Hq; [reflexivity|].
    rewrite Hid, Hc, !Z.eqb_refl in Hq. discriminate.
Qed.

Lemma confirmOrderCompletion_completes_witness :
  exists db1,
    confirmOrderCompletion (DetailsReq.mk (lit "amina@example.com") 5) full_db
    = (Ok (CompletionResult.mk true), db1)
    /\ Forall (fun o => Order.id o = 5 -> Order.clientId o = 10 ->
                        Order.statusId o = 5) (orders db1).
Proof.
  destruct (confirmOrderCompletion_completes full_db
              (DetailsReq.mk (lit "amina@example.com") 5) 10
              (OrderStatus.mk 5 (lit "Completed")) eq_refl eq_refl eq_refl)
    as (db1 & Hrun & _ & _ & Hall).
  exists db1. split; [exact Hrun|]. apply Forall_forall. exact Hall.
Defined.

(** The run of [orderDetails] on an order that is not offered. *)
Lemma orderDetails_finished_run (db : Db) (client : ClientArg.t) (orderId : Z)
  (gotStarted : bool) (latest paid : Order.t) (status : OrderStatus.t) :
  find (latest_query client orderId) (rev (orders db)) = Some latest ->
  find (fun o => Order.id o =? Order.id latest) (orders db) = Some paid ->
  find (fun s => OrderStatus.id s =? Order.statusId paid) (orderStatuses db)
    = Some status ->
  gotStarted || negb (includes UNPAID_ORDERS_STATUSES (OrderStatus.status status))
    = true ->
  orderDetails client orderId gotStarted db
  = (Ok (ResumeFinished client (string_or_null (ClientArg.loginVia client))), db).
Proof.
  unfold latest_query. intros Hlatest Hpaid Hstatus Hdone.
  unfold orderDetails. run.
  rewrite Hlatest. cbn [live kept snd]. rewrite Hpaid. cbn [live kept snd].
  rewrite Hstatus. cbn [live kept snd].
  destruct gotStarted;
    destruct (includes UNPAID_ORDERS_STATUSES (OrderStatus.status status));
    try discriminate Hdone; reflexivity.
Qed.

(** No order is offered for resumption when the call is made with
    [gotStarted], or when the status of the client's latest order is not one
    of the four unpaid statuses: the projection is the finished one, with no
    order details. *)
Theorem orderDetails_finished (db : Db) (client : ClientArg.t) (orderId : Z)
  (gotStarted : bool) (latest paid : Order.t) (status : OrderStatus.t) :
  find (latest_query client orderId) (rev (orders db)) = Some latest ->
  find (fun o => Order.id o =? Order.id latest) (orders db) = Some paid ->
  find (fun s => OrderStatus.id s =? Order.statusId paid) (orderStatuses db)
    = Some status ->
  gotStarted || negb (includes UNPAID_ORDERS_STATUSES (OrderStatus.status status))
    = true ->
  orderDetails client orderId gotStarted db
  = (Ok (ResumeFinished client (string_or_null (ClientArg.loginVia client))), db).
Proof.
  unfold latest_query. intros Hlatest Hpaid Hstatus Hdone.
  unfold orderDetails. run.
  rewrite Hlatest. cbn [live kept snd]. rewrite Hpaid. cbn [live kept snd].
  rewrite Hstatus. cbn [live kept snd].
  destruct gotStarted;
    destruct (includes UNPAID_ORDERS_STATUSES (OrderStatus.status status));
    try discriminate Hdone; reflexivity.
Qed.

(** The first client logs in with [gotStarted]: order 5 is not offered. *)
Lemma orderDetails_finished_witness :
  orderDetails (ClientArg.mk 10 None) 0 true sample_db
  = (Ok (ResumeFinished (ClientArg.mk 10 None) None), sample_db).
Proof.
  apply (orderDetails_finished sample_db (ClientArg.mk 10 None) 0 true
           (Order.mk 5 10 1 5) (Order.mk 5 10 1 5)
           (OrderStatus.mk 1 (lit "Available")));
    reflexivity.
Defined.

(** An order that its client has confirmed as completed is not offered for
    resumption any more: with unique keys in the order and status tables,
    [orderDetails] for that client and order gives the finished projection
    after [confirmOrderCompletion]. *)
Theorem confirmOrderCompletion_ends_resume (db db1 : Db) (req : DetailsReq.t)
  (CLIENT_ID : Z) (client : ClientArg.t) (gotStarted : bool) :
  NoDup (map Order.id (orders db)) ->
  NoDup (map OrderStatus.id (orderStatuses db)) ->
  getClientId (DetailsReq.email req) db = (Ok CLIENT_ID, db) ->
  confirmOrderCompletion req db = (Ok (CompletionResult.mk true), db1) ->
  ClientArg.id client = CLIENT_ID ->
  DetailsReq.orderId req <> 0 ->
  orderDetails client (DetailsReq.orderId req) gotStarted db1
  = (Ok (ResumeFinished client (string_or_null (ClientArg.loginVia client))), db1).
Proof.
  intros Hkeys Hstatuses Hget Hrun Hclient Hid.
  rewrite confirmOrderCompletion_cases, Hget in Hrun.
  destruct (find _ (orders db)) as [owned|] eqn:Howned; [|discriminate].
  destruct (find _ (orderStatuses db)) as [completed|] eqn:Hcompleted;
    [|discriminate].
  injection Hrun as <-.
  set (f := fun o => if (Order.id o =? DetailsReq.orderId req)
                        && (Order.clientId o =? CLIENT_ID)
                     then with_status (OrderStatus.id completed) o else o).
  assert (Hf_id : forall o, Order.id (f o) = Order.id o).
  { intros o. unfold f. now destruct (_ && _). }
  assert (Hf_client : forall o, Order.clientId (f o) = Order.clientId o).
  { intros o. unfold f. now destruct (_ && _). }
  apply find_some in Howned as [Hin Hq]. apply andb_prop in Hq as [Hoid Hoc].
  apply Z.eqb_eq in Hoid, Hoc.
  (* the only order with the id of the request is [owned] *)
  assert (Hunique : forall o, In o (orders db) -> Order.id o = DetailsReq.orderId req ->
                              o = owned).
  { intros o Ho Hi. apply (key_injective Order.id (orders db)); congruence. }
  assert (Hlatest : find (latest_query client (DetailsReq.orderId req))
                      (rev (orders db)) = Some owned).
  { destruct (find _ (rev (orders db))) as [o|] eqn:Hfind.
    - apply find_some in Hfind as [Ho Hq]. apply in_rev in Ho.
      unfold latest_query in Hq.
      destruct (Z.eqb_spec (DetailsReq.orderId req) 0); [contradiction|].
      cbn [negb] in Hq. apply andb_prop in Hq as [_ Hi]. apply Z.eqb_eq in Hi.
      f_equal. now apply Hunique.
    - exfalso. apply in_rev in Hin.
      pose proof (find_none _ _ Hfind owned Hin) as Hq. unfold latest_query in Hq.
      destruct (Z.eqb_spec (DetailsReq.orderId req) 0); [contradiction|].
      cbn [negb] in Hq. rewrite Hclient, Hoid, Hoc, !Z.eqb_refl in Hq.
      discriminate. }
  assert (Hpaid : find (fun o => Order.id o =? DetailsReq.orderId req) (orders db)
                  = Some owned).
  { destruct (find _ (orders db)) as [o|] eqn:Hfind.
    - apply find_some in Hfind as [Ho Hi]. apply Z.eqb_eq in Hi.
      f_equal. now apply Hunique.
    - pose proof (find_none _ _ Hfind owned Hin) as Hq. cbn in Hq.
      rewrite Hoid, Z.eqb_refl in Hq. discriminate. }
  assert (Hfowned : f owned = with_status (OrderStatus.id completed) owned).
  { unfold f. now rewrite Hoid, Hoc, !Z.eqb_refl. }
  apply find_some in Hcompleted as [Hcin Hname]. apply str_eqb_eq in Hname.
  assert (Hstatus : find (fun s => OrderStatus.id s =? OrderStatus.id completed)
                      (orderStatuses db) = Some completed).
  { destruct (find _ (orderStatuses db)) as [s|] eqn:Hfind.
    - apply find_some in Hfind as [Hs Hi]. apply Z.eqb_eq in Hi.
      f_equal. now apply (key_injective OrderStatus.id (orderStatuses db)).
    - pose proof (find_none _ _ Hfind completed Hcin) as Hq. cbn in Hq.
      rewrite Z.eqb_refl in Hq. discriminate. }
  apply (orderDetails_finished_run _ client (DetailsReq.orderId req) gotStarted
           (f owned) (f owned) completed).
  - cbn [orders set_orders]. fold f. rewrite <- map_rev.
    rewrite find_map_invariant, Hlatest; [reflexivity|].
    intros o. unfold latest_query.
    destruct (negb (DetailsReq.orderId req =? 0)); now rewrite ?Hf_id, Hf_client.
  - cbn [orders set_orders]. fold f. rewrite Hf_id, Hoid.
    rewrite find_map_invariant, Hpaid; [reflexivity|].
    intros o. now rewrite Hf_id.
  - cbn [orderStatuses set_orders]. rewrite Hfowned. cbn [with_status Order.statusId].
    exact Hstatus.
  - rewrite Hname. destruct gotStarted; reflexivity.
Qed.

Lemma confirmOrderCompletion_ends_resume_witness :
  orderDetails (ClientArg.mk 10 None) 5 false
    (snd (confirmOrderCompletion (DetailsReq.mk (lit "amina@example.com") 5) full_db))
  = (Ok (ResumeFinished (ClientArg.mk 10 None) None),
     snd (confirmOrderCompletion (DetailsReq.mk (lit "amina@example.com") 5) full_db)).
Proof.
  apply (confirmOrderCompletion_ends_resume full_db
           (snd (confirmOrderCompletion (DetailsReq.mk (lit "amina@example.com") 5)
                   full_db))
           (DetailsReq.mk (lit "amina@example.com") 5) 10 (ClientArg.mk 10 None) false).
  - cbn. repeat constructor; cbn; intuition discriminate.
  - cbn. repeat constructor; cbn; intuition discriminate.
  - reflexivity.
  - reflexivity.
  - reflexivity.
  - cbn. discriminate.
Defined.

(* ===================================================================== *)
(** * Payment recording: further properties                               *)
(* ===================================================================== *)

(** With no order id in the request and no fallback id, a known user is told
    that there is no order id, and nothing is written. *)
Theorem updateOrderPayment_no_order_id (db : Db) (req : PaymentReq.t)
  (phase : str) (requestOrderId : option Z) (user : User.t) :
  find (fun u => str_eqb (User.email u) (toLowerCase (PaymentReq.email req)))
    (users db) = Some user ->
  PaymentReq.orderId req <= 0 ->
  truthy requestOrderId = false ->
  updateOrderPayment req phase requestOrderId db = (Ok NoOrderID, db).
Proof.
  intros Huser Hid Hfallback.
  unfold updateOrderPayment. run.
  rewrite Huser, Hfallback.
  destruct (Z.gtb_spec (PaymentReq.orderId req) 0); [lia|reflexivity].
Qed.

Lemma updateOrderPayment_no_order_id_witness :
  updateOrderPayment (PaymentReq.mk (lit "amina@example.com") 0 sample_summary)
    (lit "check-order") None sample_db
  = (Ok NoOrderID, sample_db).
Proof.
  apply (updateOrderPayment_no_order_id sample_db _ _ None
           (User.mk 1 (lit "amina@example.com")));
    [reflexivity|cbn; lia|reflexivity].
Defined.

(** The store after an update of the payment detail of an order. *)
Lemma updateOrderPayment_update_run (db : Db) (req : PaymentReq.t)
  (phase : str) (requestOrderId : option Z) (user : User.t)
  (currency : Currency.t) (client : Client.t) :
  find (fun u => str_eqb (User.email u) (toLowerCase (PaymentReq.email req)))
    (users db) = Some user ->
  find (fun c => str_eqb (Currency.currencyCode c)
                   (PaymentSummary.currencyCode (PaymentReq.paymentSummary req)))
    (currencies db) = Some currency ->
  (str_eqb phase (lit "check-order") = true ->
   find (fun c => Client.userId c =? User.id user) (clients db) = Some client) ->
  0 < PaymentReq.orderId req ->
  existsb (fun d => where_eq (OrderPaymentDetail.orderId d)
                      (Some (PaymentReq.orderId req)))
    (orderPaymentDetails db) = true ->
  updateOrderPayment req phase requestOrderId db
  = (Ok PaymentUpdated,
     let db1 :=
       set_orderPaymentDetails db
         (map (fun d => if where_eq (OrderPaymentDetail.orderId d)
                              (Some (PaymentReq.orderId req))
                         then with_summary (Currency.id currency)
                                (PaymentReq.paymentSummary req) d
                         else d)
            (orderPaymentDetails db)) in
     if str_eqb phase (lit "check-order")
     then set_clientOrderPostingSteps db1
            (clientOrderPostingSteps db
             ++ [ClientOrderPostingStep.mk
                   (next_id ClientOrderPostingStep.id (clientOrderPostingSteps db))
                   (Client.id client) (Some (PaymentReq.orderId req)) 3])
     else db1).
Proof.
  intros Huser Hcurrency Hclient Hid Hsome.
  rewrite find_existsb in Hsome.
  assert (Hor : js_or (PaymentReq.orderId req) requestOrderId
                = Some (PaymentReq.orderId req)).
  { unfold js_or. destruct (Z.eqb_spec (PaymentReq.orderId req) 0); [lia|reflexivity]. }
  unfold updateOrderPayment. run.
  rewrite Huser. cbn [live kept snd]. rewrite Hcurrency, Hor.
  destruct (Z.gtb_spec (PaymentReq.orderId req) 0); [|lia].
  cbn [orb live kept snd].
  destruct (find _ (orderPaymentDetails db)); [|discriminate].
  cbn [live kept snd].
  destruct (str_eqb phase (lit "check-order")).
  - cbn [clients set_orderPaymentDetails]. rewrite (Hclient eq_refl). reflexivity.
  - reflexivity.
Qed.

(** When the order of the request has a payment detail, it is updated in
    place: the call reports an update, no row is added, the rows of the
    order carry the currency and the summary of the request, and the rows of
    other orders stay as they are.  A posting-step row of step 3 is added
    for the order when the phase is [check-order], and none otherwise. *)
Theorem updateOrderPayment_updates_in_place (db : Db) (req : PaymentReq.t)
  (phase : str) (requestOrderId : option Z) (user : User.t)
  (currency : Currency.t) (client : Client.t) :
  find (fun u => str_eqb (User.email u) (toLowerCase (PaymentReq.email req)))
    (users db) = Some user ->
  find (fun c => str_eqb (Currency.currencyCode c)
                   (PaymentSummary.currencyCode (PaymentReq.paymentSummary req)))
    (currencies db) = Some currency ->
  (str_eqb phase (lit "check-order") = true ->
   find (fun c => Client.userId c =? User.id user) (clients db) = Some client) ->
  0 < PaymentReq.orderId req ->
  existsb (fun d => where_eq (OrderPaymentDetail.orderId d)
                      (Some (PaymentReq.orderId req)))
    (orderPaymentDetails db) = true ->
  exists db1,
    updateOrderPayment req phase requestOrderId db = (Ok PaymentUpdated, db1)
    /\ orderPaymentDetails db1
       = map (fun d => if where_eq (OrderPaymentDetail.orderId d)
                            (Some (PaymentReq.orderId req))
                       then with_summary (Currency.id currency)
                              (PaymentReq.paymentSummary req) d
                       else d)
           (orderPaymentDetails db)
    /\ clientOrderPostingSteps db1
       = clientOrderPostingSteps db
         ++ (if str_eqb phase (lit "check-order")
             then [ClientOrderPostingStep.mk
                     (next_id ClientOrderPostingStep.id (clientOrderPostingSteps db))
                     (Client.id client) (Some (PaymentReq.orderId req)) 3]
             else []).
Proof.
  intros Huser Hcurrency Hclient Hid Hsome.
  rewrite (updateOrderPayment_update_run db req phase requestOrderId user
             currency client Huser Hcurrency Hclient Hid Hsome).
  eexists. split; [reflexivity|]. cbv zeta.
  destruct (str_eqb phase (lit "check-order"));
    cbn [orderPaymentDetails clientOrderPostingSteps set_orderPaymentDetails
         set_clientOrderPostingSteps];
    rewrite ?app_nil_r; split; reflexivity.
Qed.

(** The payment of order 5 is saved again: its row is rewritten, the row of
    order 6 is not, and step 3 is recorded. *)
Lemma updateOrderPayment_updates_in_place_witness :
  exists db1,
    updateOrderPayment (PaymentReq.mk (lit "amina@example.com") 5 sample_summary)
      (lit "check-order") None detailed_db = (Ok PaymentUpdated, db1)
    /\ orderPaymentDetails db1
       = [OrderPaymentDetail.mk 1 (Some 5) 1 (lit "3,7") (4 # 1) (54 # 1) (10 # 1);
          OrderPaymentDetail.mk 2 (Some 6) 1 (lit "") (0 # 1) (12 # 1) (12 # 1)]
    /\ clientOrderPostingSteps db1
       = [ClientOrderPostingStep.mk 1 10 (Some 5) 1;
          ClientOrderPostingStep.mk 2 10 (Some 5) 3].
Proof.
  apply (updateOrderPayment_updates_in_place detailed_db
           (PaymentReq.mk (lit "amina@example.com") 5 sample_summary)
           (lit "check-order") None (User.mk 1 (lit "amina@example.com"))
           (Currency.mk 1 (lit "US Dollar") (lit "USD")) (Client.mk 10 1 None));
    reflexivity.
Defined.

(** In a phase other than [check-order], recording the payment of an order
    that has a payment detail is idempotent: a second call with the same
    request leaves the store as the first left it. *)
Theorem updateOrderPayment_update_idempotent (db : Db) (req : PaymentReq.t)
  (phase : str) (requestOrderId : option Z) (user : User.t)
  (currency : Currency.t) :
  find (fun u => str_eqb (User.email u) (toLowerCase (PaymentReq.email req)))
    (users db) = Some user ->
  find (fun c => str_eqb (Currency.currencyCode c)
                   (PaymentSummary.currencyCode (PaymentReq.paymentSummary req)))
    (currencies db) = Some currency ->
  str_eqb phase (lit "check-order") = false ->
  0 < PaymentReq.orderId req ->
  existsb (fun d => where_eq (OrderPaymentDetail.orderId d)
                      (Some (PaymentReq.orderId req)))
    (orderPaymentDetails db) = true ->
  exists db1,
    updateOrderPayment req phase requestOrderId db = (Ok PaymentUpdated, db1)
    /\ updateOrderPayment req phase requestOrderId db1 = (Ok PaymentUpdated, db1)
    /\ length (orderPaymentDetails db1) = length (orderPaymentDetails db).
Proof.
  intros Huser Hcurrency Hphase Hid Hsome.
  assert (Hclient : forall db', str_eqb phase (lit "check-order") = true ->
                    find (fun c => Client.userId c =? User.id user) (clients db')
                    = Some (Client.mk 0 0 None))
    by (intros db' H; congruence).
  rewrite (updateOrderPayment_update_run db req phase requestOrderId user
             currency _ Huser Hcurrency (Hclient db) Hid Hsome).
  rewrite Hphase. cbv zeta.
  set (f := fun d => if where_eq (OrderPaymentDetail.orderId d)
                          (Some (PaymentReq.orderId req))
                     then with_summary (Currency.id currency)
                            (PaymentReq.paymentSummary req) d
                     else d).
  assert (Hkeep : forall d, where_eq (OrderPaymentDetail.orderId (f d))
                              (Some (PaymentReq.orderId req))
                            = where_eq (OrderPaymentDetail.orderId d)
                                (Some (PaymentReq.orderId req))).
  { intros d. unfold f.
    destruct (where_eq (OrderPaymentDetail.orderId d) _) eqn:E; exact E. }
  eexists. split; [reflexivity|]. split.
  - rewrite (updateOrderPayment_update_run _ req phase requestOrderId user
               currency (Client.mk 0 0 None)); try assumption.
    + rewrite Hphase. cbv zeta.
      f_equal. unfold set_orderPaymentDetails.
      cbn [users clients currencies orderStatuses paymentStatuses orders
           orderPaymentDetails clientOrderPostingSteps clientPayments writers
           writerOrders orderBids writerRatings writerAverageRatings
           paperDiscounts orderFileTypes orderFiles orderRevisions].
      f_equal. fold f. rewrite map_map. apply map_ext. intros d.
      unfold f at 1. rewrite Hkeep. unfold f.
      destruct (where_eq _ _); reflexivity.
    + intros H. congruence.
    + cbn [orderPaymentDetails set_orderPaymentDetails]. fold f.
      rewrite find_existsb, find_map_invariant by exact Hkeep.
      rewrite find_existsb in Hsome.
      destruct (find _ (orderPaymentDetails db)); [reflexivity|discriminate].
  - cbn [orderPaymentDetails set_orderPaymentDetails]. apply length_map.
Qed.

Lemma updateOrderPayment_update_idempotent_witness :
  exists db1,
    updateOrderPayment (PaymentReq.mk (lit "amina@example.com") 5 sample_summary)
      (lit "place-order") None detailed_db = (Ok PaymentUpdated, db1)
    /\ updateOrderPayment (PaymentReq.mk (lit "amina@example.com") 5 sample_summary)
         (lit "place-order") None db1 = (Ok PaymentUpdated, db1)
    /\ length (orderPaymentDetails db1) = length (orderPaymentDetails detailed_db).
Proof.
  apply (updateOrderPayment_update_idempotent detailed_db
           (PaymentReq.mk (lit "amina@example.com") 5 sample_summary)
           (lit "place-order") None (User.mk 1 (lit "amina@example.com"))
           (Currency.mk 1 (lit "US Dollar") (lit "USD")));
    reflexivity.
Defined.

(* ===================================================================== *)
(** * Order status and assignment: further properties                     *)
(* ===================================================================== *)

(** [updateOrderStatus] never reports a failed update.  Whenever it returns,
    [statusUpdated] is [true] and there is no message, also when no order
    has the id of the request: no order changes then, and the writer is
    assigned to that id all the same. *)
Theorem updateOrderStatus_never_reports_failure (db db1 : Db) (req : StatusReq.t)
  (r : StatusResult.t) :
  updateOrderStatus req db = (Ok r, db1) ->
  StatusResult.statusUpdated r = true
  /\ StatusResult.message r = None
  /\ (exists writer,
        find (fun w => Writer.userId w =? StatusReq.writerId req) (writers db)
          = Some writer
        /\ assignments db1 (StatusReq.orderId req) (Writer.id writer) <> [])
  /\ (existsb (fun o => Order.id o =? StatusReq.orderId req) (orders db) = false ->
      orders db1 = orders db).
Proof.
  intros Hrun.
  pose proof (updateOrderStatus_cases db req) as Hcases.
  destruct (find _ (paymentStatuses db)) as [success|]; [|congruence].
  destruct (find _ (orderStatuses db)) as [target|]; [|congruence].
  destruct (find _ (writers db)) as [writer|]; [|congruence].
  destruct (status_written_reads db req target writer) as (_ & _ & _ & _ & Hwo).
  assert (Horders : existsb (fun o => Order.id o =? StatusReq.orderId req) (orders db)
                    = false ->
                    orders (status_written db req target writer) = orders db).
  { intros Hnone. unfold status_written.
    assert (Hmap : map (fun o => if Order.id o =? StatusReq.orderId req
                                 then with_status (OrderStatus.id target) o else o)
                     (orders db) = orders db).
    { rewrite <- (map_id (orders db)) at 2. apply map_ext_in. intros o Hin.
      apply find_none_iff in Hnone.
      now rewrite (find_none _ _ Hnone o Hin). }
    destruct (str_eqb (StatusReq.type req) (lit "public"));
      cbn [orders set_orders set_orderBids]; exact Hmap. }
  rewrite Hcases in Hrun. unfold assignments in *.
  destruct (filter _ (writerOrders db)) as [|a rest] eqn:Hpair;
    injection Hrun as <- <-; cbn [StatusResult.statusUpdated StatusResult.message];
    (split; [reflexivity|]); (split; [reflexivity|]); split.
  - exists writer. split; [reflexivity|].
    cbn [writerOrders set_writerOrders]. rewrite filter_app, Hpair. cbn.
    rewrite !Z.eqb_refl. discriminate.
  - exact Horders.
  - exists writer. split; [reflexivity|]. rewrite Hwo, Hpair. discriminate.
  - exact Horders.
Qed.

(** A writer is chosen for an order id that no order has. *)
Lemma updateOrderStatus_never_reports_failure_witness :
  fst (updateOrderStatus (StatusReq.mk 99 2 (lit "private")) sample_db)
  = Ok (StatusResult.mk true None false)
  /\ orders (snd (updateOrderStatus (StatusReq.mk 99 2 (lit "private")) sample_db))
     = orders sample_db.
Proof.
  split; [reflexivity|].
  apply (updateOrderStatus_never_reports_failure sample_db _
           (StatusReq.mk 99 2 (lit "private")) (StatusResult.mk true None false));
    reflexivity.
Defined.

(** The bids after [updateOrderStatus].  A public request marks the bids of
    its writer on its order as successful; no bid is added or removed, no
    other bid changes, and a request that is not public leaves every bid as
    it is. *)
Theorem updateOrderStatus_marks_bid (db db1 : Db) (req : StatusReq.t)
  (r : StatusResult.t) :
  updateOrderStatus req db = (Ok r, db1) ->
  exists writer,
    find (fun w => Writer.userId w =? StatusReq.writerId req) (writers db)
      = Some writer
    /\ orderBids db1
       = map (fun b => if str_eqb (StatusReq.type req) (lit "public")
                          && (OrderBid.orderId b =? StatusReq.orderId req)
                          && (OrderBid.writerId b =? Writer.id writer)
                       then OrderBid.mk (OrderBid.id b) (OrderBid.orderId b)
                              (OrderBid.writerId b) true
                       else b)
           (orderBids db).
Proof.
  intros Hrun.
  pose proof (updateOrderStatus_cases db req) as Hcases.
  destruct (find _ (paymentStatuses db)) as [success|]; [|congruence].
  destruct (find _ (orderStatuses db)) as [target|]; [|congruence].
  destruct (find _ (writers db)) as [writer|]; [|congruence].
  exists writer. split; [reflexivity|].
  assert (Hbids : orderBids (status_written db req target writer)
                  = map (fun b => if str_eqb (StatusReq.type req) (lit "public")
                                     && (OrderBid.orderId b =? StatusReq.orderId req)
                                     && (OrderBid.writerId b =? Writer.id writer)
                                  then OrderBid.mk (OrderBid.id b) (OrderBid.orderId b)
                                         (OrderBid.writerId b) true
                                  else b)
                      (orderBids db)).
  { unfold status_written.
    destruct (str_eqb (StatusReq.type req) (lit "public"));
      cbn [orderBids set_orders set_orderBids andb].
    - reflexivity.
    - now rewrite map_id. }
  rewrite Hcases in Hrun.
  destruct (assignments db _ _); injection Hrun as _ <-;
    cbn [orderBids set_writerOrders]; exact Hbids.
Qed.

Lemma updateOrderStatus_marks_bid_witness :
  orderBids (snd (updateOrderStatus (StatusReq.mk 5 2 (lit "public")) sample_db))
  = [OrderBid.mk 1 5 20 true]
  /\ orderBids (snd (updateOrderStatus (StatusReq.mk 5 2 (lit "private")) sample_db))
     = [OrderBid.mk 1 5 20 false].
Proof.
  split.
  - destruct (updateOrderStatus_marks_bid sample_db
                (snd (updateOrderStatus (StatusReq.mk 5 2 (lit "public")) sample_db))
                (StatusReq.mk 5 2 (lit "public")) (StatusResult.mk true None false)
                eq_refl) as (writer & Hw & Hbids).
    injection Hw as <-. rewrite Hbids. reflexivity.
  - reflexivity.
Defined.

(* ===================================================================== *)
(** * Ratings: further properties                                         *)
(* ===================================================================== *)

(** An order that is not rated and has no writer cannot be rated: the call
    throws a [TypeError] and stores nothing. *)
Theorem rateWriter_needs_writer (db : Db) (req : RateReq.t) :
  existsb (fun r => WriterRating.orderId r =? RateReq.orderId req)
    (writerRatings db) = false ->
  existsb (fun a => WriterOrder.orderId a =? RateReq.orderId req)
    (writerOrders db) = false ->
  rateWriter req db = (Throw TypeError, db).
Proof.
  intros Hrated Hwriter. apply find_none_iff in Hrated, Hwriter.
  pose proof (rateWriter_cases db req) as Hrun.
  now rewrite Hrated, Hwriter in Hrun.
Qed.

Lemma rateWriter_needs_writer_witness :
  rateWriter (RateReq.mk 5 (Number_of_Z 4)) sample_db = (Throw TypeError, sample_db).
Proof.
  apply (rateWriter_needs_writer sample_db (RateReq.mk 5 (Number_of_Z 4))); reflexivity.
Defined.

(** What a result of [rateWriter] means.  [{rated: true}] means that the
    order had a rating and nothing was stored.  [true] means that the order
    had none and that one rating row was added, for the order, the writer of
    its first assignment and the rating of the request.  [false] is never
    returned. *)
Theorem rateWriter_result (db db1 : Db) (req : RateReq.t) (r : RateResult) :
  rateWriter req db = (Ok r, db1) ->
  (r = AlreadyRated
   /\ db1 = db
   /\ existsb (fun x => WriterRating.orderId x =? RateReq.orderId req)
        (writerRatings db) = true)
  \/ (r = Plain true
      /\ existsb (fun x => WriterRating.orderId x =? RateReq.orderId req)
           (writerRatings db) = false
      /\ exists w,
           find (fun a => WriterOrder.orderId a =? RateReq.orderId req)
             (writerOrders db) = Some w
           /\ writerRatings db1
              = writerRatings db
                ++ [WriterRating.mk (next_id WriterRating.id (writerRatings db))
                      (RateReq.orderId req) (WriterOrder.writerId w)
                      (RateReq.rating req)]).
Proof.
  intros Hrun.
  pose proof (rateWriter_cases db req) as Hcases.
  rewrite find_existsb.
  destruct (find _ (writerRatings db)) as [rated|].
  - left. rewrite Hcases in Hrun. injection Hrun as <- <-. auto.
  - right. destruct (find _ (writerOrders db)) as [w|]; [|congruence].
    cbv zeta in Hcases.
    destruct (find _ (writerAverageRatings db));
      rewrite Hcases in Hrun; injection Hrun as <- <-;
      (split; [reflexivity|]); (split; [reflexivity|]);
      exists w; split; reflexivity.
Qed.

Lemma rateWriter_result_witness :
  (Plain true = AlreadyRated
   /\ snd (rateWriter (RateReq.mk 5 (Number_of_Z 3)) rated_db) = rated_db
   /\ existsb (fun x => WriterRating.orderId x =? 5) (writerRatings rated_db) = true)
  \/ (Plain true = Plain true
      /\ existsb (fun x => WriterRating.orderId x =? 5) (writerRatings rated_db) = false
      /\ exists w,
           find (fun a => WriterOrder.orderId a =? 5) (writerOrders rated_db) = Some w
           /\ writerRatings (snd (rateWriter (RateReq.mk 5 (Number_of_Z 3)) rated_db))
              = writerRatings rated_db
                ++ [WriterRating.mk (next_id WriterRating.id (writerRatings rated_db))
                      5 (WriterOrder.writerId w) (Number_of_Z 3)]).
Proof.
  apply (rateWriter_result rated_db _ (RateReq.mk 5 (Number_of_Z 3)) (Plain true)).
  reflexivity.
Defined.

(* ===================================================================== *)
(** * Revision requests: the order of the client                          *)
(* ===================================================================== *)

Lemma set_orderFiles_twice (db : Db) (rows rows' : list OrderFile.t) :
  set_orderFiles (set_orderFiles db rows) rows' = set_orderFiles db rows'.
Proof. reflexivity. Qed.

(** The loop over the supporting files, when every name can be formatted:
    one row per file is appended. *)
Lemma saveRevisionFiles_run (orderId : Z) (t : OrderFileType.t)
  (files : list SupportingFile.t) (db : Db) :
  all_formattable files = true ->
  saveRevisionFiles orderId (Some t) files db
  = (Ok tt,
     set_orderFiles db
       (orderFiles db
        ++ revision_rows orderId (OrderFileType.id t) (orderFiles db) files)).
Proof.
  revert db. induction files as [|file rest IH]; intros db Hall.
  - cbn. rewrite app_nil_r. now destruct db.
  - cbn [all_formattable forallb] in Hall. apply andb_prop in Hall as [Hfile Hrest].
    cbn [saveRevisionFiles revision_rows].
    unfold bind at 1. unfold lift, formatted.
    destruct (originalNameFormatter (SupportingFile.originalName file)) as [out|e];
      [|discriminate].
    unfold ret at 1. unfold bind at 1. unfold deref, ret at 1.
    unfold bind at 1. unfold create at 1.
    rewrite (IH _ Hrest). cbn [orderFiles set_orderFiles].
    rewrite set_orderFiles_twice, <- app_assoc. reflexivity.
Qed.

(** The loop over the supporting files, when the formatter throws on one of
    the names: the loop throws. *)
Lemma saveRevisionFiles_throws (orderId : Z) (type : option OrderFileType.t)
  (files : list SupportingFile.t) (db : Db) :
  all_formattable files = false ->
  exists e db', saveRevisionFiles orderId type files db = (Throw e, db').
Proof.
  revert db. induction files as [|file rest IH]; intros db Hbad; [discriminate|].
  cbn [all_formattable forallb] in Hbad.
  cbn [saveRevisionFiles]. unfold bind at 1. unfold lift.
  destruct (originalNameFormatter (SupportingFile.originalName file)) as [out|e].
  - cbn [andb] in Hbad. unfold ret at 1. unfold bind at 1.
    destruct type as [t|]; cbn [deref].
    + unfold ret at 1. unfold bind at 1. unfold create at 1.
      apply IH. exact Hbad.
    + unfold throw. now eexists; eexists.
  - unfold throw. now eexists; eexists.
Qed.

(** A supporting file whose name the formatter cannot handle, a name of more
    than 50 characters without a dot, makes the whole revision request of an
    owned order fail: the call rejects and nothing is stored, not even the
    rows of the files that came before. *)
Theorem revisionRequest_rejects_bad_file_name (Date_valid : Deadline -> bool)
  (db : Db) (req : RevisionReq.t) (CLIENT_ID : Z) :
  getClientId (RevisionReq.email req) db = (Ok CLIENT_ID, db) ->
  existsb (fun o => (Order.id o =? RevisionReq.orderId req)
                    && (Order.clientId o =? CLIENT_ID)) (orders db) = true ->
  existsb (fun file =>
             (50 <? len (SupportingFile.originalName file))
             && negb (has_dot (SupportingFile.originalName file)))
    (RevisionReq.supportingFiles req) = true ->
  exists e, revisionRequest Date_valid req db = (Throw e, db).
Proof.
  intros Hget Howned Hbad. rewrite find_existsb in Howned.
  assert (Hall : all_formattable (RevisionReq.supportingFiles req) = false).
  { apply existsb_exists in Hbad as (file & Hin & Hfile).
    apply andb_prop in Hfile as [Hlong Hdot].
    apply Z.ltb_lt in Hlong. apply negb_true_iff in Hdot.
    destruct (all_formattable _) eqn:Hall; [|reflexivity].
    unfold all_formattable in Hall. rewrite forallb_forall in Hall.
    specialize (Hall file Hin).
    rewrite originalNameFormatter_no_dot in Hall;
      [discriminate|unfold len in Hlong; lia|now apply has_dot_false]. }
  assert (Hfiles : (len (RevisionReq.supportingFiles req) >? 0) = true).
  { destruct (RevisionReq.supportingFiles req); [discriminate|reflexivity]. }
  unfold revisionRequest. run. rewrite Hget. cbn [live kept snd].
  destruct (find _ (orders db)); [|discriminate].
  cbv zeta. rewrite Hfiles. cbn [live kept snd].
  destruct (saveRevisionFiles_throws (RevisionReq.orderId req)
              (find (fun t => str_eqb (OrderFileType.type t) (lit "Revision Supporting"))
                 (orderFileTypes db))
              (RevisionReq.supportingFiles req) db Hall) as (e & db' & ->).
  now eexists.
Qed.

(** The first client asks for a revision of its order with two files: the
    name of the second has 59 characters and no dot. *)
Lemma revisionRequest_rejects_bad_file_name_witness :
  exists e,
    revisionRequest sample_Date_valid
      (RevisionReq.mk (lit "amina@example.com") 5 [] (lit "2021-03-01") (lit "14:30")
         [SupportingFile.mk (lit "uploads/a1") (lit "notes.pdf");
          SupportingFile.mk (lit "uploads/a2")
            (lit "Screenshot 2021-03-01 at 14-30-59 annotated by the examiner")])
      sample_db
    = (Throw e, sample_db).
Proof.
  apply (revisionRequest_rejects_bad_file_name sample_Date_valid sample_db _ 10);
    reflexivity.
Defined.

(** A revision request on an order of the client, when the names can be
    formatted and the reference rows are there.  The status of the order is
    written outside the transaction: it stays when the revision row is
    refused, and the file rows do not. *)
Lemma revisionRequest_run (Date_valid : Deadline -> bool) (db : Db)
  (req : RevisionReq.t) (CLIENT_ID : Z)
  (user : User.t) (t : OrderFileType.t) (first : Order.t)
  (status revision : OrderStatus.t) :
  find (fun u => str_eqb (User.email u) (toLowerCase (RevisionReq.email req)))
    (users db) = Some user ->
  getClientId (RevisionReq.email req) db = (Ok CLIENT_ID, db) ->
  existsb (fun o => (Order.id o =? RevisionReq.orderId req)
                    && (Order.clientId o =? CLIENT_ID)) (orders db) = true ->
  all_formattable (RevisionReq.supportingFiles req) = true ->
  (RevisionReq.supportingFiles req <> [] ->
   find (fun t => str_eqb (OrderFileType.type t) (lit "Revision Supporting"))
     (orderFileTypes db) = Some t) ->
  find (fun o => Order.id o =? RevisionReq.orderId req) (orders db) = Some first ->
  find (fun s => OrderStatus.id s =? Order.statusId first) (orderStatuses db)
    = Some status ->
  (str_eqb (OrderStatus.status status) (lit "Undergoing revision") = false ->
   find (fun s => str_eqb (OrderStatus.status s) (lit "Undergoing revision"))
     (orderStatuses db) = Some revision) ->
  revisionRequest Date_valid req db
  = let with_revision_status (d : Db) :=
      if str_eqb (OrderStatus.status status) (lit "Undergoing revision")
      then d
      else set_orders d
             (map (fun o => if Order.id o =? RevisionReq.orderId req
                            then with_status (OrderStatus.id revision) o else o)
                (orders db)) in
    let DEADLINE :=
      mkDeadline (RevisionReq.deadlineDate req)
        (index (split ":"%char (RevisionReq.deadlineTime req)) 0)
        (index (split ":"%char (RevisionReq.deadlineTime req)) 1) in
    if Date_valid DEADLINE then
      (Ok (RevisionResult.mk true None),
       set_orderRevisions
         (with_revision_status
            (set_orderFiles db
               (orderFiles db
                ++ revision_rows (RevisionReq.orderId req) (OrderFileType.id t)
                     (orderFiles db) (RevisionReq.supportingFiles req))))
         (orderRevisions db
          ++ [OrderRevision.mk (next_id OrderRevision.id (orderRevisions db))
                (RevisionReq.orderId req)
                (selected_instructions (RevisionReq.checklist req))
                DEADLINE (User.id user) false false]))
    else (Throw (Error StoreError), with_revision_status db).
Proof.
  intros Huser Hget Howned Hall Htype Hfirst Hstatus Hrevision.
  rewrite find_existsb in Howned.
  assert (Hloop : forall ty,
    (RevisionReq.supportingFiles req <> [] -> ty = Some t) ->
    saveRevisionFiles (RevisionReq.orderId req) ty
      (RevisionReq.supportingFiles req) db
    = (Ok tt,
       set_orderFiles db
         (orderFiles db
          ++ revision_rows (RevisionReq.orderId req) (OrderFileType.id t)
               (orderFiles db) (RevisionReq.supportingFiles req)))).
  { intros ty Hty. destruct (RevisionReq.supportingFiles req) as [|file rest] eqn:Hfiles.
    - cbn. rewrite app_nil_r. now destruct db.
    - rewrite Hty by discriminate. rewrite <- Hfiles in *.
      now apply saveRevisionFiles_run. }
  unfold revisionRequest. run. rewrite Huser. cbn [live kept snd].
  rewrite Hget. cbn [live kept snd].
  destruct (find _ (orders db)); [|discriminate].
  cbv zeta. cbn [live kept snd].
  set (X := (if len _ >? 0 return ST (Session Db) unit then _ else _) _).
  assert (Hfiles :
    X = (Ok tt,
         mkSession
           (set_orderFiles db
              (orderFiles db
               ++ revision_rows (RevisionReq.orderId req) (OrderFileType.id t)
                    (orderFiles db) (RevisionReq.supportingFiles req)))
           db)).
  { subst X. destruct (len (RevisionReq.supportingFiles req) >? 0) eqn:Hlen.
    - cbn [live kept]. rewrite (Hloop _ Htype). reflexivity.
    - destruct (RevisionReq.supportingFiles req); [|discriminate Hlen].
      cbn. rewrite app_nil_r. now destruct db. }
  clearbody X. subst X. cbn [live kept snd]. rewrite Hfirst. cbn [live kept snd].
  rewrite Hstatus. cbn [live kept snd].
  destruct (str_eqb (OrderStatus.status status) (lit "Undergoing revision")) eqn:Hs;
    cbn [negb live kept snd].
  - destruct (Date_valid _); reflexivity.
  - rewrite (Hrevision eq_refl). cbn [live kept snd orders set_orderFiles].
    destruct (Date_valid _); reflexivity.
Qed.

Lemma revision_rows_columns (orderId typeId : Z) (rows : list OrderFile.t)
  (files : list SupportingFile.t) :
  map (fun f => (OrderFile.orderId f, OrderFile.fileUrl f, OrderFile.originalName f,
                 OrderFile.type f, OrderFile.isDeleted f, OrderFile.submittedPaper f))
    (revision_rows orderId typeId rows files)
  = map (fun file => (orderId, SupportingFile.fileUrl file,
                      formatted (SupportingFile.originalName file),
                      typeId, false, false)) files.
Proof.
  revert rows. induction files as [|file rest IH]; intros rows; cbn; [reflexivity|].
  now rewrite IH.
Qed.

(** A revision request on an order of the client, with names that can be
    formatted and a deadline that is a date, returns [{success: true}] and
    adds one revision row: for the
    order, not submitted, not deleted, created by the user of the email,
    with the deadline of the request and, as instructions, the checklist
    entries that are selected and no other.  Afterwards the order has the
    status [Undergoing revision]. *)
Theorem revisionRequest_records_revision (Date_valid : Deadline -> bool)
  (db : Db) (req : RevisionReq.t)
  (user : User.t) (client : Client.t) (t : OrderFileType.t) (first : Order.t)
  (status revision : OrderStatus.t) :
  Date_valid
    (mkDeadline (RevisionReq.deadlineDate req)
       (index (split ":"%char (RevisionReq.deadlineTime req)) 0)
       (index (split ":"%char (RevisionReq.deadlineTime req)) 1)) = true ->
  find (fun u => str_eqb (User.email u) (toLowerCase (RevisionReq.email req)))
    (users db) = Some user ->
  find (fun c => Client.userId c =? User.id user) (clients db) = Some client ->
  existsb (fun o => (Order.id o =? RevisionReq.orderId req)
                    && (Order.clientId o =? Client.id client)) (orders db) = true ->
  all_formattable (RevisionReq.supportingFiles req) = true ->
  (RevisionReq.supportingFiles req <> [] ->
   find (fun t => str_eqb (OrderFileType.type t) (lit "Revision Supporting"))
     (orderFileTypes db) = Some t) ->
  find (fun o => Order.id o =? RevisionReq.orderId req) (orders db) = Some first ->
  find (fun s => OrderStatus.id s =? Order.statusId first) (orderStatuses db)
    = Some status ->
  (str_eqb (OrderStatus.status status) (lit "Undergoing revision") = false ->
   find (fun s => str_eqb (OrderStatus.status s) (lit "Undergoing revision"))
     (orderStatuses db) = Some revision) ->
  exists db1,
    revisionRequest Date_valid req db = (Ok (RevisionResult.mk true None), db1)
    /\ orderRevisions db1
       = orderRevisions db
         ++ [OrderRevision.mk (next_id OrderRevision.id (orderRevisions db))
               (RevisionReq.orderId req)
               (selected_instructions (RevisionReq.checklist req))
               (mkDeadline (RevisionReq.deadlineDate req)
                  (index (split ":"%char (RevisionReq.deadlineTime req)) 0)
                  (index (split ":"%char (RevisionReq.deadlineTime req)) 1))
               (User.id user) false false]
    /\ (forall key val,
          In (key, val) (selected_instructions (RevisionReq.checklist req))
          <-> In (key, ChecklistEntry.mk true val) (RevisionReq.checklist req))
    /\ exists o st,
         find (fun o => Order.id o =? RevisionReq.orderId req) (orders db1) = Some o
         /\ In st (orderStatuses db1)
         /\ OrderStatus.id st = Order.statusId o
         /\ OrderStatus.status st = lit "Undergoing revision".
Proof.
  intros Hdate Huser Hclient Howned Hall Htype Hfirst Hstatus Hrevision.
  assert (Hget : getClientId (RevisionReq.email req) db = (Ok (Client.id client), db))
    by now rewrite getClientId_cases, Huser, Hclient.
  rewrite (revisionRequest_run Date_valid db req (Client.id client) user t first
             status revision Huser Hget Howned Hall Htype Hfirst Hstatus Hrevision).
  cbv zeta. rewrite Hdate.
  eexists. split; [reflexivity|]. cbv zeta. split.
  { destruct (str_eqb (OrderStatus.status status) _); reflexivity. }
  split.
  { intros key val. unfold selected_instructions. rewrite in_map_iff. split.
    - intros ([k [sel v]] & [= <- <-] & Hin). apply filter_In in Hin as [Hin Hsel].
      cbn in Hsel. now subst sel.
    - intros Hin. exists (key, ChecklistEntry.mk true val). split; [reflexivity|].
      apply filter_In. now split. }
  destruct (str_eqb (OrderStatus.status status) (lit "Undergoing revision")) eqn:Hur;
    cbn [orders orderStatuses set_orderRevisions set_orderFiles set_orders].
  - exists first, status. split; [exact Hfirst|].
    apply find_some in Hstatus as [Hin Hid]. apply Z.eqb_eq in Hid.
    apply str_eqb_eq in Hur. now repeat split.
  - specialize (Hrevision eq_refl).
    exists (with_status (OrderStatus.id revision) first), revision. split.
    + rewrite find_map_invariant
        by (intros o; destruct (Order.id o =? RevisionReq.orderId req) eqn:E;
            exact E).
      rewrite Hfirst. cbn [option_map]. apply find_some in Hfirst as [_ Hid].
      now rewrite Hid.
    + apply find_some in Hrevision as [Hin Hname]. apply str_eqb_eq in Hname.
      now repeat split.
Qed.

(** The first client asks for a revision of its order 5 and selects one of
    two checklist entries. *)
Lemma revisionRequest_records_revision_witness :
  exists db1,
    revisionRequest sample_Date_valid
      (RevisionReq.mk (lit "amina@example.com") 5
         [(lit "grammar", ChecklistEntry.mk true (lit "fix the tenses"));
          (lit "sources", ChecklistEntry.mk false (lit ""))]
         (lit "2021-03-01") (lit "14:30") [])
      sample_db
    = (Ok (RevisionResult.mk true None), db1)
    /\ map OrderRevision.revisionInstructions (orderRevisions db1)
       = [[(lit "grammar", lit "fix the tenses")]]
    /\ map Order.statusId (orders db1) = [4; 1].
Proof.
  destruct (revisionRequest_records_revision sample_Date_valid sample_db
              (RevisionReq.mk (lit "amina@example.com") 5
                 [(lit "grammar", ChecklistEntry.mk true (lit "fix the tenses"));
                  (lit "sources", ChecklistEntry.mk false (lit ""))]
                 (lit "2021-03-01") (lit "14:30") [])
              (User.mk 1 (lit "amina@example.com")) (Client.mk 10 1 None)
              (OrderFileType.mk 2 (lit "Revision Supporting"))
              (Order.mk 5 10 1 5) (OrderStatus.mk 1 (lit "Available"))
              (OrderStatus.mk 4 (lit "Undergoing revision")))
    as (db1 & Hrun & Hrows & _); try reflexivity.
  exists db1. split; [exact Hrun|]. split.
  - rewrite Hrows. reflexivity.
  - transitivity (map Order.statusId (orders (snd (revisionRequest sample_Date_valid
        (RevisionReq.mk (lit "amina@example.com") 5
           [(lit "grammar", ChecklistEntry.mk true (lit "fix the tenses"));
            (lit "sources", ChecklistEntry.mk false (lit ""))]
           (lit "2021-03-01") (lit "14:30") []) sample_db)))).
    + now rewrite Hrun.
    + reflexivity.
Defined.

(** A revision request with a deadline that is a date attaches every
    supporting file again.  It adds one file row per file of the request, in
    the order of the request, with the URL of the file, its formatted name,
    the type [Revision Supporting], not deleted; it does not look for a row
    with the same URL, so a file that is sent twice is stored twice. *)
Theorem revisionRequest_attaches_every_file (Date_valid : Deadline -> bool)
  (db : Db) (req : RevisionReq.t)
  (user : User.t) (client : Client.t) (t : OrderFileType.t) (first : Order.t)
  (status revision : OrderStatus.t) :
  Date_valid
    (mkDeadline (RevisionReq.deadlineDate req)
       (index (split ":"%char (RevisionReq.deadlineTime req)) 0)
       (index (split ":"%char (RevisionReq.deadlineTime req)) 1)) = true ->
  find (fun u => str_eqb (User.email u) (toLowerCase (RevisionReq.email req)))
    (users db) = Some user ->
  find (fun c => Client.userId c =? User.id user) (clients db) = Some client ->
  existsb (fun o => (Order.id o =? RevisionReq.orderId req)
                    && (Order.clientId o =? Client.id client)) (orders db) = true ->
  all_formattable (RevisionReq.supportingFiles req) = true ->
  find (fun t => str_eqb (OrderFileType.type t) (lit "Revision Supporting"))
    (orderFileTypes db) = Some t ->
  find (fun o => Order.id o =? RevisionReq.orderId req) (orders db) = Some first ->
  find (fun s => OrderStatus.id s =? Order.statusId first) (orderStatuses db)
    = Some status ->
  (str_eqb (OrderStatus.status status) (lit "Undergoing revision") = false ->
   find (fun s => str_eqb (OrderStatus.status s) (lit "Undergoing revision"))
     (orderStatuses db) = Some revision) ->
  exists db1 added,
    revisionRequest Date_valid req db = (Ok (RevisionResult.mk true None), db1)
    /\ orderFiles db1 = orderFiles db ++ added
    /\ map (fun f => (OrderFile.orderId f, OrderFile.fileUrl f,
                      OrderFile.originalName f, OrderFile.type f,
                      OrderFile.isDeleted f, OrderFile.submittedPaper f)) added
       = map (fun file => (RevisionReq.orderId req, SupportingFile.fileUrl file,
                           formatted (SupportingFile.originalName file),
                           OrderFileType.id t, false, false))
           (RevisionReq.supportingFiles req).
Proof.
  intros Hdate Huser Hclient Howned Hall Htype Hfirst Hstatus Hrevision.
  assert (Hget : getClientId (RevisionReq.email req) db = (Ok (Client.id client), db))
    by now rewrite getClientId_cases, Huser, Hclient.
  rewrite (revisionRequest_run Date_valid db req (Client.id client) user t first
             status revision Huser Hget Howned Hall (fun _ => Htype) Hfirst Hstatus
             Hrevision).
  cbv zeta. rewrite Hdate.
  eexists. eexists. split; [reflexivity|]. cbv zeta. split.
  - destruct (str_eqb (OrderStatus.status status) _); reflexivity.
  - apply revision_rows_columns.
Qed.

(** The same file is sent twice with a revision request: two rows. *)
Lemma revisionRequest_attaches_every_file_witness :
  exists db1 added,
    revisionRequest sample_Date_valid
      (RevisionReq.mk (lit "amina@example.com") 5 [] (lit "2021-03-01") (lit "14:30")
         [SupportingFile.mk (lit "uploads/r1.pdf") (lit "r1.pdf");
          SupportingFile.mk (lit "uploads/r1.pdf") (lit "r1.pdf")])
      sample_db
    = (Ok (RevisionResult.mk true None), db1)
    /\ orderFiles db1 = orderFiles sample_db ++ added
    /\ map (fun f => (OrderFile.orderId f, OrderFile.fileUrl f,
                      OrderFile.originalName f, OrderFile.type f,
                      OrderFile.isDeleted f, OrderFile.submittedPaper f)) added
       = [(5, lit "uploads/r1.pdf", lit "r1.pdf", 2, false, false);
          (5, lit "uploads/r1.pdf", lit "r1.pdf", 2, false, false)].
Proof.
  apply (revisionRequest_attaches_every_file sample_Date_valid sample_db
           (RevisionReq.mk (lit "amina@example.com") 5 [] (lit "2021-03-01")
              (lit "14:30")
              [SupportingFile.mk (lit "uploads/r1.pdf") (lit "r1.pdf");
               SupportingFile.mk (lit "uploads/r1.pdf") (lit "r1.pdf")])
           (User.mk 1 (lit "amina@example.com")) (Client.mk 10 1 None)
           (OrderFileType.mk 2 (lit "Revision Supporting"))
           (Order.mk 5 10 1 5) (OrderStatus.mk 1 (lit "Available"))
           (OrderStatus.mk 4 (lit "Undergoing revision")));
    reflexivity.
Defined.

(** A revision request on an order of the client whose deadline is not a
    date rejects when the revision row is refused.  No revision and no file
    of the request is stored, but the order keeps the status [Undergoing
    revision] that the request gave it: the status is written outside the
    transaction. *)
Theorem revisionRequest_invalid_deadline (Date_valid : Deadline -> bool)
  (db : Db) (req : RevisionReq.t)
  (user : User.t) (client : Client.t) (t : OrderFileType.t) (first : Order.t)
  (status revision : OrderStatus.t) :
  Date_valid
    (mkDeadline (RevisionReq.deadlineDate req)
       (index (split ":"%char (RevisionReq.deadlineTime req)) 0)
       (index (split ":"%char (RevisionReq.deadlineTime req)) 1)) = false ->
  find (fun u => str_eqb (User.email u) (toLowerCase (RevisionReq.email req)))
    (users db) = Some user ->
  find (fun c => Client.userId c =? User.id user) (clients db) = Some client ->
  existsb (fun o => (Order.id o =? RevisionReq.orderId req)
                    && (Order.clientId o =? Client.id client)) (orders db) = true ->
  all_formattable (RevisionReq.supportingFiles req) = true ->
  (RevisionReq.supportingFiles req <> [] ->
   find (fun t => str_eqb (OrderFileType.type t) (lit "Revision Supporting"))
     (orderFileTypes db) = Some t) ->
  find (fun o => Order.id o =? RevisionReq.orderId req) (orders db) = Some first ->
  find (fun s => OrderStatus.id s =? Order.statusId first) (orderStatuses db)
    = Some status ->
  (str_eqb (OrderStatus.status status) (lit "Undergoing revision") = false ->
   find (fun s => str_eqb (OrderStatus.status s) (lit "Undergoing revision"))
     (orderStatuses db) = Some revision) ->
  exists db1,
    revisionRequest Date_valid req db = (Throw (Error StoreError), db1)
    /\ orderRevisions db1 = orderRevisions db
    /\ orderFiles db1 = orderFiles db
    /\ exists o st,
         find (fun o => Order.id o =? RevisionReq.orderId req) (orders db1) = Some o
         /\ In st (orderStatuses db1)
         /\ OrderStatus.id st = Order.statusId o
         /\ OrderStatus.status st = lit "Undergoing revision".
Proof.
  intros Hdate Huser Hclient Howned Hall Htype Hfirst Hstatus Hrevision.
  assert (Hget : getClientId (RevisionReq.email req) db = (Ok (Client.id client), db))
    by now rewrite getClientId_cases, Huser, Hclient.
  rewrite (revisionRequest_run Date_valid db req (Client.id client) user t first
             status revision Huser Hget Howned Hall Htype Hfirst Hstatus Hrevision).
  cbv zeta. rewrite Hdate.
  eexists. split; [reflexivity|].
  destruct (str_eqb (OrderStatus.status status) (lit "Undergoing revision")) eqn:Hur;
    cbn [orders orderStatuses orderRevisions orderFiles set_orders].
  - split; [reflexivity|]. split; [reflexivity|].
    exists first, status. split; [exact Hfirst|].
    apply find_some in Hstatus as [Hin Hid]. apply Z.eqb_eq in Hid.
    apply str_eqb_eq in Hur. now repeat split.
  - specialize (Hrevision eq_refl).
    split; [reflexivity|]. split; [reflexivity|].
    exists (with_status (OrderStatus.id revision) first), revision. split.
    + rewrite find_map_invariant
        by (intros o; destruct (Order.id o =? RevisionReq.orderId req) eqn:E;
            exact E).
      rewrite Hfirst. cbn [option_map]. apply find_some in Hfirst as [_ Hid].
      now rewrite Hid.
    + apply find_some in Hrevision as [Hin Hname]. apply str_eqb_eq in Hname.
      now repeat split.
Qed.

(** The first client asks for a revision of its order 5 with a file and the
    deadline [soon]: the call rejects, and order 5 is under revision. *)
Lemma revisionRequest_invalid_deadline_witness :
  exists db1,
    revisionRequest sample_Date_valid
      (RevisionReq.mk (lit "amina@example.com") 5 [] (lit "soon") (lit "14:30")
         [SupportingFile.mk (lit "uploads/r1.pdf") (lit "r1.pdf")])
      sample_db
    = (Throw (Error StoreError), db1)
    /\ orderRevisions db1 = orderRevisions sample_db
    /\ orderFiles db1 = orderFiles sample_db
    /\ map Order.statusId (orders db1) = [4; 1].
Proof.
  destruct (revisionRequest_invalid_deadline sample_Date_valid sample_db
              (RevisionReq.mk (lit "amina@example.com") 5 [] (lit "soon")
                 (lit "14:30")
                 [SupportingFile.mk (lit "uploads/r1.pdf") (lit "r1.pdf")])
              (User.mk 1 (lit "amina@example.com")) (Client.mk 10 1 None)
              (OrderFileType.mk 2 (lit "Revision Supporting"))
              (Order.mk 5 10 1 5) (OrderStatus.mk 1 (lit "Available"))
              (OrderStatus.mk 4 (lit "Undergoing revision")))
    as (db1 & Hrun & Hrows & Hfiles & _); try reflexivity; try discriminate.
  exists db1. split; [exact Hrun|]. split; [exact Hrows|]. split; [exact Hfiles|].
  transitivity (map Order.statusId (orders (snd (revisionRequest sample_Date_valid
      (RevisionReq.mk (lit "amina@example.com") 5 [] (lit "soon") (lit "14:30")
         [SupportingFile.mk (lit "uploads/r1.pdf") (lit "r1.pdf")]) sample_db)))).
  - now rewrite Hrun.
  - reflexivity.
Defined.

(* ===================================================================== *)
(** * The authentication service                                          *)
(* ===================================================================== *)

(** The environment of [auth], spelled out: production when [NODE_ENV] is
    the string [production], development otherwise, an absent or empty
    [NODE_ENV] included. *)
Lemma auth_unfold (env : Env.t) (headers : Headers.t) :
  auth env headers =
  match Headers.x_allowed_origin headers with
  | Some (c :: origin) =>
      if includes (allowed_origins env) (c :: origin)
         && truthy_string (Headers.api_key headers)
         && strict_eq (Headers.api_key headers) (configured_key env)
      then Next
      else Respond 500 (lit "I'm lost.")
  | _ => Respond 500 (lit "I'm lost.")
  end.
Proof.
  assert (Henv :
    (if truthy_string (if truthy_string (Env.NODE_ENV env) then Env.NODE_ENV env
                       else Some (lit "development"))
        && strict_eq (if truthy_string (Env.NODE_ENV env) then Env.NODE_ENV env
                      else Some (lit "development")) (Some (lit "production"))
     then (PRODUCTION_ORIGINS, Env.API_KEY env)
     else (DEVELOPMENT_ORIGINS, Env.DEV_API_KEY env))
    = (allowed_origins env, configured_key env)).
  { unfold allowed_origins, configured_key, in_production.
    destruct (Env.NODE_ENV env) as [[|c node]|];
      cbn [truthy_string strict_eq andb];
      try (change (str_eqb (lit "development") (lit "production")) with false);
      try (change (str_eqb [] (lit "production")) with false);
      try reflexivity.
    now destruct (str_eqb (c :: node) (lit "production")). }
  unfold auth. cbv zeta. rewrite Henv.
  destruct (Headers.x_allowed_origin headers) as [[|c origin]|]; try reflexivity.
  destruct (includes _ _); cbn [andb]; [|reflexivity].
  now destruct (truthy_string _ && _).
Qed.

(** No request passes without a key.  When the [api_key] header is absent or
    empty the answer is 500, in every environment, also when the server has
    no key configured or an empty one. *)
Theorem auth_requires_key (env : Env.t) (headers : Headers.t) :
  truthy_string (Headers.api_key headers) = false ->
  auth env headers = Respond 500 (lit "I'm lost.").
Proof.
  intros Hkey. rewrite auth_unfold, Hkey.
  destruct (Headers.x_allowed_origin headers) as [[|c origin]|]; try reflexivity.
  now rewrite andb_false_r.
Qed.

(** A development server without a configured key, and a request from an
    allowed origin without a key. *)
Lemma auth_requires_key_witness :
  auth (Env.mk None None None)
    (Headers.mk (Some (lit "http://localhost:3100:lspauidg")) None)
  = Respond 500 (lit "I'm lost.").
Proof.
  apply (auth_requires_key (Env.mk None None None)). reflexivity.
Defined.

(** [auth] lets a request pass exactly when its origin header is one of the
    two origins of the environment and its [api_key] header is not empty and
    is the key configured for the environment; every other request is
    answered with 500. *)
Theorem auth_passes_iff (env : Env.t) (headers : Headers.t) :
  (auth env headers = Next
   <-> exists origin key,
         Headers.x_allowed_origin headers = Some origin
         /\ In origin (allowed_origins env)
         /\ Headers.api_key headers = Some key
         /\ key <> []
         /\ configured_key env = Some key)
  /\ (auth env headers <> Next -> auth env headers = Respond 500 (lit "I'm lost.")).
Proof.
  rewrite auth_unfold. split.
  - split.
    + intros Hnext.
      destruct (Headers.x_allowed_origin headers) as [[|c origin]|];
        try discriminate.
      destruct (includes _ _) eqn:Hinc; [|discriminate].
      destruct (Headers.api_key headers) as [[|k key]|]; try discriminate.
      cbn [truthy_string andb strict_eq] in Hnext.
      destruct (configured_key env) as [conf|]; try discriminate.
      destruct (str_eqb (k :: key) conf) eqn:Hk; [|discriminate].
      apply str_eqb_eq in Hk. subst conf.
      exists (c :: origin), (k :: key). repeat split; try discriminate.
      unfold includes in Hinc. apply existsb_exists in Hinc as (o & Hin & Ho).
      apply str_eqb_eq in Ho. now subst o.
    + intros (origin & key & -> & Hin & -> & Hkey & ->).
      destruct key as [|k key]; [contradiction|].
      destruct origin as [|c origin].
      { exfalso. unfold allowed_origins in Hin.
        destruct (in_production env); cbn in Hin; intuition discriminate. }
      assert (Hinc : includes (allowed_origins env) (c :: origin) = true).
      { unfold includes. apply existsb_exists. exists (c :: origin).
        split; [exact Hin|]. unfold str_eqb.
        now destruct (list_eq_dec ascii_dec _ _). }
      rewrite Hinc. cbn [truthy_string andb strict_eq]. unfold str_eqb.
      now destruct (list_eq_dec ascii_dec _ _).
  - destruct (Headers.x_allowed_origin headers) as [[|c origin]|]; try reflexivity.
    destruct (_ && _); [contradiction|reflexivity].
Qed.

(** A development server with the key [k0], and a request from localhost
    with that key. *)
Lemma auth_passes_iff_witness :
  auth (Env.mk None (Some (lit "k1")) (Some (lit "k0")))
    (Headers.mk (Some (lit "http://localhost:6200:hj34we4y3hjw4e3j"))
       (Some (lit "k0")))
  = Next.
Proof.
  apply (proj1 (auth_passes_iff (Env.mk None (Some (lit "k1")) (Some (lit "k0")))
                  (Headers.mk (Some (lit "http://localhost:6200:hj34we4y3hjw4e3j"))
                     (Some (lit "k0"))))).
  exists (lit "http://localhost:6200:hj34we4y3hjw4e3j"), (lit "k0").
  repeat split; [right; left; reflexivity|discriminate].
Defined.

(** The two environments do not share an origin: a production server never
    lets a request from a development origin pass, and a development server
    never lets a request from a production origin pass, whatever the key. *)
Theorem auth_separates_environments (env : Env.t) (headers : Headers.t)
  (origin : str) :
  Headers.x_allowed_origin headers = Some origin ->
  In origin (if in_production env then DEVELOPMENT_ORIGINS else PRODUCTION_ORIGINS) ->
  auth env headers = Respond 500 (lit "I'm lost.").
Proof.
  intros Horigin Hin. rewrite auth_unfold, Horigin.
  assert (Hinc : includes (allowed_origins env) origin = false).
  { unfold allowed_origins.
    destruct (in_production env); cbn in Hin;
      repeat match goal with
        | H : _ \/ _ |- _ => destruct H as [H|H]
        | H : False |- _ => contradiction
        end;
      subst origin; reflexivity. }
  destruct origin as [|c origin]; [reflexivity|]. now rewrite Hinc.
Qed.

(** A production server, the production key, and a localhost origin. *)
Lemma auth_separates_environments_witness :
  auth (Env.mk (Some (lit "production")) (Some (lit "k1")) (Some (lit "k0")))
    (Headers.mk (Some (lit "http://localhost:3100:lspauidg")) (Some (lit "k1")))
  = Respond 500 (lit "I'm lost.").
Proof.
  apply (auth_separates_environments _ _ (lit "http://localhost:3100:lspauidg"));
    [reflexivity|].
  left. reflexivity.
Defined.

(* ===================================================================== *)
(** * Writer invitations                                                  *)
(* ===================================================================== *)

Lemma set_base_same (s : Store) : set_base s (base s) = s.
Proof. now destruct s. Qed.

Lemma str_eqb_same (a : str) : str_eqb a a = true.
Proof. unfold str_eqb. destruct (list_eq_dec ascii_dec a a); congruence. Qed.

(** Every run of [sendWriterInvite]. *)
Lemma sendWriterInvite_cases (req : InviteReq.t) (s : Store) :
  sendWriterInvite req s =
  match getClientId (InviteReq.email req) (base s) with
  | (Throw e, _) => (Throw e, s)
  | (Ok CLIENT_ID, _) =>
      match find (fun i => str_eqb (WriterInvitation.email i) (InviteReq.writerEmail req))
              (writerInvitations s) with
      | Some _ => (Ok (InviteResult.mk false (lit "Invitation already exists!")), s)
      | None =>
          (Ok (InviteResult.mk true (lit "Invitation sent successfully")),
           set_writerInvitations s
             (writerInvitations s
              ++ [WriterInvitation.mk
                    (next_id WriterInvitation.id (writerInvitations s))
                    (InviteReq.writerEmail req) CLIENT_ID]))
      end
  end.
Proof.
  unfold sendWriterInvite, in_db, findOneP, WriterInvitation_create. run.
  pose proof (getClientId_reads (InviteReq.email req) (base s)) as Hreads.
  destruct (getClientId (InviteReq.email req) (base s)) as [[cid|e] d];
    cbn in Hreads; subst d; cbn [live kept snd]; rewrite ?set_base_same;
    [|reflexivity].
  destruct (find _ (writerInvitations s)); reflexivity.
Qed.

(** A writer is invited once.  When an invitation has been sent to an email,
    or refused because there was one, the email has an invitation, and any
    later request for the same email, from the same client or from another,
    is answered with [Invitation already exists!] and stores nothing.  The
    email is compared as it is written. *)
Theorem sendWriterInvite_once (s s1 : Store) (req req' : InviteReq.t)
  (r : InviteResult.t) :
  sendWriterInvite req s = (Ok r, s1) ->
  InviteReq.writerEmail req' = InviteReq.writerEmail req ->
  length (filter (fun i => str_eqb (WriterInvitation.email i) (InviteReq.writerEmail req))
            (writerInvitations s1))
  = Nat.max 1
      (length (filter (fun i => str_eqb (WriterInvitation.email i)
                                  (InviteReq.writerEmail req))
                 (writerInvitations s)))
  /\ snd (sendWriterInvite req' s1) = s1
  /\ (forall r' s2, sendWriterInvite req' s1 = (Ok r', s2) ->
                    r' = InviteResult.mk false (lit "Invitation already exists!")).
Proof.
  intros Hrun Hemail.
  rewrite sendWriterInvite_cases in Hrun.
  destruct (getClientId (InviteReq.email req) (base s)) as [[cid|e] d];
    [|discriminate].
  assert (Hstate :
    find (fun i => str_eqb (WriterInvitation.email i) (InviteReq.writerEmail req))
      (writerInvitations s1) <> None
    /\ length (filter (fun i => str_eqb (WriterInvitation.email i)
                                  (InviteReq.writerEmail req))
                 (writerInvitations s1))
       = Nat.max 1
           (length (filter (fun i => str_eqb (WriterInvitation.email i)
                                       (InviteReq.writerEmail req))
                      (writerInvitations s)))).
  { rewrite find_filter in Hrun. rewrite find_filter.
    destruct (filter _ (writerInvitations s)) as [|i rest] eqn:Hf;
      injection Hrun as _ <-.
    - cbn [writerInvitations set_writerInvitations].
      rewrite filter_app, Hf. cbn. rewrite str_eqb_same. cbn. split;
        [discriminate|reflexivity].
    - rewrite Hf. split; [discriminate|]. cbn [length]. lia. }
  destruct Hstate as [Hfound Hcount]. split; [exact Hcount|].
  rewrite sendWriterInvite_cases, Hemail.
  destruct (getClientId (InviteReq.email req') (base s1)) as [[cid'|e'] d'].
  - destruct (find _ (writerInvitations s1)); [|contradiction].
    split; [reflexivity|]. now intros r' s2 [= <- _].
  - split; [reflexivity|]. intros; discriminate.
Qed.

(** The first client has invited the writer; the second client invites the
    same writer. *)
Lemma sendWriterInvite_once_witness :
  length (filter (fun i => str_eqb (WriterInvitation.email i)
                             (lit "brian@example.com"))
            (writerInvitations invited_store))
  = Nat.max 1
      (length (filter (fun i => str_eqb (WriterInvitation.email i)
                                  (lit "brian@example.com"))
                 (writerInvitations sample_store)))
  /\ snd (sendWriterInvite
            (InviteReq.mk (lit "chege@example.com") (lit "brian@example.com"))
            invited_store) = invited_store
  /\ (forall r' s2,
        sendWriterInvite
          (InviteReq.mk (lit "chege@example.com") (lit "brian@example.com"))
          invited_store = (Ok r', s2) ->
        r' = InviteResult.mk false (lit "Invitation already exists!")).
Proof.
  apply (sendWriterInvite_once sample_store invited_store
           (InviteReq.mk (lit "amina@example.com") (lit "brian@example.com"))
           (InviteReq.mk (lit "chege@example.com") (lit "brian@example.com"))
           (InviteResult.mk true (lit "Invitation sent successfully")));
    reflexivity.
Defined.

(* ===================================================================== *)
(** * Order placement                                                     *)
(* ===================================================================== *)

Lemma set_orderFiles_same (db : Db) : set_orderFiles db (orderFiles db) = db.
Proof. now destruct db. Qed.

(** [updateOrderPayment] writes to the payment details and to the posting
    steps and to no other table, whatever its outcome. *)
Lemma updateOrderPayment_frame (req : PaymentReq.t) (phase : str)
  (requestOrderId : option Z) (db : Db) :
  exists details steps,
    snd (updateOrderPayment req phase requestOrderId db)
    = set_clientOrderPostingSteps (set_orderPaymentDetails db details) steps.
Proof.
  assert (Hsame : exists details steps,
            db = set_clientOrderPostingSteps (set_orderPaymentDetails db details) steps).
  { exists (orderPaymentDetails db), (clientOrderPostingSteps db). now destruct db. }
  unfold updateOrderPayment. run.
  repeat match goal with
  | |- context [match find ?p ?l with _ => _ end] => destruct (find p l)
  | |- context [if ?b then _ else _] => destruct b
  end; cbn [snd]; try exact Hsame;
  match goal with
  | |- exists _ _, ?L = _ =>
      exists (orderPaymentDetails L), (clientOrderPostingSteps L)
  end; destruct db; reflexivity.
Qed.

Lemma attached_found (orderId typeId : Z) (fileUrl : str) (rows : list OrderFile.t) :
  find (same_file orderId fileUrl typeId) rows <> None
  <-> (1 <= attached orderId typeId fileUrl rows)%nat.
Proof.
  unfold attached. rewrite find_filter.
  destruct (filter _ rows); cbn [length]; split; intros H;
    try discriminate; try lia; now contradiction H.
Qed.

Lemma set_files_same (s : Store) :
  set_base s (set_orderFiles (base s) (orderFiles (base s) ++ [])) = s.
Proof. now rewrite app_nil_r, set_orderFiles_same, set_base_same. Qed.

Lemma attached_cons (orderId typeId : Z) (fileUrl : str) (row : OrderFile.t)
  (rows : list OrderFile.t) :
  attached orderId typeId fileUrl (row :: rows)
  = ((if same_file orderId fileUrl typeId row then 1 else 0)
     + attached orderId typeId fileUrl rows)%nat.
Proof.
  unfold attached. cbn [filter]. now destruct (same_file orderId fileUrl typeId row).
Qed.

(** The loop of the update over the supporting files.  It writes file rows
    only, and only inside the transaction; when it returns, it has attached
    a URL that the order did not have once for every file of the request
    with the URL, and no other. *)
Lemma attachMissingFiles_run (defaults : OrderFileDefaults) (orderId : Z)
  (type : option OrderFileType.t) (files : list SupportingFile.t)
  (ses ses' : Session Store) (r : result unit) :
  attachMissingFiles defaults orderId type files ses = (r, ses') ->
  kept ses' = kept ses
  /\ exists added,
       live ses'
       = set_base (live ses)
           (set_orderFiles (base (live ses))
              (orderFiles (base (live ses)) ++ added))
       /\ (type = None -> added = [])
       /\ forall t u fileUrl,
            type = Some t -> r = Ok u ->
            attached orderId (OrderFileType.id t) fileUrl added
            = if (attached orderId (OrderFileType.id t) fileUrl
                    (orderFiles (base (kept ses))) =? 0)%nat
              then listed fileUrl files else 0%nat.
Proof.
  revert ses. induction files as [|file rest IH]; intros ses Hrun.
  - cbn in Hrun. injection Hrun as _ <-. split; [reflexivity|]. exists [].
    rewrite set_files_same. split; [reflexivity|]. split; [reflexivity|].
    intros t u fileUrl _ _. now destruct (_ =? _)%nat.
  - cbn [attachMissingFiles] in Hrun.
    unfold in_db in Hrun. run_in Hrun.
    destruct type as [t|].
    2:{ injection Hrun as _ <-. split; [reflexivity|]. exists [].
        rewrite set_files_same. split; [reflexivity|]. split; [reflexivity|].
        discriminate. }
    cbn [live kept snd base set_base] in Hrun. rewrite !set_base_same in Hrun.
    destruct (find (same_file orderId (SupportingFile.fileUrl file) (OrderFileType.id t))
                (orderFiles (base (kept ses)))) as [row|] eqn:Hfind.
    + apply IH in Hrun as (Hkept & added & Hlive & _ & Hcount).
      cbn [live kept] in Hkept, Hlive, Hcount.
      split; [exact Hkept|]. exists added. split; [exact Hlive|].
      split; [discriminate|].
      intros t0 u fileUrl [= <-] Hr. rewrite (Hcount t u fileUrl eq_refl Hr).
      unfold listed. cbn [filter].
      destruct (str_eqb (SupportingFile.fileUrl file) fileUrl) eqn:Hurl;
        [|reflexivity].
      apply str_eqb_eq in Hurl. subst fileUrl.
      assert (Hone : (1 <= attached orderId (OrderFileType.id t)
                            (SupportingFile.fileUrl file)
                            (orderFiles (base (kept ses))))%nat).
      { apply attached_found. rewrite Hfind. discriminate. }
      destruct (Nat.eqb_spec (attached orderId (OrderFileType.id t)
                                (SupportingFile.fileUrl file)
                                (orderFiles (base (kept ses)))) 0);
        [lia|reflexivity].
    + destruct (originalNameFormatter (SupportingFile.originalName file)) as [out|e].
      2:{ injection Hrun as <- <-. cbn [live kept]. split; [reflexivity|].
          exists []. rewrite set_files_same. split; [reflexivity|].
          split; [discriminate|]. discriminate. }
      cbn [live kept snd base set_base] in Hrun.
      apply IH in Hrun as (Hkept & added & Hlive & _ & Hcount).
      cbn [live kept base set_base orderFiles set_orderFiles] in Hkept, Hlive, Hcount.
      split; [exact Hkept|].
      exists (OrderFile.mk (next_id OrderFile.id (orderFiles (base (live ses))))
                orderId
                (SupportingFile.fileUrl file) out (OrderFileType.id t)
                (defaultIsDeleted defaults) (defaultSubmittedPaper defaults)
              :: added).
      split.
      { rewrite Hlive, <- app_assoc. cbn [app].
        destruct (live ses) as [d ? ? ? ? ?]. now destruct d. }
      split; [discriminate|].
      intros t0 u fileUrl [= <-] Hr. rewrite attached_cons.
      rewrite (Hcount t u fileUrl eq_refl Hr).
      unfold same_file at 1.
      cbn [OrderFile.orderId OrderFile.fileUrl OrderFile.type].
      rewrite !Z.eqb_refl. cbn [andb]. rewrite andb_true_r.
      unfold listed. cbn [filter].
      destruct (str_eqb (SupportingFile.fileUrl file) fileUrl) eqn:Hurl;
        [|reflexivity].
      apply str_eqb_eq in Hurl. subst fileUrl.
      assert (Hzero : attached orderId (OrderFileType.id t)
                        (SupportingFile.fileUrl file)
                        (orderFiles (base (kept ses))) = 0%nat).
      { unfold attached. rewrite find_filter in Hfind.
        now destruct (filter _ (orderFiles (base (kept ses)))). }
      rewrite Hzero. reflexivity.
Qed.

(** The lookups that a returning placement has made. *)
Lemma saveOrderDetails_lookups (defaults : OrderFileDefaults) (req : PlaceReq.t)
  (s s1 : Store) (r : PlaceResult) :
  saveOrderDetails defaults req s = (Ok r, s1) ->
  exists client service type status format,
    caller (PlaceReq.email req) (base s) = Some client
    /\ placement_service req s = Some service
    /\ placement_type req s = Some type
    /\ available (base s) = Some status
    /\ format_in_use s = Some format.
Proof.
  intros Hrun.
  unfold caller, placement_service, placement_type, available, format_in_use.
  unfold saveOrderDetails, in_db, findOneP in Hrun. run_in Hrun.
  cbn [base set_base live kept snd] in Hrun.
  destruct (find _ (users (base s))) as [user|] eqn:Huser;
    [|discriminate].
  destruct (PlaceReq.orderId req >? 0);
    cbn [base set_base live kept snd] in Hrun;
    (destruct (find _ (clients _)) eqn:Hclient;
       cbn [base set_base live kept snd] in Hrun; [|discriminate Hrun]);
    (destruct (find _ (orderServiceTypes _)) eqn:Hservice;
       cbn [base set_base live kept snd] in Hrun; [|discriminate Hrun]);
    (destruct (find _ (entityTypes _)) eqn:Htype;
       cbn [base set_base live kept snd] in Hrun; [|discriminate Hrun]);
    (destruct (find _ (orderStatuses _)) eqn:Hstatus;
       cbn [base set_base live kept snd] in Hrun; [|discriminate Hrun]);
    (destruct (find _ (orderFormats _)) eqn:Hformat;
       cbn [base set_base live kept snd] in Hrun; [|discriminate Hrun]);
    repeat eexists.
Qed.

(** Every run of the update of an order that the lookups allow.  The order
    and its posting steps are written outside the transaction and stay
    written when the update rejects. *)
Lemma saveOrderDetails_update_cases (defaults : OrderFileDefaults)
  (req : PlaceReq.t) (s : Store) (client : Client.t)
  (service : OrderServiceType.t) (type : EntityType.t) (status : OrderStatus.t)
  (format : OrderFormat.t) :
  0 < PlaceReq.orderId req ->
  caller (PlaceReq.email req) (base s) = Some client ->
  placement_service req s = Some service ->
  placement_type req s = Some type ->
  available (base s) = Some status ->
  format_in_use s = Some format ->
  saveOrderDetails defaults req s =
  let taken :=
    set_orderContents (set_base s (order_taken req client status (base s)))
      (content_taken req service type format (orderContents s)) in
  match attachMissingFiles defaults (PlaceReq.orderId req)
          (client_supporting (base s)) (PlaceReq.supportingFiles req)
          (mkSession taken taken) with
  | (Throw e, ses) => (Throw (Error e), kept ses)
  | (Ok _, ses) =>
      match updateOrderPayment (payment_of req) (lit "place-order") None
              (base (kept ses)) with
      | (Throw e, d) => (Throw (Error e), set_base (kept ses) d)
      | (Ok r, _) =>
          (Ok (Recorded r),
           set_base (live ses)
             (snd (updateOrderPayment (payment_of req) (lit "place-order") None
                     (base (live ses)))))
      end
  end.
Proof.
  intros Hid Hcaller Hservice Htype Hstatus Hformat.
  unfold caller in Hcaller. unfold placement_service in Hservice.
  unfold placement_type in Htype. unfold available in Hstatus.
  unfold format_in_use in Hformat.
  destruct (find _ (users (base s))) as [user|] eqn:Huser; [|discriminate].
  cbv zeta.
  set (taken := set_orderContents
                  (set_base s (order_taken req client status (base s)))
                  (content_taken req service type format (orderContents s))).
  unfold saveOrderDetails, in_db, findOneP. run.
  store_cbn. rewrite Huser.
  destruct (Z.gtb_spec (PlaceReq.orderId req) 0) as [_|]; [|lia].
  store_cbn. rewrite Hcaller. store_cbn. rewrite Hservice. store_cbn.
  rewrite Htype. store_cbn. rewrite Hstatus. store_cbn. rewrite Hformat.
  unfold Order_update. store_cbn.
  cbn [orderFileTypes set_clientOrderPostingSteps set_orders clientOrderPostingSteps
       orders].
  match goal with
  | |- context [attachMissingFiles _ _ _ _ ?ses] =>
      change ses with (mkSession taken taken)
  end.
  unfold client_supporting, payment_of.
  destruct (attachMissingFiles _ _ _ _ _) as [[u|e] ses]; store_cbn;
    [|reflexivity].
  destruct (updateOrderPayment _ _ _ (base (kept ses))) as [[r|e] d]; store_cbn;
    [|reflexivity].
  now destruct (updateOrderPayment _ _ _ (base (live ses))).
Qed.

(** The payment of a placement writes the payment details only. *)
Lemma updateOrderPayment_place_frame (req : PaymentReq.t)
  (requestOrderId : option Z) (db : Db) :
  exists details,
    snd (updateOrderPayment req (lit "place-order") requestOrderId db)
    = set_orderPaymentDetails db details.
Proof.
  assert (Hsame : exists details, db = set_orderPaymentDetails db details).
  { exists (orderPaymentDetails db). now destruct db. }
  assert (Hphase : str_eqb (lit "place-order") (lit "check-order") = false)
    by reflexivity.
  unfold updateOrderPayment. run.
  rewrite Hphase.
  repeat match goal with
  | |- context [match find ?p ?l with _ => _ end] => destruct (find p l)
  | |- context [if ?b then _ else _] => destruct b
  end; cbn [snd live kept]; try exact Hsame;
  match goal with
  | |- exists _, ?L = _ => exists (orderPaymentDetails L)
  end; destruct db; reflexivity.
Qed.

Lemma attached_app (orderId typeId : Z) (fileUrl : str)
  (rows added : list OrderFile.t) :
  attached orderId typeId fileUrl (rows ++ added)
  = (attached orderId typeId fileUrl rows
     + attached orderId typeId fileUrl added)%nat.
Proof. unfold attached. now rewrite filter_app, length_app. Qed.

(** A returning update of an order: the store it leaves. *)
Lemma saveOrderDetails_update_inv (defaults : OrderFileDefaults)
  (req : PlaceReq.t) (s s1 : Store) (r : PlaceResult) :
  0 < PlaceReq.orderId req ->
  saveOrderDetails defaults req s = (Ok r, s1) ->
  exists client service type status format added details,
    caller (PlaceReq.email req) (base s) = Some client
    /\ placement_service req s = Some service
    /\ placement_type req s = Some type
    /\ available (base s) = Some status
    /\ format_in_use s = Some format
    /\ s1 = set_orderContents
              (set_base s
                 (set_orderPaymentDetails
                    (set_orderFiles (order_taken req client status (base s))
                       (orderFiles (base s) ++ added))
                    details))
              (content_taken req service type format (orderContents s))
    /\ (client_supporting (base s) = None -> added = [])
    /\ forall t fileUrl,
         client_supporting (base s) = Some t ->
         attached (PlaceReq.orderId req) (OrderFileType.id t) fileUrl added
         = if (attached (PlaceReq.orderId req) (OrderFileType.id t) fileUrl
                 (orderFiles (base s)) =? 0)%nat
           then listed fileUrl (PlaceReq.supportingFiles req) else 0%nat.
Proof.
  intros Hid Hrun.
  destruct (saveOrderDetails_lookups _ _ _ _ _ Hrun)
    as (client & service & type & status & format & Hc & Hs & Ht & Ha & Hf).
  rewrite (saveOrderDetails_update_cases defaults req s client service type status
             format Hid Hc Hs Ht Ha Hf) in Hrun.
  cbv zeta in Hrun.
  destruct (attachMissingFiles _ _ _ _ _) as [[u|e] ses] eqn:Hattach;
    [|discriminate].
  apply attachMissingFiles_run in Hattach as (Hkept & added & Hlive & Hnone & Hcount).
  cbn [live kept] in Hkept, Hlive, Hcount.
  destruct (updateOrderPayment _ _ _ (base (kept ses))) as [[r0|e] d];
    [|discriminate].
  destruct (updateOrderPayment_place_frame (payment_of req) None (base (live ses)))
    as [details Hpay].
  rewrite Hpay in Hrun. injection Hrun as _ <-.
  exists client, service, type, status, format, added, details.
  repeat (split; [assumption|]). split.
  - rewrite Hlive. reflexivity.
  - split; [exact Hnone|]. intros t fileUrl Htype.
    exact (Hcount t u fileUrl Htype eq_refl).
Qed.

(** An update of an order that returns gives the order to the caller.
    Every order with the id of the request gets the client of the email, the
    status [Available] and the page count of the request, whoever its client
    was; the other orders are as they were, and the posting steps of the
    order are set to step 1. *)
Theorem saveOrderDetails_update_takes_order (defaults : OrderFileDefaults)
  (req : PlaceReq.t) (s s1 : Store) (r : PlaceResult) :
  0 < PlaceReq.orderId req ->
  saveOrderDetails defaults req s = (Ok r, s1) ->
  exists client status,
    caller (PlaceReq.email req) (base s) = Some client
    /\ available (base s) = Some status
    /\ orders (base s1)
       = map (fun o => if Order.id o =? PlaceReq.orderId req
                       then Order.mk (Order.id o) (Client.id client)
                              (OrderStatus.id status) (PlaceReq.pageCount req)
                       else o)
           (orders (base s))
    /\ clientOrderPostingSteps (base s1)
       = map (fun p => if where_eq (ClientOrderPostingStep.orderId p)
                            (Some (PlaceReq.orderId req))
                       then ClientOrderPostingStep.mk (ClientOrderPostingStep.id p)
                              (ClientOrderPostingStep.clientId p)
                              (ClientOrderPostingStep.orderId p) 1
                       else p)
           (clientOrderPostingSteps (base s)).
Proof.
  intros Hid Hrun.
  destruct (saveOrderDetails_update_inv _ _ _ _ _ Hid Hrun)
    as (client & service & type & status & format & added & details
        & Hc & _ & _ & Ha & _ & Hs1 & _).
  exists client, status. split; [exact Hc|]. split; [exact Ha|].
  rewrite Hs1. split; reflexivity.
Qed.

(** The first client sends an update for order 6, which is an order of the
    second client: the order is the first client's afterwards. *)
Lemma saveOrderDetails_update_takes_order_witness :
  exists client status,
    caller (lit "Amina@Example.com") sample_db = Some client
    /\ available sample_db = Some status
    /\ orders (base (snd (saveOrderDetails sample_defaults (sample_placement 6 [])
                            sample_store)))
       = map (fun o => if Order.id o =? 6
                       then Order.mk (Order.id o) (Client.id client)
                              (OrderStatus.id status) 3
                       else o)
           [Order.mk 5 10 1 5; Order.mk 6 11 1 1]
    /\ clientOrderPostingSteps
         (base (snd (saveOrderDetails sample_defaults (sample_placement 6 [])
                       sample_store)))
       = map (fun p => if where_eq (ClientOrderPostingStep.orderId p) (Some 6)
                       then ClientOrderPostingStep.mk (ClientOrderPostingStep.id p)
                              (ClientOrderPostingStep.clientId p)
                              (ClientOrderPostingStep.orderId p) 1
                       else p)
           [ClientOrderPostingStep.mk 1 10 (Some 5) 1].
Proof.
  apply (saveOrderDetails_update_takes_order sample_defaults (sample_placement 6 [])
           sample_store
           (snd (saveOrderDetails sample_defaults (sample_placement 6 []) sample_store))
           (Recorded (PaymentCreated (Some 6))));
    [reflexivity|vm_compute; reflexivity].
Defined.

(** An update of an order that returns attaches the supporting files that
    the order did not have when the update began.  Rows are only appended
    to the files; a URL of the request that the order had under the type
    [Client Supporting] gets no row; a URL that it did not have gets one row
    for every file of the request with the URL, so two rows when the request
    lists it twice, because the lookup does not see the rows of the
    transaction; and the number of rows of every other URL is as it was. *)
Theorem saveOrderDetails_update_attaches_missing (defaults : OrderFileDefaults)
  (req : PlaceReq.t) (s s1 : Store) (r : PlaceResult) (t : OrderFileType.t) :
  0 < PlaceReq.orderId req ->
  saveOrderDetails defaults req s = (Ok r, s1) ->
  client_supporting (base s) = Some t ->
  (exists added, orderFiles (base s1) = orderFiles (base s) ++ added)
  /\ forall fileUrl,
       attached (PlaceReq.orderId req) (OrderFileType.id t) fileUrl
         (orderFiles (base s1))
       = if (attached (PlaceReq.orderId req) (OrderFileType.id t) fileUrl
               (orderFiles (base s)) =? 0)%nat
         then listed fileUrl (PlaceReq.supportingFiles req)
         else attached (PlaceReq.orderId req) (OrderFileType.id t) fileUrl
                (orderFiles (base s)).
Proof.
  intros Hid Hrun Htype.
  destruct (saveOrderDetails_update_inv _ _ _ _ _ Hid Hrun)
    as (client & service & type & status & format & added & details
        & _ & _ & _ & _ & _ & Hs1 & _ & Hcount).
  rewrite Hs1.
  cbn [base set_orderContents set_base orderFiles set_orderPaymentDetails
       set_orderFiles].
  split; [now exists added|].
  intros fileUrl. rewrite attached_app, (Hcount t fileUrl Htype).
  destruct (Nat.eqb_spec (attached (PlaceReq.orderId req) (OrderFileType.id t)
                            fileUrl (orderFiles (base s))) 0); lia.
Qed.

(** The first client sends an update for order 5 with three files: the
    first is attached to the order, the second and the third have one URL,
    which is attached twice. *)
Lemma saveOrderDetails_update_attaches_missing_witness :
  (exists added,
     orderFiles (base (snd (saveOrderDetails sample_defaults
                              (sample_placement 5 sample_files) attached_store)))
     = orderFiles (base attached_store) ++ added)
  /\ forall fileUrl,
       attached 5 1 fileUrl
         (orderFiles (base (snd (saveOrderDetails sample_defaults
                                   (sample_placement 5 sample_files) attached_store))))
       = if (attached 5 1 fileUrl (orderFiles (base attached_store)) =? 0)%nat
         then listed fileUrl sample_files
         else attached 5 1 fileUrl (orderFiles (base attached_store)).
Proof.
  apply (saveOrderDetails_update_attaches_missing sample_defaults
           (sample_placement 5 sample_files) attached_store
           (snd (saveOrderDetails sample_defaults (sample_placement 5 sample_files)
                   attached_store))
           (Recorded (PaymentCreated (Some 5)))
           (OrderFileType.mk 1 (lit "Client Supporting")));
    [reflexivity|vm_compute; reflexivity|reflexivity].
Defined.

(** The loop of the update attaches nothing when every file of the request
    was attached before the transaction. *)
Lemma attachMissingFiles_attached (defaults : OrderFileDefaults) (orderId : Z)
  (t : OrderFileType.t) (files : list SupportingFile.t) (l k : Store) :
  (forall file, In file files ->
     (1 <= attached orderId (OrderFileType.id t) (SupportingFile.fileUrl file)
             (orderFiles (base k)))%nat) ->
  attachMissingFiles defaults orderId (Some t) files (mkSession l k)
  = (Ok tt, mkSession l k).
Proof.
  induction files as [|file rest IH]; intros Hall; [reflexivity|].
  cbn [attachMissingFiles]. unfold in_db. run. store_cbn.
  pose proof (Hall file (or_introl eq_refl)) as Hone.
  apply attached_found in Hone.
  destruct (find _ (orderFiles (base k))); [|contradiction].
  rewrite !set_base_same. apply IH. intros f Hin. apply Hall. now right.
Qed.

(** After an update of an order that returns, the same request again
    adds no file row, whatever its outcome. *)
Theorem saveOrderDetails_update_repeat (defaults : OrderFileDefaults)
  (req : PlaceReq.t) (s s1 : Store) (r : PlaceResult) :
  0 < PlaceReq.orderId req ->
  saveOrderDetails defaults req s = (Ok r, s1) ->
  orderFiles (base (snd (saveOrderDetails defaults req s1)))
  = orderFiles (base s1).
Proof.
  intros Hid Hrun.
  destruct (saveOrderDetails_update_inv _ _ _ _ _ Hid Hrun)
    as (client & service & type & status & format & added & details
        & Hc & Hs & Ht & Ha & Hf & Hs1 & Hnone & Hcount).
  assert (Hc1 : caller (PlaceReq.email req) (base s1) = Some client)
    by (rewrite Hs1; exact Hc).
  assert (Hsv1 : placement_service req s1 = Some service)
    by (rewrite Hs1; exact Hs).
  assert (Ht1 : placement_type req s1 = Some type) by (rewrite Hs1; exact Ht).
  assert (Ha1 : available (base s1) = Some status) by (rewrite Hs1; exact Ha).
  assert (Hf1 : format_in_use s1 = Some format) by (rewrite Hs1; exact Hf).
  assert (Htypes : client_supporting (base s1) = client_supporting (base s))
    by (rewrite Hs1; reflexivity).
  assert (Hfiles : orderFiles (base s1) = orderFiles (base s) ++ added)
    by (rewrite Hs1; reflexivity).
  rewrite (saveOrderDetails_update_cases defaults req s1 client service type status
             format Hid Hc1 Hsv1 Ht1 Ha1 Hf1).
  cbv zeta. rewrite Htypes.
  set (taken := set_orderContents
                  (set_base s1 (order_taken req client status (base s1)))
                  (content_taken req service type format (orderContents s1))).
  assert (Hloop : exists u,
            attachMissingFiles defaults (PlaceReq.orderId req)
              (client_supporting (base s)) (PlaceReq.supportingFiles req)
              (mkSession taken taken)
            = (u, mkSession taken taken)).
  { destruct (client_supporting (base s)) as [t|] eqn:Htype.
    - exists (Ok tt). apply attachMissingFiles_attached. intros file Hin.
      change (orderFiles (base taken)) with (orderFiles (base s1)).
      rewrite Hfiles, attached_app, (Hcount t _ eq_refl).
      assert (Hlisted : (1 <= listed (SupportingFile.fileUrl file)
                                (PlaceReq.supportingFiles req))%nat).
      { unfold listed. apply In_split in Hin as (before & after & ->).
        rewrite filter_app, length_app. cbn [filter].
        rewrite str_eqb_same. cbn [length]. lia. }
      destruct (Nat.eqb_spec (attached (PlaceReq.orderId req) (OrderFileType.id t)
                                (SupportingFile.fileUrl file)
                                (orderFiles (base s))) 0); lia.
    - destruct (PlaceReq.supportingFiles req); eexists; reflexivity. }
  destruct Hloop as [u ->].
  destruct u as [u|e]; cbn [live kept snd]; [|reflexivity].
  destruct (updateOrderPayment_frame (payment_of req) (lit "place-order") None
              (base taken)) as (details2 & steps2 & Hpay).
  destruct (updateOrderPayment _ _ _ (base taken)) as [[r2|e] d];
    cbn [snd] in Hpay |- *; rewrite Hpay; reflexivity.
Qed.

(** The update of order 5 with the three files, sent a second time. *)
Lemma saveOrderDetails_update_repeat_witness :
  orderFiles
    (base (snd (saveOrderDetails sample_defaults (sample_placement 5 sample_files)
                  (snd (saveOrderDetails sample_defaults
                          (sample_placement 5 sample_files) attached_store)))))
  = orderFiles
      (base (snd (saveOrderDetails sample_defaults (sample_placement 5 sample_files)
                    attached_store))).
Proof.
  apply (saveOrderDetails_update_repeat sample_defaults
           (sample_placement 5 sample_files) attached_store
           (snd (saveOrderDetails sample_defaults (sample_placement 5 sample_files)
                   attached_store))
           (Recorded (PaymentCreated (Some 5))));
    [reflexivity|vm_compute; reflexivity].
Defined.

(** The loop of the creation over the supporting files, when it returns:
    one row per file, in the order of the request. *)
Lemma attachFiles_run (defaults : OrderFileDefaults) (orderId : Z)
  (type : option OrderFileType.t) (files : list SupportingFile.t)
  (db db' : Db) (u : unit) :
  attachFiles defaults orderId type files db = (Ok u, db') ->
  exists rows,
    db' = set_orderFiles db (orderFiles db ++ rows)
    /\ map OrderFile.fileUrl rows = map SupportingFile.fileUrl files
    /\ map OrderFile.originalName rows
       = map (fun file => formatted (SupportingFile.originalName file)) files
    /\ (forall row, In row rows ->
          OrderFile.orderId row = orderId
          /\ Some (OrderFile.type row) = option_map OrderFileType.id type
          /\ OrderFile.isDeleted row = defaultIsDeleted defaults
          /\ OrderFile.submittedPaper row = defaultSubmittedPaper defaults)
    /\ all_formattable files = true.
Proof.
  revert db. induction files as [|file rest IH]; intros db Hrun.
  - cbn in Hrun. injection Hrun as _ <-. exists [].
    rewrite app_nil_r, set_orderFiles_same. now repeat split.
  - cbn [attachFiles] in Hrun.
    unfold bind, rethrow, create, lift, ret, throw in Hrun.
    cbn [all_formattable forallb]. unfold formatted at 1.
    destruct (originalNameFormatter (SupportingFile.originalName file)) as [out|e]
      eqn:Hname; [|discriminate].
    destruct type as [t|]; cbn [deref] in Hrun; [|discriminate].
    unfold ret in Hrun.
    apply IH in Hrun as (rows & Hdb & Hurls & Hnames & Hrows & Hall).
    cbn [orderFiles set_orderFiles] in Hdb.
    eexists (_ :: rows). split.
    { rewrite Hdb, <- app_assoc. cbn [app]. now destruct db. }
    cbn [map OrderFile.fileUrl OrderFile.originalName]. rewrite Hurls, Hnames.
    unfold formatted at 1. rewrite Hname.
    split; [reflexivity|]. split; [reflexivity|]. split; [|exact Hall].
    intros row [<-|Hin]; [now repeat split|]. now apply Hrows.
Qed.

(** A creation that rejects leaves the store as it was: every statement
    that writes is part of the transaction. *)
Lemma saveOrderDetails_create_throws (defaults : OrderFileDefaults)
  (req : PlaceReq.t) (s s1 : Store) (e : exn) :
  PlaceReq.orderId req <= 0 ->
  saveOrderDetails defaults req s = (Throw e, s1) -> s1 = s.
Proof.
  intros Hid Hrun.
  unfold saveOrderDetails, in_db, findOneP in Hrun. run_in Hrun.
  store_cbn_in Hrun.
  destruct (find _ (users (base s))) as [user|]; [|kept_in Hrun set_base_same].
  destruct (Z.gtb_spec (PlaceReq.orderId req) 0) as [|_]; [lia|].
  store_cbn_in Hrun.
  destruct (find _ (clients _)); store_cbn_in Hrun; [|kept_in Hrun set_base_same].
  destruct (find _ (orderServiceTypes _)); store_cbn_in Hrun; [|kept_in Hrun set_base_same].
  destruct (find _ (entityTypes _)); store_cbn_in Hrun; [|kept_in Hrun set_base_same].
  destruct (find _ (orderStatuses _)); store_cbn_in Hrun; [|kept_in Hrun set_base_same].
  destruct (find _ (orderFormats _)); store_cbn_in Hrun; [|kept_in Hrun set_base_same].
  rewrite !set_base_same in Hrun. unfold Order_create in Hrun.
  store_cbn_in Hrun.
  destruct (len (PlaceReq.supportingFiles req) >? 0); store_cbn_in Hrun.
  - destruct (attachFiles _ _ _ _ _) as [[u|e'] d]; store_cbn_in Hrun;
      [|kept_in Hrun set_base_same].
    destruct (find _ (currencies _)); store_cbn_in Hrun;
      [discriminate Hrun|kept_in Hrun set_base_same].
  - destruct (find _ (currencies _)); store_cbn_in Hrun;
      [discriminate Hrun|kept_in Hrun set_base_same].
Qed.

(** Every run of the creation of an order that the lookups allow. *)
Lemma saveOrderDetails_create_cases (defaults : OrderFileDefaults)
  (req : PlaceReq.t) (s : Store) (client : Client.t)
  (service : OrderServiceType.t) (type : EntityType.t) (status : OrderStatus.t)
  (format : OrderFormat.t) :
  PlaceReq.orderId req <= 0 ->
  caller (PlaceReq.email req) (base s) = Some client ->
  placement_service req s = Some service ->
  placement_type req s = Some type ->
  available (base s) = Some status ->
  format_in_use s = Some format ->
  saveOrderDetails defaults req s =
  let newId := next_id Order.id (orders (base s)) in
  match attachFiles defaults newId (client_supporting (base s))
          (PlaceReq.supportingFiles req)
          (order_placed req client status (base s)) with
  | (Throw e, _) => (Throw (Error e), s)
  | (Ok _, d1) =>
      match find (fun c => str_eqb (Currency.currencyCode c)
                             (PaymentSummary.currencyCode (PlaceReq.paymentSummary req)))
              (currencies (base s)) with
      | None => (Throw (Error TypeError), s)
      | Some currency =>
          (Ok (Placed newId),
           set_orderContents
             (set_base s
                (set_orderPaymentDetails d1
                   (orderPaymentDetails d1
                    ++ [placement_detail req currency newId
                          (next_id OrderPaymentDetail.id (orderPaymentDetails d1))])))
             (orderContents s
              ++ [order_content req (OrderServiceType.id service)
                    (EntityType.id type) (OrderFormat.id format) newId]))
      end
  end.
Proof.
  intros Hid Hcaller Hservice Htype Hstatus Hformat.
  unfold caller in Hcaller. unfold placement_service in Hservice.
  unfold placement_type in Htype. unfold available in Hstatus.
  unfold format_in_use in Hformat.
  destruct (find _ (users (base s))) as [user|] eqn:Huser; [|discriminate].
  cbv zeta. unfold saveOrderDetails, in_db, findOneP. run.
  store_cbn. rewrite Huser.
  destruct (Z.gtb_spec (PlaceReq.orderId req) 0) as [|_]; [lia|].
  store_cbn. rewrite Hcaller. store_cbn. rewrite Hservice. store_cbn.
  rewrite Htype. store_cbn. rewrite Hstatus. store_cbn. rewrite Hformat.
  rewrite !set_base_same. unfold Order_create. store_cbn.
  cbn [orderFileTypes set_clientOrderPostingSteps set_orders clientOrderPostingSteps
       orders Order.id currencies].
  unfold client_supporting, order_placed, placed, placement_detail. cbv zeta.
  destruct (PlaceReq.supportingFiles req) as [|file rest] eqn:Hfiles.
  - cbn [len length Z.of_nat Z.gtb Z.compare attachFiles ret]. store_cbn.
    cbn [currencies set_clientOrderPostingSteps set_orders].
    destruct (find _ (currencies _)) as [currency|]; store_cbn;
      rewrite ?set_base_same; reflexivity.
  - assert (Hlen : (len (file :: rest) >? 0) = true).
    { unfold len. cbn [length]. apply Z.gtb_lt. lia. }
    rewrite Hlen. store_cbn.
    destruct (attachFiles _ _ _ _ _) as [[u|e] d1]; store_cbn;
      rewrite ?set_base_same; [|reflexivity].
    destruct (find _ (currencies _)) as [currency|]; store_cbn;
      rewrite ?set_base_same; reflexivity.
Qed.

(** The next key is above every key of the table. *)
Lemma next_id_fresh {R : Type} (pk : R -> Z) (rows : list R) (r : R) :
  In r rows -> pk r < next_id pk rows.
Proof.
  unfold next_id. induction rows as [|x rest IH]; [contradiction|].
  cbn [fold_right]. intros [->|Hin]; [lia|]. specialize (IH Hin). lia.
Qed.

(** A returning creation of an order, step by step. *)
Lemma saveOrderDetails_create_inv (defaults : OrderFileDefaults)
  (req : PlaceReq.t) (s s1 : Store) (r : PlaceResult) :
  PlaceReq.orderId req <= 0 ->
  saveOrderDetails defaults req s = (Ok r, s1) ->
  exists client service type status format u d1 currency,
    caller (PlaceReq.email req) (base s) = Some client
    /\ available (base s) = Some status
    /\ attachFiles defaults (next_id Order.id (orders (base s)))
         (client_supporting (base s)) (PlaceReq.supportingFiles req)
         (order_placed req client status (base s)) = (Ok u, d1)
    /\ r = Placed (next_id Order.id (orders (base s)))
    /\ s1 = set_orderContents
              (set_base s
                 (set_orderPaymentDetails d1
                    (orderPaymentDetails d1
                     ++ [placement_detail req currency
                           (next_id Order.id (orders (base s)))
                           (next_id OrderPaymentDetail.id (orderPaymentDetails d1))])))
              (orderContents s
               ++ [order_content req (OrderServiceType.id service)
                     (EntityType.id type) (OrderFormat.id format)
                     (next_id Order.id (orders (base s)))]).
Proof.
  intros Hid Hrun.
  destruct (saveOrderDetails_lookups _ _ _ _ _ Hrun)
    as (client & service & type & status & format & Hc & Hs & Ht & Ha & Hf).
  rewrite (saveOrderDetails_create_cases defaults req s client service type status
             format Hid Hc Hs Ht Ha Hf) in Hrun.
  cbv zeta in Hrun.
  destruct (attachFiles _ _ _ _ _) as [[u|e] d1] eqn:Hattach; [|discriminate].
  destruct (find _ (currencies (base s))) as [currency|]; [|discriminate].
  injection Hrun as <- <-.
  exists client, service, type, status, format, u, d1, currency.
  now repeat split.
Qed.

(** A creation that returns answers with the key of the new order, which
    is above the key of every order of the store, and appends one order of
    the caller with the status [Available] and the page count of the
    request, one posting step of the caller at step 1 for it, one file row
    per supporting file in the order of the request, and one payment detail
    for it with the total price of the summary. *)
Theorem saveOrderDetails_places_order (defaults : OrderFileDefaults)
  (req : PlaceReq.t) (s s1 : Store) (r : PlaceResult) :
  PlaceReq.orderId req <= 0 ->
  saveOrderDetails defaults req s = (Ok r, s1) ->
  r = Placed (next_id Order.id (orders (base s)))
  /\ (forall o, In o (orders (base s)) ->
        Order.id o < next_id Order.id (orders (base s)))
  /\ exists client status,
       caller (PlaceReq.email req) (base s) = Some client
       /\ available (base s) = Some status
       /\ orders (base s1)
          = orders (base s)
            ++ [Order.mk (next_id Order.id (orders (base s))) (Client.id client)
                  (OrderStatus.id status) (PlaceReq.pageCount req)]
       /\ clientOrderPostingSteps (base s1)
          = clientOrderPostingSteps (base s)
            ++ [ClientOrderPostingStep.mk
                  (next_id ClientOrderPostingStep.id
                     (clientOrderPostingSteps (base s)))
                  (Client.id client)
                  (Some (next_id Order.id (orders (base s)))) 1]
       /\ (exists rows,
             orderFiles (base s1) = orderFiles (base s) ++ rows
             /\ map OrderFile.fileUrl rows
                = map SupportingFile.fileUrl (PlaceReq.supportingFiles req)
             /\ forall row, In row rows ->
                  OrderFile.orderId row = next_id Order.id (orders (base s)))
       /\ exists detail,
            orderPaymentDetails (base s1) = orderPaymentDetails (base s) ++ [detail]
            /\ OrderPaymentDetail.orderId detail
               = Some (next_id Order.id (orders (base s)))
            /\ OrderPaymentDetail.totalPrice detail
               = PaymentSummary.totalPrice (PlaceReq.paymentSummary req).
Proof.
  intros Hid Hrun.
  destruct (saveOrderDetails_create_inv _ _ _ _ _ Hid Hrun)
    as (client & service & type & status & format & u & d1 & currency
        & Hc & Ha & Hattach & Hr & Hs1).
  split; [exact Hr|]. split; [intros o Hin; now apply next_id_fresh|].
  exists client, status. split; [exact Hc|]. split; [exact Ha|].
  apply attachFiles_run in Hattach as (rows & Hd1 & Hurls & _ & Hrows & _).
  rewrite Hs1, Hd1. cbn [base set_orderContents set_base].
  split; [reflexivity|]. split; [reflexivity|]. split.
  - exists rows. split; [reflexivity|]. split; [exact Hurls|].
    intros row Hin. now apply Hrows.
  - eexists. split; [reflexivity|]. split; reflexivity.
Qed.

(** The first client places a new order with the three files: it is
    order 7. *)
Lemma saveOrderDetails_places_order_witness :
  Placed 7 = Placed (next_id Order.id (orders (base sample_store)))
  /\ (forall o, In o (orders (base sample_store)) ->
        Order.id o < next_id Order.id (orders (base sample_store)))
  /\ exists client status,
       caller (PlaceReq.email (sample_placement 0 sample_files)) (base sample_store)
       = Some client
       /\ available (base sample_store) = Some status
       /\ orders (base (snd (saveOrderDetails sample_defaults
                               (sample_placement 0 sample_files) sample_store)))
          = orders (base sample_store)
            ++ [Order.mk (next_id Order.id (orders (base sample_store)))
                  (Client.id client) (OrderStatus.id status)
                  (PlaceReq.pageCount (sample_placement 0 sample_files))]
       /\ clientOrderPostingSteps
            (base (snd (saveOrderDetails sample_defaults
                          (sample_placement 0 sample_files) sample_store)))
          = clientOrderPostingSteps (base sample_store)
            ++ [ClientOrderPostingStep.mk
                  (next_id ClientOrderPostingStep.id
                     (clientOrderPostingSteps (base sample_store)))
                  (Client.id client)
                  (Some (next_id Order.id (orders (base sample_store)))) 1]
       /\ (exists rows,
             orderFiles (base (snd (saveOrderDetails sample_defaults
                                      (sample_placement 0 sample_files) sample_store)))
             = orderFiles (base sample_store) ++ rows
             /\ map OrderFile.fileUrl rows
                = map SupportingFile.fileUrl
                    (PlaceReq.supportingFiles (sample_placement 0 sample_files))
             /\ forall row, In row rows ->
                  OrderFile.orderId row
                  = next_id Order.id (orders (base sample_store)))
       /\ exists detail,
            orderPaymentDetails
              (base (snd (saveOrderDetails sample_defaults
                            (sample_placement 0 sample_files) sample_store)))
            = orderPaymentDetails (base sample_store) ++ [detail]
            /\ OrderPaymentDetail.orderId detail
               = Some (next_id Order.id (orders (base sample_store)))
            /\ OrderPaymentDetail.totalPrice detail
               = PaymentSummary.totalPrice
                   (PlaceReq.paymentSummary (sample_placement 0 sample_files)).
Proof.
  apply (saveOrderDetails_places_order sample_defaults
           (sample_placement 0 sample_files) sample_store
           (snd (saveOrderDetails sample_defaults (sample_placement 0 sample_files)
                   sample_store))
           (Placed 7));
    [vm_compute; discriminate|vm_compute; reflexivity].
Defined.

(** A creation with a supporting file whose name has more than 50
    characters and no dot rejects, and nothing of it is stored: no order, no
    posting step and no file. *)
Theorem saveOrderDetails_rejects_bad_file_name (defaults : OrderFileDefaults)
  (req : PlaceReq.t) (s : Store) :
  PlaceReq.orderId req <= 0 ->
  existsb (fun file =>
             (50 <? len (SupportingFile.originalName file))
             && negb (has_dot (SupportingFile.originalName file)))
    (PlaceReq.supportingFiles req) = true ->
  exists e, saveOrderDetails defaults req s = (Throw e, s).
Proof.
  intros Hid Hbad.
  assert (Hall : all_formattable (PlaceReq.supportingFiles req) = false).
  { apply existsb_exists in Hbad as (file & Hin & Hfile).
    apply andb_prop in Hfile as [Hlong Hdot].
    apply Z.ltb_lt in Hlong. apply negb_true_iff in Hdot.
    destruct (all_formattable _) eqn:Hall; [|reflexivity].
    unfold all_formattable in Hall. rewrite forallb_forall in Hall.
    specialize (Hall file Hin).
    rewrite originalNameFormatter_no_dot in Hall;
      [discriminate|unfold len in Hlong; lia|now apply has_dot_false]. }
  destruct (saveOrderDetails defaults req s) as [[r|e] s1] eqn:Hrun.
  - destruct (saveOrderDetails_create_inv _ _ _ _ _ Hid Hrun)
      as (client & service & type & status & format & u & d1 & currency
          & _ & _ & Hattach & _).
    apply attachFiles_run in Hattach as (rows & _ & _ & _ & _ & Hok).
    congruence.
  - apply (saveOrderDetails_create_throws _ _ _ _ _ Hid) in Hrun. subst s1.
    now exists e.
Qed.

(** The first client places a new order with two files: the name of the
    second has 59 characters and no dot. *)
Lemma saveOrderDetails_rejects_bad_file_name_witness :
  exists e,
    saveOrderDetails sample_defaults
      (sample_placement 0
         [SupportingFile.mk (lit "uploads/a1") (lit "notes.pdf");
          SupportingFile.mk (lit "uploads/a2")
            (lit "Screenshot 2021-03-01 at 14-30-59 annotated by the examiner")])
      sample_store
    = (Throw e, sample_store).
Proof.
  apply (saveOrderDetails_rejects_bad_file_name sample_defaults
           (sample_placement 0
              [SupportingFile.mk (lit "uploads/a1") (lit "notes.pdf");
               SupportingFile.mk (lit "uploads/a2")
                 (lit "Screenshot 2021-03-01 at 14-30-59 annotated by the examiner")])
           sample_store);
    [vm_compute; discriminate|reflexivity].
Defined.
